(** * islandflow / ingest-options: the two Python feed adapters

    A shallow embedding of
      - [services/ingest-options/py/databento_replay.py] (module [Replay])
      - [services/ingest-options/py/ibkr_stream.py]      (module [Live])
    over a small model of the Python values and built-ins they use
    (module [Py]).

    Python [int] is [Z]; Python [float] is IEEE binary64, taken from the
    standard library's [SpecFloat] (precision 53, [emax] 1024), so that
    [int(v / 1_000_000)] and [int(ts.timestamp() * 1000)] round exactly as
    the interpreter does.  Exceptions are values of [result]; mutable state
    (resolver queue, record buffer, standard output, the log of outbound
    symbology requests, the live [last_key]) is passed explicitly. *)

From Stdlib Require Import ZArith Lia Ascii String SpecFloat.
From stdpp Require Import base option list strings gmap sets pretty.

Local Open Scope Z_scope.

(** ** Python values, exceptions and built-ins *)
Module Py.

Inductive exn :=
| TypeError
| ValueError
| OverflowError
| AttributeError
| ZeroDivisionError
| ExternalError (what : string).

Inductive result (A : Type) :=
| Ok (a : A)
| Raise (e : exn).
Arguments Ok {A} a.
Arguments Raise {A} e.

Definition rbind {A B} (r : result A) (k : A → result B) : result B :=
  match r with
  | Ok a => k a
  | Raise e => Raise e
  end.

Notation "'let?' x ':=' r 'in' k" := (rbind r (fun x => k))
  (at level 20, x name, r at level 100, k at level 200).

(** *** binary64 *)
Definition float := spec_float.

Definition fadd : float → float → float := SFadd 53 1024.
Definition fmul : float → float → float := SFmul 53 1024.
Definition fdiv : float → float → float := SFdiv 53 1024.

(** An integer seen as an unrounded significand with exponent 0. *)
Definition exact_of_int (z : Z) : float :=
  match z with
  | Z0 => S754_zero false
  | Zpos p => S754_finite false p 0
  | Zneg p => S754_finite true p 0
  end.

(** [float(z)]: round to nearest even; too large an [int] raises. *)
Definition float_of_int (z : Z) : result float :=
  match binary_normalize 53 1024 z 0 false with
  | S754_infinity _ => Raise OverflowError
  | f => Ok f
  end.

(** [a / b] on two [int]s: CPython rounds the exact quotient once. *)
Definition int_truediv (a b : Z) : result float :=
  if b =? 0 then Raise ZeroDivisionError
  else match fdiv (exact_of_int a) (exact_of_int b) with
       | S754_infinity _ => Raise OverflowError
       | f => Ok f
       end.

(** [int(f)]: truncation towards zero. *)
Definition int_of_float (f : float) : result Z :=
  match f with
  | S754_zero _ => Ok 0
  | S754_finite s m e =>
      let a := if 0 <=? e then Z.pos m * 2 ^ e else Z.pos m / 2 ^ (- e) in
      Ok (if s then - a else a)
  | S754_infinity _ => Raise OverflowError
  | S754_nan => Raise ValueError
  end.

(** A finite float as the pair [(n, e)] standing for [n * 2^e]. *)
Definition dyadic (f : float) : option (Z * Z) :=
  match f with
  | S754_zero _ => Some (0, 0)
  | S754_finite s m e => Some (if s then Z.neg m else Z.pos m, e)
  | _ => None
  end.

Definition dyadic_compare (x y : Z * Z) : comparison :=
  let e := Z.min x.2 y.2 in
  (x.1 * 2 ^ (x.2 - e)) ?= (y.1 * 2 ^ (y.2 - e)).

(** Python compares numbers of different types by their exact values. *)
Definition float_compare (f g : float) : option comparison :=
  match f, g with
  | S754_nan, _ | _, S754_nan => None
  | S754_infinity s, S754_infinity t =>
      Some (if s then (if t then Eq else Lt) else (if t then Gt else Eq))
  | S754_infinity s, _ => Some (if s then Lt else Gt)
  | _, S754_infinity t => Some (if t then Gt else Lt)
  | _, _ =>
      match dyadic f, dyadic g with
      | Some x, Some y => Some (dyadic_compare x y)
      | _, _ => None
      end
  end.

Definition float_gt_int (f : float) (z : Z) : bool :=
  match float_compare f (exact_of_int z) with
  | Some Gt => true
  | _ => false
  end.

Definition float_eqb (f g : float) : bool :=
  match float_compare f g with
  | Some Eq => true
  | _ => false
  end.

(** The floats [1.0], [1000.0] and [1000000.0]. *)
Definition f1 : float := Eval vm_compute in binary_normalize 53 1024 1 0 false.
Definition f1000 : float := Eval vm_compute in binary_normalize 53 1024 1000 0 false.
Definition f1e6 : float := Eval vm_compute in binary_normalize 53 1024 1000000 0 false.

(** *** dates *)

(** A [datetime.date], by its proleptic Gregorian ordinal
    ([date.toordinal()], 1 for 0001-01-01). *)
Record date := Date { toordinal : Z }.

(** A [datetime.datetime]; [tzinfo] is the UTC offset in seconds of an
    aware value and [None] for a naive one. *)
Record datetime := Datetime {
  dt_date : date;
  hour : Z;
  minute : Z;
  second : Z;
  microsecond : Z;
  tzinfo : option Z
}.

Definition is_leap (y : Z) : bool :=
  (y mod 4 =? 0) && (negb (y mod 100 =? 0) || (y mod 400 =? 0)).

Definition days_before_year (y : Z) : Z :=
  let p := y - 1 in p * 365 + p / 4 - p / 100 + p / 400.

Definition days_before_month (y m : Z) : Z :=
  nth (Z.to_nat m) [0; 0; 31; 59; 90; 120; 151; 181; 212; 243; 273; 304; 334] 0
  + (if (2 <? m) && is_leap y then 1 else 0).

(** [date(y, m, d)] *)
Definition ymd (y m d : Z) : date :=
  Date (days_before_year y + days_before_month y m + d).

Definition epoch_ordinal : Z := 719163.

(** Seconds from 1970-01-01T00:00:00 to the wall-clock fields. *)
Definition wall_seconds (t : datetime) : Z :=
  (toordinal (dt_date t) - epoch_ordinal) * 86400
  + hour t * 3600 + minute t * 60 + second t.

(** [datetime.combine(d, time())] *)
Definition combine_midnight (d : date) : datetime :=
  Datetime d 0 0 0 0 None.

(** [t.replace(tzinfo=timezone.utc)] *)
Definition replace_tzinfo_utc (t : datetime) : datetime :=
  Datetime (dt_date t) (hour t) (minute t) (second t) (microsecond t) (Some 0).

(** *** values *)
#[local] Set Warnings "-register-all".
Inductive pyval :=
| PyNone
| PyBool (b : bool)
| PyInt (z : Z)
| PyFloat (f : float)
| PyStr (s : string)
| PyBytes (b : string)
| PyDate (d : date)
| PyDatetime (t : datetime)
| PyList (l : list pyval).

(** [bool(v)] *)
Definition truthy (v : pyval) : bool :=
  match v with
  | PyNone => false
  | PyBool b => b
  | PyInt z => negb (z =? 0)
  | PyFloat (S754_zero _) => false
  | PyFloat _ => true
  | PyStr s => negb (String.eqb s "")
  | PyBytes b => negb (String.eqb b "")
  | PyDate _ | PyDatetime _ => true
  | PyList l => match l with [] => false | _ => true end
  end.

(** [a or b] *)
Definition py_or (a b : pyval) : pyval := if truthy a then a else b.

Definition is_none (v : pyval) : bool :=
  match v with PyNone => true | _ => false end.

(** [s.isdigit()], strings being ASCII text. *)
Definition is_digit_char (c : ascii) : bool :=
  let n := Z.of_nat (nat_of_ascii c) in (48 <=? n) && (n <=? 57).

Fixpoint all_digits (s : string) : bool :=
  match s with
  | EmptyString => true
  | String c s' => is_digit_char c && all_digits s'
  end.

Definition isdigit (s : string) : bool :=
  negb (String.eqb s "") && all_digits s.

Fixpoint int_of_digits_from (acc : Z) (s : string) : Z :=
  match s with
  | EmptyString => acc
  | String c s' => int_of_digits_from (acc * 10 + (Z.of_nat (nat_of_ascii c) - 48)) s'
  end.

Definition int_of_digits (s : string) : Z := int_of_digits_from 0 s.

(** [a == b].  Numbers of any type compare by value and [nan] equals
    nothing; that a tuple comparison also takes two references to one
    object as equal is not represented, values having no identity here. *)
Definition num_view (v : pyval) : option float :=
  match v with
  | PyBool b => Some (exact_of_int (if b then 1 else 0))
  | PyInt z => Some (exact_of_int z)
  | PyFloat f => Some f
  | _ => None
  end.

Definition datetime_eqb (t u : datetime) : bool :=
  match tzinfo t, tzinfo u with
  | None, None =>
      (wall_seconds t =? wall_seconds u) && (microsecond t =? microsecond u)
  | Some a, Some b =>
      (wall_seconds t - a =? wall_seconds u - b) && (microsecond t =? microsecond u)
  | _, _ => false
  end.

Fixpoint py_eq (a b : pyval) : bool :=
  match a, b with
  | PyNone, PyNone => true
  | PyStr s, PyStr t => String.eqb s t
  | PyBytes s, PyBytes t => String.eqb s t
  | PyDate d, PyDate e => toordinal d =? toordinal e
  | PyDatetime t, PyDatetime u => datetime_eqb t u
  | PyList l, PyList k =>
      (fix go (l : list pyval) (k : list pyval) : bool :=
         match l, k with
         | [], [] => true
         | x :: l', y :: k' => py_eq x y && go l' k'
         | _, _ => false
         end) l k
  | _, _ =>
      match num_view a, num_view b with
      | Some f, Some g => float_eqb f g
      | _, _ => false
      end
  end.

(** What the interpreter and the process environment supply and the two
    scripts do not determine. *)
Class Runtime := {
  (** UTC offset, in seconds, that the local time zone gives to a naive
      wall-clock reading (what [mktime] applies). *)
  local_utcoffset : Z → Z;
  (** [date.today()] *)
  today : date;
  (** [str(v)] for floats, dates and lists. *)
  repr_other : pyval → string;
  (** [b.decode("utf-8", errors="ignore")] *)
  decode_ignore : string → string;
  (** [int(s)] and [float(s)] on text that is not a plain digit string. *)
  int_of_text : string → result Z;
  float_of_text : string → result float
}.

Section WithRuntime.
Context {RT : Runtime}.

(** [str(v)] *)
Definition py_str (v : pyval) : string :=
  match v with
  | PyNone => "None"
  | PyBool true => "True"
  | PyBool false => "False"
  | PyInt z => pretty z
  | PyStr s => s
  | _ => repr_other v
  end.

(** [int(v)] *)
Definition py_int (v : pyval) : result Z :=
  match v with
  | PyBool b => Ok (if b then 1 else 0)
  | PyInt z => Ok z
  | PyFloat f => int_of_float f
  | PyStr s | PyBytes s => if isdigit s then Ok (int_of_digits s) else int_of_text s
  | _ => Raise TypeError
  end.

(** [float(v)] *)
Definition py_float (v : pyval) : result float :=
  match v with
  | PyBool b => Ok (if b then f1 else S754_zero false)
  | PyInt z => float_of_int z
  | PyFloat f => Ok f
  | PyStr s | PyBytes s => float_of_text s
  | _ => Raise TypeError
  end.

(** [t.timestamp()]: an aware value goes through
    [(t - epoch).total_seconds()], a true division of two integers; a
    naive one is read in the local time zone and its microseconds are
    added in floating point. *)
Definition timestamp (t : datetime) : result float :=
  match tzinfo t with
  | Some off =>
      int_truediv ((wall_seconds t - off) * 1000000 + microsecond t) 1000000
  | None =>
      let w := wall_seconds t in
      let? secs := float_of_int (w - local_utcoffset w) in
      let? us := float_of_int (microsecond t) in
      Ok (fadd secs (fdiv us f1e6))
  end.

End WithRuntime.

End Py.

(** ** databento_replay.py *)
Module Replay.
Import Py.

(** A provider record is read only through [getattr(record, name, None)]:
    it is the finite map of its attributes. *)
Definition getattr (record : gmap string pyval) (name : string) : pyval :=
  default PyNone (record !! name).

(** The JSON object of one output line, keys in insertion order. *)
Definition payload := list (string * pyval).

Fixpoint payload_get (key : string) (p : payload) : option pyval :=
  match p with
  | [] => None
  | (k, v) :: p' => if String.eqb k key then Some v else payload_get key p'
  end.

(** [json.dumps] raises [TypeError] on bytes and dates. *)
Fixpoint json_serializable (v : pyval) : bool :=
  match v with
  | PyBytes _ | PyDate _ | PyDatetime _ => false
  | PyList l => forallb json_serializable l
  | _ => true
  end.

(** The keyword arguments of one [client.symbology.resolve] call. *)
Record request := Request {
  dataset : string;
  symbols : list Z;
  stype_in : string;
  stype_out : string;
  start_date : date;
  end_date : option date
}.

(** The Databento client library, as far as the script uses it. *)
Class Databento := {
  (** [databento.common.symbology.InstrumentMap] and its constructor *)
  instrument_map : Type;
  InstrumentMap : instrument_map;
  (** what [client.symbology.resolve] returns *)
  response : Type;
  (** [client.symbology.resolve(...)], which may answer differently every
      time: it sees the requests made before it. *)
  symbology_resolve : list request → request → result response;
  (** [m.insert_json(response)] updates the map and may raise. *)
  insert_json : instrument_map → response → instrument_map * result unit;
  (** [m.resolve(instrument_id, date)] *)
  map_resolve : instrument_map → Z → date → option string;
  (** whether [data.replay] takes its argument by the keyword [callback] *)
  replay_takes_callback_keyword : bool
}.

Section WithClient.
Context {RT : Runtime} {DB : Databento}.

Definition normalize_ts (ts_value : pyval) : result (option Z) :=
  match ts_value with
  | PyNone => Ok None
  | PyDatetime t =>
      let? s := timestamp t in
      let? ms := int_of_float (fmul s f1000) in
      Ok (Some ms)
  | PyDate d =>
      let? s := timestamp (combine_midnight d) in
      let? ms := int_of_float (fmul s f1000) in
      Ok (Some ms)
  | PyBool b => Ok (Some (if b then 1 else 0))
  | PyInt v =>
      if 1000000000000000 <? v then
        let? q := int_truediv v 1000000 in
        let? ms := int_of_float q in
        Ok (Some ms)
      else Ok (Some v)
  | PyFloat f =>
      if float_gt_int f 1000000000000000 then
        let? ms := int_of_float (fdiv f f1e6) in
        Ok (Some ms)
      else
        let? ms := int_of_float f in
        Ok (Some ms)
  | _ => Ok None
  end.

Definition stringify (value : pyval) : pyval :=
  match value with
  | PyNone => PyNone
  | PyBytes b => PyStr (decode_ignore b)
  | _ => PyStr (py_str value)
  end.

Definition is_numeric_symbol (value : pyval) : bool :=
  match value with
  | PyBool _ | PyInt _ => true
  | PyStr s => isdigit s
  | _ => false
  end.

(** *** class SymbolResolver *)
Record SymbolResolver := mkResolver {
  _dataset : string;
  _start_date : option date;
  _end_date : option date;
  _map : instrument_map;
  _pending : list Z;
  _pending_set : gset Z
}.

(** [SymbolResolver(client, dataset, start_date, end_date)] *)
Definition init (dataset : string) (start_date end_date : option date) : SymbolResolver :=
  mkResolver dataset start_date end_date InstrumentMap [] ∅.

Definition queue (instrument_id : Z) (self : SymbolResolver) : SymbolResolver :=
  if decide (instrument_id ∈ _pending_set self) then self
  else mkResolver (_dataset self) (_start_date self) (_end_date self) (_map self)
         (_pending self ++ [instrument_id])
         ({[instrument_id]} ∪ _pending_set self).

Definition lookup (self : SymbolResolver) (instrument_id : Z) (d : date) : pyval :=
  match map_resolve (_map self) instrument_id d with
  | Some s => PyStr s
  | None => PyNone
  end.

Definition pending_count (self : SymbolResolver) : nat := length (_pending self).

(** *** the state of [main] and the statements that change it *)
Record state := mkState {
  resolver : SymbolResolver;
  buffered : list (gmap string pyval * Z * date);
  stdout : list payload;
  outbound : list request
}.

Definition M (A : Type) : Type := state → state * result A.

Definition ret {A} (a : A) : M A := fun st => (st, Ok a).
Definition raise {A} (e : exn) : M A := fun st => (st, Raise e).
Definition lift {A} (r : result A) : M A := fun st => (st, r).
Definition bind {A B} (m : M A) (k : A → M B) : M B :=
  fun st =>
    match m st with
    | (st', Ok a) => k a st'
    | (st', Raise e) => (st', Raise e)
    end.

Notation "'let*' x ':=' m 'in' k" := (bind m (fun x => k))
  (at level 20, x name, m at level 100, k at level 200).
Notation "m1 ';;' m2" := (bind m1 (fun _ => m2))
  (at level 100, m2 at level 200, right associativity).

(** [for x in l: body(x)] *)
Fixpoint for_each {A} (body : A → M unit) (l : list A) : M unit :=
  match l with
  | [] => ret tt
  | x :: l' => body x ;; for_each body l'
  end.

(** [range(start, stop, step)], at most [fuel] elements. *)
Fixpoint range_from (fuel start stop step : nat) : list nat :=
  match fuel with
  | O => []
  | S fuel' =>
      if (start <? stop)%nat then start :: range_from fuel' (start + step)%nat stop step
      else []
  end.

Definition range (start stop step : nat) : list nat :=
  range_from stop start stop step.

Definition set_map (m : instrument_map) (self : SymbolResolver) : SymbolResolver :=
  mkResolver (_dataset self) (_start_date self) (_end_date self) m
    (_pending self) (_pending_set self).

Definition clear_pending (self : SymbolResolver) : SymbolResolver :=
  mkResolver (_dataset self) (_start_date self) (_end_date self) (_map self) [] ∅.

(** One turn of the loop of [resolve_pending]. *)
Definition resolve_chunk (pending : list Z) (i : nat) : M unit :=
  fun st =>
    let self := resolver st in
    let chunk := take 2000 (drop i pending) in
    let rq := Request (_dataset self) chunk "instrument_id" "raw_symbol"
                (default today (_start_date self)) (_end_date self) in
    let sent := outbound st ++ [rq] in
    match symbology_resolve (outbound st) rq with
    | Raise e => (mkState self (buffered st) (stdout st) sent, Raise e)
    | Ok answer =>
        let '(m, r) := insert_json (_map self) answer in
        (mkState (set_map m self) (buffered st) (stdout st) sent, r)
    end.

Definition resolve_pending : M unit :=
  fun st =>
    let self := resolver st in
    match _pending self with
    | [] => (st, Ok tt)
    | _ =>
        let pending := _pending self in
        let st1 := mkState (clear_pending self) (buffered st) (stdout st) (outbound st) in
        for_each (resolve_chunk pending) (range 0 (length pending) 2000) st1
    end.

Definition build_payload (record : gmap string pyval) (symbol_override : pyval)
  : result (option payload) :=
  let ts_event := getattr record "ts_event" in
  let price := getattr record "price" in
  let size := getattr record "size" in
  let symbol :=
    py_or symbol_override
      (py_or (py_or (getattr record "symbol") (getattr record "raw_symbol"))
         (getattr record "instrument_id")) in
  if is_none ts_event || is_none price || is_none size || is_none symbol then Ok None
  else
    let? ts_ms := normalize_ts ts_event in
    match ts_ms with
    | None => Ok None
    | Some ts_ms =>
        let exchange :=
          py_or (py_or (getattr record "exchange") (getattr record "publisher_id"))
            (getattr record "exchange_id") in
        let conditions := py_or (getattr record "conditions") (getattr record "condition") in
        let conditions :=
          match conditions with
          | PyStr s => PyList [PyStr s]
          | _ => conditions
          end in
        let? price' := py_float price in
        let? size' := py_int size in
        let p := [("ts", PyInt ts_ms); ("price", PyFloat price');
                  ("size", PyInt size'); ("symbol", stringify symbol)] in
        let p := if is_none exchange then p else p ++ [("exchange", stringify exchange)] in
        let p := if truthy conditions then p ++ [("conditions", conditions)] else p in
        Ok (Some p)
    end.

(** [print(json.dumps(payload), flush=True)]: one more line on standard
    output, kept as the object it encodes. *)
Definition print_json (p : payload) : M unit :=
  fun st =>
    if forallb (fun kv => json_serializable kv.2) p then
      (mkState (resolver st) (buffered st) (stdout st ++ [p]) (outbound st), Ok tt)
    else (st, Raise TypeError).

Definition emit_payload (p : option payload) : M unit :=
  match p with
  | None => ret tt
  | Some p => print_json p
  end.

(** *** the closures of [main] *)

(** The loop of [flush_buffer], [remaining] being its local list. *)
Fixpoint flush_entries (force : bool) (entries remaining : list (gmap string pyval * Z * date))
  : M (list (gmap string pyval * Z * date)) :=
  match entries with
  | [] => ret remaining
  | (record, instrument_id, d) :: entries' =>
      fun st =>
        let mapped := lookup (resolver st) instrument_id d in
        if truthy mapped then
          (let* p := lift (build_payload record mapped) in
           emit_payload p ;;
           flush_entries force entries' remaining) st
        else if force then
          (let* p := lift (build_payload record (PyStr (py_str (PyInt instrument_id)))) in
           emit_payload p ;;
           flush_entries force entries' remaining) st
        else flush_entries force entries' (remaining ++ [(record, instrument_id, d)]) st
  end.

Definition set_buffered (b : list (gmap string pyval * Z * date)) : M unit :=
  fun st => (mkState (resolver st) b (stdout st) (outbound st), Ok tt).

Definition flush_buffer (force : bool) : M unit :=
  fun st =>
    match buffered st with
    | [] => (st, Ok tt)
    | _ =>
        (resolve_pending ;;
         let* remaining := flush_entries force (buffered st) [] in
         set_buffered remaining) st
    end.

(** [dt.datetime.utcfromtimestamp(ts_ms / 1000).date()].  The quotient is
    a double and is then rounded to microseconds; both errors stay far
    below the millisecond that separates an integer [ts_ms] from the next
    midnight, so the date is that of the exact instant.  Years outside
    1..9999 raise. *)
Definition utcfromtimestamp_date (ts_ms : Z) : result date :=
  let? _ := int_truediv ts_ms 1000 in
  let ordinal := epoch_ordinal + ts_ms / 86400000 in
  if (1 <=? ordinal) && (ordinal <=? 3652059) then Ok (Date ordinal)
  else Raise ValueError.

Definition enqueue (record : gmap string pyval) (instrument_id : Z) (d : date) : M unit :=
  fun st =>
    (mkState (queue instrument_id (resolver st))
       (buffered st ++ [(record, instrument_id, d)]) (stdout st) (outbound st), Ok tt).

Definition handle_record (record : gmap string pyval) : M unit :=
  let symbol :=
    py_or (py_or (getattr record "symbol") (getattr record "raw_symbol"))
      (getattr record "instrument_id") in
  let ts_event := getattr record "ts_event" in
  let* ts_ms := lift (normalize_ts ts_event) in
  match ts_ms with
  | None => ret tt
  | Some ts_ms =>
      let* d := lift (utcfromtimestamp_date ts_ms) in
      if is_numeric_symbol symbol then
        let* instrument_id := lift (py_int symbol) in
        fun st =>
          let mapped := lookup (resolver st) instrument_id d in
          if truthy mapped then
            (let* p := lift (build_payload record mapped) in emit_payload p) st
          else
            (enqueue record instrument_id d ;;
             fun st' =>
               if (200 <=? pending_count (resolver st'))%nat then flush_buffer false st'
               else (st', Ok tt)) st
      else
        let* p := lift (build_payload record PyNone) in
        emit_payload p
  end.

(** [try: a  except TypeError: b] *)
Definition try_except_TypeError {A} (a b : M A) : M A :=
  fun st =>
    match a st with
    | (st', Raise TypeError) => b st'
    | other => other
    end.

(** [data.replay(...)] calls the callback on every record in turn. *)
Definition data_replay (data : list (gmap string pyval)) (callback : gmap string pyval → M unit)
  : M unit :=
  for_each callback data.

(** The branch [if hasattr(data, "replay")] of [main]. *)
Definition main_replay (data : list (gmap string pyval)) : M Z :=
  try_except_TypeError
    (if replay_takes_callback_keyword then data_replay data handle_record
     else raise TypeError)
    (data_replay data handle_record) ;;
  flush_buffer true ;;
  ret 0.

(** The body of [for record in data]. *)
Definition iter_step (record : gmap string pyval) : M unit :=
  handle_record record ;;
  fun st =>
    if (2000 <=? length (buffered st))%nat then flush_buffer false st
    else (st, Ok tt).

(** The branch [if hasattr(data, "__iter__")] of [main]. *)
Definition main_iter (data : list (gmap string pyval)) : M Z :=
  for_each iter_step data ;;
  flush_buffer true ;;
  ret 0.

(** [main], from the point where [data] has been fetched. *)
Definition main (has_replay has_iter : bool) (data : list (gmap string pyval)) : M Z :=
  if has_replay then main_replay data
  else if has_iter then main_iter data
  else ret 1.

Definition initial_state (dataset : string) (start_date end_date : option date) : state :=
  mkState (init dataset start_date end_date) [] [] [].

End WithClient.
End Replay.

(** ** ibkr_stream.py *)
Module Live.
Import Py.

(** The [ib_insync] ticker handed to the handler.  [lastExchange] is
    probed with [hasattr]; [exchange] is read unguarded, so its absence
    raises [AttributeError]. *)
Record Ticker := mkTicker {
  last : pyval;
  lastSize : pyval;
  time : option datetime;
  lastExchange : option pyval;
  exchange : option pyval
}.

(** The JSON object of one output line, keys in insertion order. *)
Definition payload := list (string * pyval).

Record state := mkState {
  last_key : option (Z * pyval * pyval);
  stdout : list payload
}.

Section WithRuntime.
Context {RT : Runtime}.

(** [key == last_key] *)
Definition key_eq (key : Z * pyval * pyval) (last_key : option (Z * pyval * pyval)) : bool :=
  match last_key with
  | None => false
  | Some k => (key.1.1 =? k.1.1) && py_eq key.1.2 k.1.2 && py_eq key.2 k.2
  end.

(** The timestamp of a tick; [now] is what [time.time()] reads. *)
Definition tick_ts_ms (updated_ticker : Ticker) (now : float) : result Z :=
  match time updated_ticker with
  | None => int_of_float (fmul now f1000)
  | Some ts =>
      let ts := match tzinfo ts with None => replace_tzinfo_utc ts | Some _ => ts end in
      let? s := timestamp ts in
      int_of_float (fmul s f1000)
  end.

Definition tick_exchange (updated_ticker : Ticker) : result pyval :=
  let exchange0 := default PyNone (lastExchange updated_ticker) in
  if truthy exchange0 then Ok exchange0
  else match exchange updated_ticker with
       | None => Raise AttributeError
       | Some e => Ok (py_or e (PyStr "IBKR"))
       end.

Definition print_json (p : payload) (st : state) : state * result unit :=
  if forallb (fun kv => Replay.json_serializable kv.2) p then
    (mkState (last_key st) (stdout st ++ [p]), Ok tt)
  else (st, Raise TypeError).

Definition on_update (updated_ticker : Ticker) (now : float) (st : state)
  : state * result unit :=
  if is_none (last updated_ticker) || is_none (lastSize updated_ticker) then (st, Ok tt)
  else
    match tick_ts_ms updated_ticker now with
    | Raise e => (st, Raise e)
    | Ok ts_ms =>
        let key := (ts_ms, last updated_ticker, lastSize updated_ticker) in
        if key_eq key (last_key st) then (st, Ok tt)
        else
          let st1 := mkState (Some key) (stdout st) in
          match
            (let? exchange := tick_exchange updated_ticker in
             let? price := py_float (last updated_ticker) in
             let? size := py_int (lastSize updated_ticker) in
             Ok [("ts", PyInt ts_ms); ("price", PyFloat price);
                 ("size", PyInt size); ("exchange", exchange)])
          with
          | Raise e => (st1, Raise e)
          | Ok p => print_json p st1
          end
    end.

(** [ib.run()]: the event loop calls the handler on every update; an
    exception of the handler is logged by the event and the loop goes on. *)
Fixpoint run (updates : list (Ticker * float)) (st : state) : state :=
  match updates with
  | [] => st
  | (t, now) :: updates' => run updates' (on_update t now st).1
  end.

Definition initial_state : state := mkState None [].

End WithRuntime.
End Live.

(** ** Concrete environments for the examples *)
Module Examples.
Import Py.

(** A process whose local time zone is UTC. *)
Definition utc_runtime : Runtime := {|
  local_utcoffset := fun _ => 0;
  today := ymd 2024 1 2;
  repr_other := fun _ => "<object>";
  decode_ignore := fun b => b;
  int_of_text := fun _ => Raise ValueError;
  float_of_text := fun _ => Raise ValueError
|}.

(** A process whose local time zone is one hour east of UTC. *)
Definition cet_runtime : Runtime := {|
  local_utcoffset := fun _ => 3600;
  today := ymd 2024 1 2;
  repr_other := fun _ => "<object>";
  decode_ignore := fun b => b;
  int_of_text := fun _ => Raise ValueError;
  float_of_text := fun _ => Raise ValueError
|}.

(** A symbology service that answers every request and knows no symbol. *)
Definition silent_client : Replay.Databento := {|
  Replay.instrument_map := unit;
  Replay.InstrumentMap := tt;
  Replay.response := unit;
  Replay.symbology_resolve := fun _ _ => Ok tt;
  Replay.insert_json := fun m _ => (m, Ok tt);
  Replay.map_resolve := fun _ _ _ => None;
  Replay.replay_takes_callback_keyword := true
|}.

(** The float [10.5]. *)
Definition f10_5 : float := Eval vm_compute in fdiv (exact_of_int 21) (exact_of_int 2).

(** A trade print that carries only a numeric instrument id. *)
Definition trade (instrument_id ts_event : Z) : gmap string pyval :=
  <["instrument_id" := PyInt instrument_id]>
    (<["ts_event" := PyInt ts_event]>
       (<["price" := PyFloat f10_5]> (<["size" := PyInt 5]> ∅))).

(** Three prints of two unresolved instruments, taken in by the handler. *)
Definition three_buffered : @Replay.state silent_client :=
  (@Replay.for_each silent_client _ (@Replay.handle_record utc_runtime silent_client)
     [trade 7 1000; trade 8 1000; trade 7 2000]
     (Replay.initial_state "OPRA" None None)).1.

(** A clock reading, [1704153600.5]. *)
Definition clock : float :=
  Eval vm_compute in fdiv (exact_of_int 3408307201) (exact_of_int 2).

(** A nanosecond count held in a float, the double nearest to
    [1704153600.5e9]. *)
Definition ns_clock : float :=
  Eval vm_compute in fdiv (exact_of_int 1704153600500000000) (exact_of_int 1).

(** A tick at [s] seconds and [us] microseconds after the epoch. *)
Definition tick_at (s us : Z) : Live.Ticker :=
  Live.mkTicker (PyFloat f10_5) (PyInt 5)
    (Some (Datetime (Date epoch_ordinal) 0 0 s us None)) None (Some (PyStr "SMART")).

(** A tick that carries no time. *)
Definition untimed_tick : Live.Ticker :=
  Live.mkTicker (PyFloat f10_5) (PyInt 5) None None (Some (PyStr "")).

(** Two thousand prints of one instrument. *)
Definition one_instrument_prints : list (gmap string pyval) :=
  replicate 2000 (trade 7 1000).

(** A resolver with three identifiers queued. *)
Definition three_pending : @Replay.state silent_client :=
  @Replay.mkState silent_client
    (@Replay.queue silent_client 9
       (Replay.queue 8 (Replay.queue 7 (Replay.init "OPRA" None None)))) [] [] [].

End Examples.

(** ** Properties stated about the two adapters *)
Module Props.
Import Py.

(** The four fields that the output contract requires of every line. *)
Definition has_field (key : string) (p : list (string * pyval)) : bool :=
  match Replay.payload_get key p with
  | Some v => negb (is_none v)
  | None => false
  end.

Definition canonical (p : list (string * pyval)) : bool :=
  has_field "ts" p && has_field "price" p && has_field "size" p && has_field "symbol" p.

(** What a line of the live adapter carries instead. *)
Definition live_shape (p : list (string * pyval)) : bool :=
  has_field "ts" p && has_field "price" p && has_field "size" p && has_field "exchange" p
  && bool_decide (Replay.payload_get "symbol" p = None).

(** The exact value of a finite float, truncated towards zero. *)
Definition exact_trunc (f : float) : option Z :=
  match dyadic f with
  | Some (n, e) => Some (if 0 <=? e then n * 2 ^ e else Z.quot n (2 ^ (- e)))
  | None => None
  end.

(** The integer quotient of the exact value of a finite float by [d]. *)
Definition exact_floor_div (f : float) (d : Z) : option Z :=
  match dyadic f with
  | Some (n, e) => Some (if 0 <=? e then (n * 2 ^ e) / d else n / (d * 2 ^ (- e)))
  | None => None
  end.

(** The shapes that the normalizer cannot represent. *)
Definition unrepresentable (ts_value : pyval) : bool :=
  match ts_value with
  | PyNone | PyStr _ | PyBytes _ | PyList _ => true
  | _ => false
  end.

Section WithClient.
Context {RT : Runtime} {DB : Replay.Databento}.

(** The list and the set of a resolver hold the same identifiers, once each. *)
Definition resolver_wf (self : Replay.SymbolResolver) : Prop :=
  NoDup (Replay._pending self)
  ∧ ∀ x, x ∈ Replay._pending_set self ↔ x ∈ Replay._pending self.

(** The resolvers that calls of the class's methods can produce. *)
Inductive reachable : Replay.SymbolResolver → Prop :=
| reach_init dataset start_date end_date :
    reachable (Replay.init dataset start_date end_date)
| reach_queue self instrument_id :
    reachable self → reachable (Replay.queue instrument_id self)
| reach_resolve st :
    reachable (Replay.resolver st) →
    reachable (Replay.resolver (Replay.resolve_pending st).1).

Import Replay.

(** What a turn of the resolve loop leaves alone. *)
Definition same_queue (st st' : state) : Prop :=
  _pending (resolver st') = _pending (resolver st)
  ∧ _pending_set (resolver st') = _pending_set (resolver st)
  ∧ _dataset (resolver st') = _dataset (resolver st)
  ∧ _start_date (resolver st') = _start_date (resolver st)
  ∧ _end_date (resolver st') = _end_date (resolver st)
  ∧ buffered st' = buffered st
  ∧ stdout st' = stdout st.

Definition request_of (self : SymbolResolver) (chunk : list Z) : request :=
  Request (_dataset self) chunk "instrument_id" "raw_symbol"
    (default today (_start_date self)) (_end_date self).

(** Every line written so far has the four required fields. *)
Definition out_ok (st : state) : Prop :=
  Forall (fun p => canonical p = true) (stdout st).

Definition preserves {A} (m : M A) : Prop :=
  ∀ st, out_ok st → out_ok (m st).1.

End WithClient.

Section WithRuntime.
Context {RT : Runtime}.
Import Live.

(** The line that an accepted tick writes. *)
Definition line (ts_ms : Z) (price : float) (size : Z) (exchange : pyval) : payload :=
  [("ts", PyInt ts_ms); ("price", PyFloat price); ("size", PyInt size);
   ("exchange", exchange)].

(** The ways a call of the handler can end. *)
Variant outcome (t : Ticker) (now : float) (st : state) : state * result unit → Prop :=
| missing_price_or_size :
    is_none (last t) || is_none (lastSize t) = true →
    outcome t now st (st, Ok tt)
| no_timestamp e :
    is_none (last t) || is_none (lastSize t) = false →
    tick_ts_ms t now = Raise e →
    outcome t now st (st, Raise e)
| duplicate ts_ms :
    is_none (last t) || is_none (lastSize t) = false →
    tick_ts_ms t now = Ok ts_ms →
    key_eq (ts_ms, last t, lastSize t) (last_key st) = true →
    outcome t now st (st, Ok tt)
| accepted_then_raised ts_ms e :
    is_none (last t) || is_none (lastSize t) = false →
    tick_ts_ms t now = Ok ts_ms →
    key_eq (ts_ms, last t, lastSize t) (last_key st) = false →
    outcome t now st (mkState (Some (ts_ms, last t, lastSize t)) (stdout st), Raise e)
| accepted_and_written ts_ms price size exch :
    is_none (last t) || is_none (lastSize t) = false →
    tick_ts_ms t now = Ok ts_ms →
    key_eq (ts_ms, last t, lastSize t) (last_key st) = false →
    tick_exchange t = Ok exch →
    py_float (last t) = Ok price →
    py_int (lastSize t) = Ok size →
    outcome t now st
      (mkState (Some (ts_ms, last t, lastSize t)) (stdout st ++ [line ts_ms price size exch]),
       Ok tt).

End WithRuntime.
End Props.

(** ** databento_replay.py: command line and request *)
Module Setup.
Import Py.

(** [c.isspace()] on ASCII: tab to carriage return, the four separators
    and the space. *)
Definition is_space (c : ascii) : bool :=
  let n := Z.of_nat (nat_of_ascii c) in
  ((9 <=? n) && (n <=? 13)) || ((28 <=? n) && (n <=? 32)).

Fixpoint lstrip (s : string) : string :=
  match s with
  | EmptyString => EmptyString
  | String c s' => if is_space c then lstrip s' else s
  end.

Fixpoint rstrip (s : string) : string :=
  match s with
  | EmptyString => EmptyString
  | String c s' =>
      match rstrip s' with
      | EmptyString => if is_space c then EmptyString else String c EmptyString
      | r => String c r
      end
  end.

(** [s.strip()] *)
Definition strip (s : string) : string := rstrip (lstrip s).

Definition upper_char (c : ascii) : ascii :=
  let n := nat_of_ascii c in
  if ((97 <=? n) && (n <=? 122))%nat then ascii_of_nat (n - 32) else c.

(** [s.upper()], strings being ASCII text. *)
Fixpoint upper (s : string) : string :=
  match s with
  | EmptyString => EmptyString
  | String c s' => String (upper_char c) (upper s')
  end.

(** [s.split(",")] *)
Fixpoint split_comma (s : string) : list string :=
  match s with
  | EmptyString => [EmptyString]
  | String c s' =>
      if Ascii.eqb c "," then EmptyString :: split_comma s'
      else match split_comma s' with
           | [] => [String c EmptyString]
           | piece :: pieces => String c piece :: pieces
           end
  end.

(** [None] is [None]; a list comprehension with a filter is [omap]. *)
Definition normalize_symbols (value : string) : option (list string) :=
  if String.eqb value "" || String.eqb (upper (strip value)) "ALL" then None
  else Some (omap (fun symbol =>
                     if String.eqb (strip symbol) "" then None else Some (strip symbol))
               (split_comma value)).

(** The command line of the replay script, after [parse_args]. *)
Record Args := mkArgs {
  dataset : string;
  schema : string;
  start : string;
  end_ : string;
  symbols : string;
  stype_in : string;
  stype_out : string;
  limit : Z;
  api_key : string
}.

(** The dictionary [kwargs] of [main], in insertion order. *)
Definition kwargs (args : Args) : list (string * pyval) :=
  [("dataset", PyStr (dataset args));
   ("schema", PyStr (schema args));
   ("start", PyStr (start args));
   ("end", py_or (PyStr (end_ args)) PyNone);
   ("symbols", match normalize_symbols (symbols args) with
               | None => PyNone
               | Some l => PyList (map PyStr l)
               end);
   ("stype_in", PyStr (stype_in args));
   ("stype_out", PyStr (stype_out args));
   ("limit", py_or (PyInt (limit args)) PyNone)].

(** [filtered_kwargs]; [parameters] are the names in the signature of
    the installed [client.timeseries.get_range]. *)
Definition filtered_kwargs (parameters : list string) (args : Args) : list (string * pyval) :=
  filter (fun kv => kv.1 ∈ parameters ∧ is_none kv.2 = false) (kwargs args).

End Setup.

(** ** Properties stated about the set-up *)
Module SetupProps.
Import Setup.

Fixpoint all_chars (P : ascii → bool) (s : string) : bool :=
  match s with
  | EmptyString => true
  | String c s' => P c && all_chars P s'
  end.

Definition comma_free (s : string) : bool :=
  all_chars (fun c => negb (Ascii.eqb c ",")) s.

(** A symbol as [normalize_symbols] returns them: not empty, no comma, no
    white space at either end. *)
Definition clean (s : string) : Prop :=
  s ≠ EmptyString ∧ strip s = s ∧ comma_free s = true.

(** [",".join(l)] *)
Fixpoint join_comma (l : list string) : string :=
  match l with
  | [] => EmptyString
  | [s] => s
  | s :: l' => s +:+ String "," (join_comma l')
  end.

(** No white space at the front. *)
Definition starts_clean (s : string) : bool :=
  match s with
  | EmptyString => true
  | String c _ => negb (is_space c)
  end.

End SetupProps.

(** ** Properties stated about the flow of records *)
Module FlowProps.
Import Py Replay.

Section WithClient.
Context {RT : Runtime} {DB : Databento}.

(** [symbol or raw_symbol or instrument_id] of a record. *)
Definition symbol_of (record : gmap string pyval) : pyval :=
  py_or (py_or (getattr record "symbol") (getattr record "raw_symbol"))
    (getattr record "instrument_id").

(** Price and size are present and the timestamp is representable. *)
Definition complete (record : gmap string pyval) : bool :=
  negb (is_none (getattr record "price"))
  && negb (is_none (getattr record "size"))
  && match normalize_ts (getattr record "ts_event") with
     | Ok (Some _) => true
     | _ => false
     end.

(** The payload of a build that returns one. *)
Definition built (record : gmap string pyval) (symbol_override : pyval) : option payload :=
  match build_payload record symbol_override with
  | Ok (Some p) => Some p
  | _ => None
  end.

Definition unresolved (self : SymbolResolver) (entry : gmap string pyval * Z * date) : bool :=
  negb (truthy (lookup self entry.1.2 entry.2)).

(** The symbol under which a flush writes a buffered entry, if it does. *)
Definition flush_symbol (force : bool) (self : SymbolResolver)
    (entry : gmap string pyval * Z * date) : option pyval :=
  if unresolved self entry then
    if force then Some (PyStr (py_str (PyInt entry.1.2))) else None
  else Some (lookup self entry.1.2 entry.2).



(** A symbology request as a run sends them: between 1 and 200
    identifiers, none twice. *)
Definition request_ok (rq : request) : Prop :=
  (1 ≤ length (symbols rq) ≤ 200)%nat ∧ NoDup (symbols rq).

(** The state between two records, with at most [bound] identifiers
    pending: list and set agree, every pending identifier has a buffered
    record waiting for it, and every request sent so far is as above. *)
Definition settled (bound : nat) (st : state) : Prop :=
  Props.resolver_wf (resolver st)
  ∧ (pending_count (resolver st) ≤ bound)%nat
  ∧ (∀ x, x ∈ _pending (resolver st) → ∃ record d, (record, x, d) ∈ buffered st)
  ∧ Forall request_ok (outbound st).

(** What holds of every intermediate state of a statement. *)
Definition keeps (I : state → Prop) {A} (m : M A) : Prop :=
  ∀ st, I st → I (m st).1.

(** The lines that a flush writes, in buffer order. *)
Definition flush_lines (force : bool) (self : SymbolResolver)
    (entries : list (gmap string pyval * Z * date)) : list payload :=
  omap (fun entry => symbol ← flush_symbol force self entry; built entry.1.1 symbol) entries.

End WithClient.
End FlowProps.

(** ** Properties stated about what a run writes *)
Module LedgerProps.
Import Py Replay FlowProps.

Section WithClient.
Context {RT : Runtime} {DB : Databento}.








(** The map after the answers to the requests [rqs], sent in turn after
    [history], have been inserted into [m]. *)
Fixpoint merged (m : instrument_map) (history rqs : list request) : instrument_map :=
  match rqs with
  | [] => m
  | rq :: rqs' =>
      match symbology_resolve history rq with
      | Ok answer => merged (insert_json m answer).1 (history ++ [rq]) rqs'
      | Raise _ => m
      end
  end.

(** Every field of a line can be written as JSON. *)
Definition serializable (p : payload) : bool :=
  forallb (fun kv => json_serializable kv.2) p.

(** The symbol under which a forced flush writes an entry. *)
Definition forced_symbol (self : SymbolResolver) (entry : gmap string pyval * Z * date) : pyval :=
  if truthy (lookup self entry.1.2 entry.2) then lookup self entry.1.2 entry.2
  else PyStr (pretty entry.1.2).

End WithClient.
End LedgerProps.

Module RetryProps.
Import Py Replay FlowProps.

Section WithClient.
Context {RT : Runtime} {DB : Databento}.

(** A record that the handler writes at once: its symbol is not numeric,
    its date is in range and its payload builds and serializes. *)
Definition written_at_once (record : gmap string pyval) (p : payload) : Prop :=
  is_numeric_symbol (symbol_of record) = false
  ∧ (∃ ts_ms d, normalize_ts (getattr record "ts_event") = Ok (Some ts_ms)
                ∧ utcfromtimestamp_date ts_ms = Ok d)
  ∧ build_payload record PyNone = Ok (Some p)
  ∧ forallb (fun kv => json_serializable kv.2) p = true.

(** A record on which the handler raises [TypeError] while building. *)
Definition raises_TypeError (record : gmap string pyval) : Prop :=
  is_numeric_symbol (symbol_of record) = false
  ∧ (∃ ts_ms d, normalize_ts (getattr record "ts_event") = Ok (Some ts_ms)
                ∧ utcfromtimestamp_date ts_ms = Ok d)
  ∧ build_payload record PyNone = Raise TypeError.

Definition write (lines : list payload) (st : state) : state :=
  mkState (resolver st) (buffered st) (stdout st ++ lines) (outbound st).

End WithClient.
End RetryProps.

Module LiveProps.
Import Py Live.

Section WithRuntime.
Context {RT : Runtime}.

(** A tick with the key [key] whose fields convert and serialize. *)
Definition sound_tick (update : Ticker * float) (key : Z * pyval * pyval) : Prop :=
  is_none (last update.1) || is_none (lastSize update.1) = false
  ∧ key_eq key (Some key) = true
  ∧ tick_ts_ms update.1 update.2 = Ok key.1.1
  ∧ last update.1 = key.1.2
  ∧ lastSize update.1 = key.2
  ∧ ∃ exch price size,
      tick_exchange update.1 = Ok exch
      ∧ Replay.json_serializable exch = true
      ∧ py_float (last update.1) = Ok price
      ∧ py_int (lastSize update.1) = Ok size.

(** No key equals the one just before it. *)
Fixpoint adjacent_differ (prev : option (Z * pyval * pyval)) (keys : list (Z * pyval * pyval))
  : Prop :=
  match keys with
  | [] => True
  | key :: keys' => key_eq key prev = false ∧ adjacent_differ (Some key) keys'
  end.

End WithRuntime.
End LiveProps.

(** ** Further concrete inputs *)
Module Cases.
Import Py Examples.

(** A trade print that names its symbol. *)
Definition named_trade (symbol : string) (ts_event : Z) : gmap string pyval :=
  <["symbol" := PyStr symbol]> (trade 7 ts_event).

(** A print whose price is a list, which [float] refuses. *)
Definition malformed_trade : gmap string pyval :=
  <["price" := PyList []]> (named_trade "AAPL" 3000).


Definition start_state : @Replay.state silent_client :=
  Replay.initial_state "OPRA" None None.


(** The forced flush of [three_buffered]. *)
Definition flushed : @Replay.state silent_client :=
  (@Replay.flush_buffer utc_runtime silent_client true three_buffered).1.

(** Nothing pending and 1999 prints of one instrument in the buffer. *)
Definition backlog : @Replay.state silent_client :=
  @Replay.mkState silent_client (Replay.init "OPRA" None None)
    (replicate 1999 (trade 7 1000, 7, Date 719163)) [] [].

(** Three ticks; the third repeats the first. *)
Definition there_and_back : list (Live.Ticker * float) :=
  [(tick_at 1 0, clock); (tick_at 2 0, clock); (tick_at 1 0, clock)].

End Cases.

(** ** Facts on binary64 rounding *)
Module Binary64Facts.
Import Py Props.

Ltac zdiv := Z.div_mod_to_equations; lia.

Lemma digits2_bounds (p : positive) :
  2 ^ (Z.pos (digits2_pos p) - 1) ≤ Z.pos p < 2 ^ Z.pos (digits2_pos p).
Proof.
  induction p as [p IH|p IH|]; cbn [digits2_pos].
  - rewrite Pos2Z.inj_succ, Z.pow_succ_r by lia.
    replace (Z.succ (Z.pos (digits2_pos p)) - 1) with (Z.succ (Z.pos (digits2_pos p) - 1)) by lia.
    rewrite Z.pow_succ_r by lia. lia.
  - rewrite Pos2Z.inj_succ, Z.pow_succ_r by lia.
    replace (Z.succ (Z.pos (digits2_pos p)) - 1) with (Z.succ (Z.pos (digits2_pos p) - 1)) by lia.
    rewrite Z.pow_succ_r by lia. lia.
  - cbn. lia.
Qed.

Lemma Zdigits2_eq (q k : Z) : 0 < k → 2 ^ (k - 1) ≤ q < 2 ^ k → Zdigits2 q = k.
Proof.
  intros Hk [Hlo Hhi].
  assert (0 < q) by (pose proof (Z.pow_pos_nonneg 2 (k - 1)); lia).
  destruct q as [|p|p]; try lia. cbn [Zdigits2].
  pose proof (digits2_bounds p) as [Blo Bhi].
  set (d := Z.pos (digits2_pos p)) in *.
  destruct (Z.lt_trichotomy d k) as [Hlt|[Heq|Hgt]]; [|done|].
  - pose proof (Z.pow_le_mono_r 2 d (k - 1)). lia.
  - pose proof (Z.pow_le_mono_r 2 k (d - 1)). lia.
Qed.

Lemma int_of_float_scaled (m : positive) (e k : Z) :
  0 ≤ k → - k ≤ e →
  int_of_float (S754_finite false m e) = Ok ((Z.pos m * 2 ^ (e + k)) / 2 ^ k).
Proof.
  intros Hk He. cbn [int_of_float]. f_equal.
  assert (0 < 2 ^ k) by (apply Z.pow_pos_nonneg; lia).
  destruct (Z.leb_spec 0 e) as [H0|H0].
  - rewrite Z.pow_add_r by lia. rewrite Z.mul_assoc.
    rewrite Z.div_mul by lia. done.
  - assert (0 < 2 ^ (- e)) by (apply Z.pow_pos_nonneg; lia).
    assert (0 < 2 ^ (e + k)) by (apply Z.pow_pos_nonneg; lia).
    replace (2 ^ k) with (2 ^ (e + k) * 2 ^ (- e)).
    2:{ rewrite <- Z.pow_add_r by lia. f_equal. lia. }
    rewrite (Z.mul_comm (Z.pos m)).
    rewrite Z.div_mul_cancel_l by lia. done.
Qed.

Lemma fexp_normal (d E : Z) : -1074 ≤ E → fexp 53 1024 (d + E) - E = Z.max (d - 53) (-1074 - E).
Proof. unfold fexp, emin. lia. Qed.

Lemma renormalize (r E : Z) :
  2 ^ 52 ≤ r ≤ 2 ^ 53 → -1074 ≤ E ≤ 970 →
  ∃ m e,
    (let '(mrs, e'') := shr_fexp 53 1024 r E loc_Exact in
     match shr_m mrs with
     | Z0 => S754_zero false
     | Zpos m => if e'' <=? 1024 - 53 then S754_finite false m e'' else S754_infinity false
     | _ => S754_nan
     end) = S754_finite false m e
    ∧ E ≤ e ≤ E + 1 ∧ Z.pos m * 2 ^ (e - E) = r.
Proof.
  change (2 ^ 52) with 4503599627370496. change (2 ^ 53) with 9007199254740992.
  intros Hr HE. unfold shr_fexp.
  destruct (Z.eq_dec r 9007199254740992) as [->|Hne].
  - change (Zdigits2 9007199254740992) with 54. rewrite fexp_normal by lia.
    replace (Z.max (54 - 53) (-1074 - E)) with 1 by lia.
    cbn [shr shr_record_of_loc SpecFloat.iter_pos shr_1 shr_m orb].
    destruct (Z.leb_spec (E + 1) (1024 - 53)); [|lia].
    eexists _, _. split; [reflexivity|]. split; [lia|].
    replace (E + 1 - E) with 1 by lia. reflexivity.
  - rewrite (Zdigits2_eq r 53) by (change (2 ^ (53 - 1)) with 4503599627370496;
      change (2 ^ 53) with 9007199254740992; lia).
    rewrite fexp_normal by lia.
    replace (Z.max (53 - 53) (-1074 - E)) with 0 by lia.
    cbn [shr shr_record_of_loc shr_m].
    destruct r as [|m|m]; try lia.
    destruct (Z.leb_spec E (1024 - 53)); [|lia].
    eexists _, _. split; [reflexivity|]. split; [lia|].
    rewrite Z.sub_diag. cbn [Z.pow]. lia.
Qed.

Lemma round_nearest_even_cases (m : Z) (l : location) :
  round_nearest_even m l = m ∨ (l ≠ loc_Exact ∧ round_nearest_even m l = m + 1).
Proof.
  destruct l as [|[]]; cbn [round_nearest_even];
    [by left| |by left|by right].
  destruct (Z.even m); [by left|by right].
Qed.

Lemma shr_record_of_loc_inv (m : Z) (l : location) :
  shr_m (shr_record_of_loc m l) = m ∧ loc_of_shr_record (shr_record_of_loc m l) = l.
Proof. destruct l as [|[]]; done. Qed.

Lemma round_aux_small (q E : Z) (l : location) :
  2 ^ 52 ≤ q < 2 ^ 53 → -1074 ≤ E ≤ 970 →
  ∃ m e, binary_round_aux 53 1024 false q E l = S754_finite false m e
    ∧ E ≤ e ≤ E + 1
    ∧ (Z.pos m * 2 ^ (e - E) = q ∨ (l ≠ loc_Exact ∧ Z.pos m * 2 ^ (e - E) = q + 1)).
Proof.
  intros Hq HE. unfold binary_round_aux, shr_fexp at 1.
  rewrite (Zdigits2_eq q 53) by (change (53 - 1) with 52; lia).
  rewrite fexp_normal by lia.
  replace (Z.max (53 - 53) (-1074 - E)) with 0 by lia.
  cbn [shr].
  destruct (shr_record_of_loc_inv q l) as [-> ->].
  change (2 ^ 52) with 4503599627370496 in Hq. change (2 ^ 53) with 9007199254740992 in Hq.
  destruct (round_nearest_even_cases q l) as [Hr|[Hl Hr]]; rewrite Hr.
  - destruct (renormalize q E) as (m & e & Heq & He & Hv);
      [change (2 ^ 52) with 4503599627370496; change (2 ^ 53) with 9007199254740992; lia|lia|].
    exists m, e. split; [exact Heq|]. split; [lia|]. by left.
  - destruct (renormalize (q + 1) E) as (m & e & Heq & He & Hv);
      [change (2 ^ 52) with 4503599627370496; change (2 ^ 53) with 9007199254740992; lia|lia|].
    exists m, e. split; [exact Heq|]. split; [lia|]. by right.
Qed.

Lemma round_aux_large (q E : Z) (l : location) :
  2 ^ 53 ≤ q < 2 ^ 54 → -1074 ≤ E ≤ 969 →
  ∃ m e, binary_round_aux 53 1024 false q E l = S754_finite false m e
    ∧ E + 1 ≤ e ≤ E + 2
    ∧ (Z.pos m * 2 ^ (e - E) = 2 * (q / 2)
       ∨ (Z.odd q = true ∧ Z.pos m * 2 ^ (e - E) = 2 * (q / 2) + 2)).
Proof.
  intros Hq HE. unfold binary_round_aux, shr_fexp at 1.
  rewrite (Zdigits2_eq q 54) by (change (54 - 1) with 53; lia).
  rewrite fexp_normal by lia.
  replace (Z.max (54 - 53) (-1074 - E)) with 1 by lia.
  cbn [shr SpecFloat.iter_pos].
  change (2 ^ 53) with 9007199254740992 in Hq. change (2 ^ 54) with 18014398509481984 in Hq.
  assert (Hstep : ∃ h l', shr_m (shr_1 (shr_record_of_loc q l)) = h
            ∧ loc_of_shr_record (shr_1 (shr_record_of_loc q l)) = l'
            ∧ h = q / 2 ∧ (Z.odd q = false → l' = loc_Exact ∨ l' = loc_Inexact Lt)).
  { destruct q as [|[p|p|]|]; try lia.
    - exists (Z.pos p). eexists. split; [by destruct l as [|[]]|]. split; [reflexivity|].
      split; [rewrite Pos2Z.inj_xI; zdiv|]. intros Hodd. discriminate Hodd.
    - exists (Z.pos p). eexists. split; [by destruct l as [|[]]|]. split; [reflexivity|].
      split; [rewrite Pos2Z.inj_xO; zdiv|]. intros _. destruct l as [|[]]; cbn; auto. }
  destruct Hstep as (h & l' & -> & -> & Hh & Hl').
  assert (Hhq : 4503599627370496 ≤ h < 9007199254740992) by zdiv.
  assert (Hcase : round_nearest_even h l' = h ∨ (Z.odd q = true ∧ round_nearest_even h l' = h + 1)).
  { destruct (round_nearest_even_cases h l') as [?|[Hne Hr]]; [by left|].
    destruct (Z.odd q) eqn:Hodd; [by right|].
    destruct (Hl' eq_refl) as [->| ->]; [done|]. cbn in Hr. lia. }
  destruct Hcase as [Hr|[Hodd Hr]]; rewrite Hr.
  - destruct (renormalize h (E + 1)) as (m & e & Heq & He & Hv);
      [change (2 ^ 52) with 4503599627370496; change (2 ^ 53) with 9007199254740992; lia|lia|].
    exists m, e. split; [exact Heq|]. split; [lia|]. left.
    replace (e - E) with (1 + (e - (E + 1))) by lia.
    rewrite Z.pow_add_r by lia. change (2 ^ 1) with 2. lia.
  - destruct (renormalize (h + 1) (E + 1)) as (m & e & Heq & He & Hv);
      [change (2 ^ 52) with 4503599627370496; change (2 ^ 53) with 9007199254740992; lia|lia|].
    exists m, e. split; [exact Heq|]. split; [lia|]. right. split; [done|].
    replace (e - E) with (1 + (e - (E + 1))) by lia.
    rewrite Z.pow_add_r by lia. change (2 ^ 1) with 2. lia.
Qed.

Lemma div_succ_bounds (a P : Z) : 0 < P → a / P ≤ (a + 1) / P ≤ a / P + 1.
Proof.
  intros HP. split.
  - apply Z.div_le_mono; lia.
  - replace (a / P + 1) with ((a + 1 * P) / P) by (rewrite Z.div_add by lia; lia).
    apply Z.div_le_mono; lia.
Qed.

Lemma div_eucl_div_mod (a b : Z) : Z.div_eucl a b = (a / b, a mod b).
Proof. unfold Z.div, Z.modulo. by destruct (Z.div_eucl a b). Qed.

(** The quotient digits that [SFdiv] hands to the rounding step when a
    nanosecond count is divided by one million. *)
Lemma div_core_ns (V : Z) :
  0 < V → Zdigits2 V ≤ 73 →
  let s := 73 - Zdigits2 V in
  SFdiv_core_binary 53 1024 V 0 1000000 0
  = ((V * 2 ^ s) / 1000000, - s,
     if (V * 2 ^ s) mod 1000000 =? 0 then loc_Exact
     else loc_Inexact (2 * ((V * 2 ^ s) mod 1000000) ?= 1000000)).
Proof.
  intros HV Hd s. unfold SFdiv_core_binary.
  change (Zdigits2 1000000) with 20.
  assert (0 < Zdigits2 V) by (destruct V; try lia; cbn; lia).
  replace (Z.min (fexp 53 1024 (Zdigits2 V + 0 - (20 + 0))) (0 - 0)) with (- s)
    by (unfold fexp, emin; lia).
  replace (0 - 0 - - s) with s by lia.
  assert (Hm : match s with
               | 0 => V
               | Z.pos _ => Z.shiftl V s
               | Z.neg _ => 0
               end = V * 2 ^ s).
  { destruct s eqn:Hs; [cbn; lia| |lia]. rewrite Z.shiftl_mul_pow2; lia. }
  rewrite Hm, div_eucl_div_mod. reflexivity.
Qed.

(** Rounding the quotient [W / 10^6], scaled by [2^-k], and truncating. *)
Lemma quotient_trunc (W k : Z) (l : location) :
  2 ^ 72 ≤ W < 2 ^ 73 → 0 ≤ k ≤ 23 →
  (k = 0 → W / 1000000 < 2 ^ 53) →
  (W mod 1000000 = 0 → l = loc_Exact) →
  ∃ m e ms,
    binary_round_aux 53 1024 false (W / 1000000) (- k) l = S754_finite false m e
    ∧ int_of_float (S754_finite false m e) = Ok ms
    ∧ W / (1000000 * 2 ^ k) ≤ ms ≤ W / (1000000 * 2 ^ k) + 1
    ∧ (W mod (1000000 * 2 ^ k) = 0 → ms = W / (1000000 * 2 ^ k)).
Proof.
  intros HW Hk Hk0 Hexact.
  change (2 ^ 72) with 4722366482869645213696 in HW.
  change (2 ^ 73) with 9444732965739290427392 in HW.
  assert (HP : 0 < 2 ^ k) by (apply Z.pow_pos_nonneg; lia).
  set (q := W / 1000000) in *.
  assert (Hq : 2 ^ 52 ≤ q < 2 ^ 54).
  { change (2 ^ 52) with 4503599627370496. change (2 ^ 54) with 18014398509481984.
    subst q. zdiv. }
  assert (Hfloor : q / 2 ^ k = W / (1000000 * 2 ^ k)).
  { subst q. by rewrite Z.div_div by lia. }
  assert (Hwhole : W mod (1000000 * 2 ^ k) = 0 →
                   W mod 1000000 = 0 ∧ q = W / (1000000 * 2 ^ k) * 2 ^ k).
  { intros Hmod. apply Z.mod_divide in Hmod as [c Hc]; [|lia].
    assert (HW' : W = (c * 2 ^ k) * 1000000) by lia.
    assert (H1 : W / (1000000 * 2 ^ k) = c) by (rewrite Hc; apply Z.div_mul; lia).
    assert (H2 : W / 1000000 = c * 2 ^ k) by (rewrite HW'; apply Z.div_mul; lia).
    split.
    - rewrite HW'. apply Z.mod_mul. lia.
    - subst q. by rewrite H1, H2. }
  destruct (Z.lt_ge_cases q (2 ^ 53)) as [Hsmall|Hlarge].
  - destruct (round_aux_small q (- k) l) as (m & e & Hr & He & Hv); [lia|lia|].
    exists m, e. eexists. split; [exact Hr|].
    rewrite (int_of_float_scaled m e k) by lia. split; [reflexivity|].
    replace (e - - k) with (e + k) in Hv by lia.
    destruct Hv as [->|[Hl ->]].
    + rewrite Hfloor. split; [lia|done].
    + pose proof (div_succ_bounds q (2 ^ k) HP) as Hb. rewrite Hfloor in Hb.
      split; [lia|]. intros Hmod. exfalso. apply Hl, Hexact. by apply Hwhole.
  - assert (1 ≤ k) by (destruct (Z.eq_dec k 0) as [Hk0'|]; [specialize (Hk0 Hk0')|]; lia).
    destruct (round_aux_large q (- k) l) as (m & e & Hr & He & Hv); [lia|lia|].
    exists m, e. eexists. split; [exact Hr|].
    rewrite (int_of_float_scaled m e k) by lia. split; [reflexivity|].
    replace (e - - k) with (e + k) in Hv by lia.
    assert (Hpow : 2 ^ k = 2 * 2 ^ (k - 1)).
    { replace k with (1 + (k - 1)) at 1 by lia. rewrite Z.pow_add_r by lia. done. }
    assert (HP' : 0 < 2 ^ (k - 1)) by (apply Z.pow_pos_nonneg; lia).
    assert (Hhalf : (q / 2) / 2 ^ (k - 1) = W / (1000000 * 2 ^ k)).
    { rewrite Z.div_div by lia. rewrite <- Hpow. done. }
    assert (Hcancel : ∀ a, (2 * a) / 2 ^ k = a / 2 ^ (k - 1)).
    { intros a. rewrite Hpow. apply Z.div_mul_cancel_l; lia. }
    destruct Hv as [->|[Hodd ->]].
    + rewrite Hcancel, Hhalf. split; [lia|done].
    + replace (2 * (q / 2) + 2) with (2 * (q / 2 + 1)) by lia.
      rewrite Hcancel.
      pose proof (div_succ_bounds (q / 2) (2 ^ (k - 1)) HP') as Hb.
      rewrite Hhalf in Hb. split; [lia|].
      intros Hmod. exfalso. destruct (Hwhole Hmod) as [_ Hq'].
      rewrite Hq', Hpow in Hodd.
      replace (W / (1000000 * (2 * 2 ^ (k - 1))) * (2 * 2 ^ (k - 1)))
        with (2 * (W / (1000000 * (2 * 2 ^ (k - 1))) * 2 ^ (k - 1))) in Hodd by lia.
      rewrite Z.odd_mul in Hodd. discriminate Hodd.
Qed.

Lemma ns_to_ms (V : Z) :
  1000000000000000 < V < 9007199254740992 * 1000000 →
  ∃ ms, (let? q := int_truediv V 1000000 in int_of_float q) = Ok ms
        ∧ V / 1000000 ≤ ms ≤ V / 1000000 + 1
        ∧ (V mod 1000000 = 0 → ms = V / 1000000).
Proof.
  intros HV.
  assert (Hd : 50 ≤ Zdigits2 V ≤ 73 ∧ 2 ^ (Zdigits2 V - 1) ≤ V < 2 ^ Zdigits2 V).
  { destruct V as [|p|p]; try lia. cbn [Zdigits2].
    pose proof (digits2_bounds p) as [Blo Bhi].
    set (d := Z.pos (digits2_pos p)) in *.
    split; [split|done].
    - destruct (Z.le_gt_cases 50 d) as [|Hlt]; [done|].
      pose proof (Z.pow_le_mono_r 2 d 49). change (2 ^ 49) with 562949953421312 in *. lia.
    - destruct (Z.le_gt_cases d 73) as [|Hgt]; [done|].
      pose proof (Z.pow_le_mono_r 2 73 (d - 1)).
      change (2 ^ 73) with 9444732965739290427392 in *. lia. }
  destruct Hd as [Hd Hbits].
  set (s := 73 - Zdigits2 V).
  assert (Hs : 0 ≤ s ≤ 23) by lia.
  assert (HP : 0 < 2 ^ s) by (apply Z.pow_pos_nonneg; lia).
  set (W := V * 2 ^ s).
  assert (HW : 2 ^ 72 ≤ W < 2 ^ 73).
  { subst W.
    assert (H72 : 2 ^ 72 = 2 ^ (Zdigits2 V - 1) * 2 ^ s).
    { rewrite <- Z.pow_add_r by lia. f_equal. lia. }
    assert (H73 : 2 ^ 73 = 2 ^ Zdigits2 V * 2 ^ s).
    { rewrite <- Z.pow_add_r by lia. f_equal. lia. }
    rewrite H72, H73. nia. }
  unfold int_truediv. change (1000000 =? 0) with false. cbn iota.
  replace (exact_of_int V) with (S754_finite false (Z.to_pos V) 0)
    by (destruct V; try lia; done).
  cbn [exact_of_int]. unfold fdiv, SFdiv. rewrite Z2Pos.id by lia.
  rewrite div_core_ns by lia. fold s. fold W. cbn [xorb].
  set (l := if W mod 1000000 =? 0 then loc_Exact
            else loc_Inexact (2 * (W mod 1000000) ?= 1000000)).
  destruct (quotient_trunc W s l) as (m & e & ms & -> & Hms & Hb & Hex); [done|done| | |].
  { intros Hs0. subst W. rewrite Hs0. change (2 ^ 0) with 1.
    change (2 ^ 53) with 9007199254740992. zdiv. }
  { intros Hmod. subst l. by rewrite Hmod. }
  cbn [rbind]. exists ms. split; [exact Hms|].
  assert (Hfloor : W / (1000000 * 2 ^ s) = V / 1000000).
  { subst W. apply Z.div_mul_cancel_r; lia. }
  rewrite Hfloor in Hb, Hex. split; [done|].
  intros Hmod. apply Hex. subst W.
  rewrite Z.mul_mod_distr_r, Hmod by lia. done.
Qed.

Lemma int_of_float_exact (f : float) (t : Z) :
  exact_trunc f = Some t → int_of_float f = Ok t.
Proof.
  destruct f as [s|s| |s m e]; unfold exact_trunc; cbn [dyadic int_of_float]; try done.
  - intros [= <-]. done.
  - intros [= <-]. f_equal. destruct (Z.leb_spec 0 e) as [He|He].
    + destruct s; [|done]. change (Z.neg m) with (- Z.pos m). lia.
    + assert (0 < 2 ^ (- e)) by (apply Z.pow_pos_nonneg; lia).
      destruct s.
      * change (Z.neg m) with (- Z.pos m). rewrite Z.quot_opp_l by lia.
        by rewrite Z.quot_div_nonneg by lia.
      * by rewrite Z.quot_div_nonneg by lia.
Qed.

Lemma div_core_float (m : positive) (e : Z) :
  Zdigits2 (Z.pos m) = 53 → -1000 ≤ e ≤ 1000 →
  SFdiv_core_binary 53 1024 (Z.pos m) e 8589934592000000 (-33)
  = ((Z.pos m * 2 ^ 20) / 1000000, e - 20,
     if (Z.pos m * 2 ^ 20) mod 1000000 =? 0 then loc_Exact
     else loc_Inexact (2 * ((Z.pos m * 2 ^ 53) mod 8589934592000000) ?= 8589934592000000)).
Proof.
  intros Hd He. unfold SFdiv_core_binary. rewrite Hd.
  change (Zdigits2 8589934592000000) with 53.
  replace (Z.min (fexp 53 1024 (53 + e - (53 + -33))) (e - -33)) with (e - 20)
    by (unfold fexp, emin; lia).
  replace (e - -33 - (e - 20)) with 53 by lia.
  rewrite Z.shiftl_mul_pow2 by lia. rewrite div_eucl_div_mod.
  assert (Hsplit : Z.pos m * 2 ^ 53 = (Z.pos m * 2 ^ 20) * 8589934592).
  { change (2 ^ 53) with (2 ^ 20 * 8589934592). lia. }
  assert (Hq : (Z.pos m * 2 ^ 53) / 8589934592000000 = (Z.pos m * 2 ^ 20) / 1000000).
  { rewrite Hsplit. change 8589934592000000 with (1000000 * 8589934592).
    apply Z.div_mul_cancel_r; lia. }
  assert (Hr : (Z.pos m * 2 ^ 53) mod 8589934592000000
               = ((Z.pos m * 2 ^ 20) mod 1000000) * 8589934592).
  { rewrite Hsplit. change 8589934592000000 with (1000000 * 8589934592).
    apply Z.mul_mod_distr_r; lia. }
  rewrite Hq. f_equal.
  unfold new_location. change (Z.even 8589934592000000) with true. cbn iota.
  unfold new_location_even. rewrite Hr.
  destruct (Z.eqb_spec ((Z.pos m * 2 ^ 20) mod 1000000) 0) as [->|Hne]; [done|].
  destruct (Z.eqb_spec ((Z.pos m * 2 ^ 20) mod 1000000 * 8589934592) 0); [lia|done].
Qed.

Lemma float_ns_to_ms (m : positive) (e : Z) :
  Zdigits2 (Z.pos m) = 53 → -3 ≤ e ≤ 20 →
  (e = 20 → Z.pos m * 2 ^ 20 < 9007199254740992 * 1000000) →
  ∃ ms, int_of_float (fdiv (S754_finite false m e) f1e6) = Ok ms
        ∧ (Z.pos m * 2 ^ 20) / (1000000 * 2 ^ (20 - e)) ≤ ms
          ≤ (Z.pos m * 2 ^ 20) / (1000000 * 2 ^ (20 - e)) + 1.
Proof.
  intros Hd He Htop.
  assert (Hm : 2 ^ 52 ≤ Z.pos m < 2 ^ 53).
  { pose proof (digits2_bounds m) as Hb. cbn [Zdigits2] in Hd. rewrite Hd in Hb. exact Hb. }
  change (2 ^ 52) with 4503599627370496 in Hm. change (2 ^ 53) with 9007199254740992 in Hm.
  unfold fdiv, f1e6, SFdiv. rewrite div_core_float by lia. cbn [xorb].
  set (W := Z.pos m * 2 ^ 20).
  set (l := if W mod 1000000 =? 0 then loc_Exact else _).
  replace (e - 20) with (- (20 - e)) by lia.
  destruct (quotient_trunc W (20 - e) l) as (m' & e' & ms & -> & Hms & Hb & _).
  - subst W. change (2 ^ 72) with (4503599627370496 * 2 ^ 20).
    change (2 ^ 73) with (9007199254740992 * 2 ^ 20). change (2 ^ 20) with 1048576. lia.
  - lia.
  - intros Hk. change (2 ^ 53) with 9007199254740992.
    assert (W < 9007199254740992 * 1000000) by (apply Htop; lia). zdiv.
  - intros Hmod. subst l. by rewrite Hmod.
  - exists ms. by split.
Qed.

Lemma ns_float_range (f : float) :
  valid_binary 53 1024 f = true →
  float_gt_int f 1000000000000000 = true →
  float_compare f (exact_of_int (9007199254740992 * 1000000)) = Some Lt →
  ∃ m e, f = S754_finite false m e
         ∧ Zdigits2 (Z.pos m) = 53 ∧ -3 ≤ e ≤ 20
         ∧ (e = 20 → Z.pos m * 2 ^ 20 < 9007199254740992 * 1000000).
Proof.
  intros Hvalid Hgt Hlt.
  destruct f as [s|s| |s m e]; try (by destruct s).
  { discriminate Hlt. }
  cbn [valid_binary] in Hvalid. unfold bounded, canonical_mantissa in Hvalid.
  apply andb_true_iff in Hvalid as [Hcanon _]. apply Z.eqb_eq in Hcanon.
  unfold fexp, emin in Hcanon.
  pose proof (digits2_bounds m) as Hbits.
  set (d := Z.pos (digits2_pos m)) in *.
  assert (Hd : d ≤ 53) by lia.
  assert (Hm : Z.pos m < 2 ^ 53).
  { pose proof (Z.pow_le_mono_r 2 d 53). lia. }
  change (2 ^ 53) with 9007199254740992 in Hm.
  unfold float_gt_int in Hgt.
  change (exact_of_int 1000000000000000) with (S754_finite false 1000000000000000 0) in Hgt.
  change (exact_of_int (9007199254740992 * 1000000))
    with (S754_finite false 9007199254740992000000 0) in Hlt.
  cbn [float_compare dyadic] in Hgt, Hlt. unfold dyadic_compare in Hgt, Hlt.
  cbn [fst snd] in Hgt, Hlt.
  destruct s.
  { exfalso. destruct (_ ?= _) eqn:Hc in Hgt; try done.
    apply Z.compare_gt_iff in Hc.
    assert (0 < 2 ^ (e - e `min` 0)) by (apply Z.pow_pos_nonneg; lia).
    assert (0 < 2 ^ (0 - e `min` 0)) by (apply Z.pow_pos_nonneg; lia).
    change (Z.neg m) with (- Z.pos m) in Hc. nia. }
  destruct (_ ?= _) eqn:Hc in Hgt; try done. apply Z.compare_gt_iff in Hc.
  injection Hlt as Hlt. apply -> Z.compare_lt_iff in Hlt.
  assert (He_lo : -3 ≤ e).
  { destruct (Z.le_gt_cases (-3) e) as [|Hneg]; [done|]. exfalso.
    rewrite Z.min_l in Hc by lia. rewrite Z.sub_diag in Hc. change (2 ^ 0) with 1 in Hc.
    pose proof (Z.pow_le_mono_r 2 4 (0 - e)). change (2 ^ 4) with 16 in *. lia. }
  assert (He_hi : e ≤ 20).
  { destruct (Z.le_gt_cases e 20) as [|Hbig]; [done|]. exfalso.
    rewrite Z.min_r in Hlt by lia. rewrite Z.sub_0_r, Z.sub_diag in Hlt.
    change (2 ^ 0) with 1 in Hlt.
    assert (Hd53 : d = 53) by lia.
    rewrite Hd53 in Hbits. change (2 ^ (53 - 1)) with 4503599627370496 in Hbits.
    pose proof (Z.pow_le_mono_r 2 21 e) as Hpow. change (2 ^ 21) with 2097152 in Hpow.
    assert (4503599627370496 * 2097152 ≤ Z.pos m * 2 ^ e)
      by (apply Z.mul_le_mono_nonneg; lia).
    lia. }
  exists m, e. split; [done|]. split; [cbn [Zdigits2]; lia|]. split; [done|].
  intros ->. rewrite Z.min_r in Hlt by lia. rewrite Z.sub_0_r, Z.sub_diag in Hlt.
  change (2 ^ 0) with 1 in Hlt. lia.
Qed.

Lemma exact_floor_div_scaled (m : positive) (e : Z) :
  e ≤ 20 →
  exact_floor_div (S754_finite false m e) 1000000
  = Some ((Z.pos m * 2 ^ 20) / (1000000 * 2 ^ (20 - e))).
Proof.
  intros He. unfold exact_floor_div. cbn [dyadic]. f_equal.
  assert (0 < 2 ^ (20 - e)) by (apply Z.pow_pos_nonneg; lia).
  destruct (Z.leb_spec 0 e) as [Hpos|Hneg].
  - replace (2 ^ 20) with (2 ^ e * 2 ^ (20 - e))
      by (rewrite <- Z.pow_add_r by lia; f_equal; lia).
    rewrite Z.mul_assoc. rewrite Z.div_mul_cancel_r by lia. done.
  - assert (0 < 2 ^ (- e)) by (apply Z.pow_pos_nonneg; lia).
    replace (2 ^ (20 - e)) with (2 ^ (- e) * 2 ^ 20)
      by (rewrite <- Z.pow_add_r by lia; f_equal; lia).
    rewrite Z.mul_assoc. rewrite Z.div_mul_cancel_r by lia. done.
Qed.

End Binary64Facts.

(** ** Facts on the replay adapter *)
Module ReplayFacts.
Import Py Replay Examples Props.

(** *** The timestamp normalizer on epoch numbers *)

(** C2, as stated, fails: [int(v / 1_000_000)] divides in binary64 and
    truncates afterwards.  The nanosecond count below lies 1 ns before a
    millisecond boundary; its quotient rounds up to the next integer, so
    the result is one more than the integer quotient. *)
Lemma normalize_ts_ns_not_integer_quotient :
  1000000000000000 < 1700000000000999999
  ∧ @normalize_ts utc_runtime (PyInt 1700000000000999999) = Ok (Some 1700000000001)
  ∧ @normalize_ts utc_runtime (PyInt 1700000000000999999)
    ≠ Ok (Some (1700000000000999999 / 1000000)).
Proof.
  split; [lia|]. split; [by vm_compute|]. vm_compute. discriminate.
Qed.

(** C2 (amended): an integer timestamp of at most 10^15 is returned
    unchanged, and a float of at most 10^15 truncated to an integer; a
    larger integer or binary64 value below 2^53 * 10^6 is returned as the
    integer quotient by 1_000_000 or that quotient plus one, and an
    integer that is a whole number of milliseconds as the exact quotient. *)
Theorem normalize_ts_epoch {RT : Runtime} :
  (∀ V, V ≤ 1000000000000000 → normalize_ts (PyInt V) = Ok (Some V))
  ∧ (∀ V, 1000000000000000 < V < 9007199254740992 * 1000000 →
       ∃ ms, normalize_ts (PyInt V) = Ok (Some ms)
             ∧ V / 1000000 ≤ ms ≤ V / 1000000 + 1
             ∧ (V mod 1000000 = 0 → ms = V / 1000000))
  ∧ (∀ f t, float_gt_int f 1000000000000000 = false →
       exact_trunc f = Some t →
       normalize_ts (PyFloat f) = Ok (Some t))
  ∧ (∀ f, valid_binary 53 1024 f = true →
       float_gt_int f 1000000000000000 = true →
       float_compare f (exact_of_int (9007199254740992 * 1000000)) = Some Lt →
       ∃ q ms, exact_floor_div f 1000000 = Some q
               ∧ normalize_ts (PyFloat f) = Ok (Some ms)
               ∧ q ≤ ms ≤ q + 1).
Proof.
  split; [|split; [|split]].
  - intros V HV. cbn [normalize_ts].
    destruct (Z.ltb_spec 1000000000000000 V); [lia|done].
  - intros V HV. cbn [normalize_ts].
    destruct (Z.ltb_spec 1000000000000000 V); [|lia].
    destruct (Binary64Facts.ns_to_ms V) as (ms & Hms & Hbounds); [lia|].
    exists ms. split; [|exact Hbounds].
    destruct (int_truediv V 1000000) as [q|e]; cbn [rbind] in *; [|done].
    by rewrite Hms.
  - intros f t Hle Ht. cbn [normalize_ts]. rewrite Hle.
    by rewrite (Binary64Facts.int_of_float_exact f t Ht).
  - intros f Hvalid Hgt Hlt.
    destruct (Binary64Facts.ns_float_range f Hvalid Hgt Hlt)
      as (m & e & -> & Hd & He & Htop).
    destruct (Binary64Facts.float_ns_to_ms m e Hd He Htop) as (ms & Hms & Hb).
    eexists _, ms. split; [apply Binary64Facts.exact_floor_div_scaled; lia|].
    split; [|exact Hb]. cbn [normalize_ts]. rewrite Hgt, Hms. done.
Qed.

Lemma normalize_ts_epoch_witness :
  (1000000000000000 < 1700000000000999999 < 9007199254740992 * 1000000
   ∧ ∃ ms, @normalize_ts utc_runtime (PyInt 1700000000000999999) = Ok (Some ms)
           ∧ 1700000000000999999 / 1000000 ≤ ms ≤ 1700000000000999999 / 1000000 + 1
           ∧ (1700000000000999999 mod 1000000 = 0 → ms = 1700000000000999999 / 1000000))
  ∧ (float_gt_int clock 1000000000000000 = false
     ∧ exact_trunc clock = Some 1704153600
     ∧ @normalize_ts utc_runtime (PyFloat clock) = Ok (Some 1704153600))
  ∧ (valid_binary 53 1024 ns_clock = true
     ∧ float_gt_int ns_clock 1000000000000000 = true
     ∧ float_compare ns_clock (exact_of_int (9007199254740992 * 1000000)) = Some Lt
     ∧ ∃ q ms, exact_floor_div ns_clock 1000000 = Some q
               ∧ @normalize_ts utc_runtime (PyFloat ns_clock) = Ok (Some ms)
               ∧ q ≤ ms ≤ q + 1).
Proof.
  destruct (@normalize_ts_epoch utc_runtime) as (_ & Hint & Hsmall & Hlarge).
  split; [split; [lia|apply Hint; lia]|]. split.
  - assert (Hle : float_gt_int clock 1000000000000000 = false) by (by vm_compute).
    assert (Ht : exact_trunc clock = Some 1704153600) by (by vm_compute).
    split; [exact Hle|]. split; [exact Ht|]. exact (Hsmall clock _ Hle Ht).
  - assert (Hv : valid_binary 53 1024 ns_clock = true) by (by vm_compute).
    assert (Hgt : float_gt_int ns_clock 1000000000000000 = true) by (by vm_compute).
    assert (Hlt : float_compare ns_clock (exact_of_int (9007199254740992 * 1000000)) = Some Lt)
      by (by vm_compute).
    split; [exact Hv|]. split; [exact Hgt|]. split; [exact Hlt|].
    exact (Hlarge ns_clock Hv Hgt Hlt).
Defined.

(** *** The timestamp normalizer on dates *)

(** C9: a date and a naive date-time are read in the local time zone of
    the process, not in UTC.  One hour east of UTC, 2024-01-02 comes out
    an hour before its UTC midnight, while the live handler, which sets
    [tzinfo] to UTC first, gives the UTC instant for the same naive value. *)
Lemma normalize_ts_date_uses_local_time :
  (toordinal (ymd 2024 1 2) - epoch_ordinal) * 86400000 = 1704153600000
  ∧ @normalize_ts cet_runtime (PyDate (ymd 2024 1 2)) = Ok (Some 1704150000000)
  ∧ @normalize_ts cet_runtime (PyDatetime (Datetime (ymd 2024 1 2) 0 0 0 0 None))
    = Ok (Some 1704150000000)
  ∧ @Live.tick_ts_ms cet_runtime
      (Live.mkTicker PyNone PyNone (Some (Datetime (ymd 2024 1 2) 0 0 0 0 None)) None None) f1
    = Ok 1704153600000.
Proof. repeat split; by vm_compute. Qed.


(** *** The symbol resolver *)
Section Resolver.
Context {RT : Runtime} {DB : Databento}.

Lemma queue_pending_present (self : SymbolResolver) (x : Z) :
  x ∈ _pending_set self → queue x self = self.
Proof. intros Hin. unfold queue. by rewrite decide_True. Qed.

Lemma queue_pending_absent (self : SymbolResolver) (x : Z) :
  x ∉ _pending_set self →
  _pending (queue x self) = _pending self ++ [x]
  ∧ _pending_set (queue x self) = {[x]} ∪ _pending_set self.
Proof. intros Hin. unfold queue. by rewrite decide_False. Qed.

Lemma queue_member (self : SymbolResolver) (x : Z) :
  x ∈ _pending_set (queue x self).
Proof.
  destruct (decide (x ∈ _pending_set self)) as [Hin|Hout].
  - by rewrite queue_pending_present.
  - destruct (queue_pending_absent self x Hout) as [_ ->]. set_solver.
Qed.

Lemma queue_wf (self : SymbolResolver) (x : Z) :
  resolver_wf self → resolver_wf (queue x self).
Proof.
  intros [Hnodup Hset].
  destruct (decide (x ∈ _pending_set self)) as [Hin|Hout].
  - by rewrite queue_pending_present.
  - destruct (queue_pending_absent self x Hout) as [Hl Hs]. split.
    + rewrite Hl. apply NoDup_app. split; [done|]. split; [|apply NoDup_singleton].
      intros y Hy Hy'. apply list_elem_of_singleton in Hy'. subst y.
      by apply Hout, Hset.
    + intros y. rewrite Hl, Hs, elem_of_app, list_elem_of_singleton, elem_of_union,
        elem_of_singleton, Hset. tauto.
Qed.

Lemma resolve_chunk_spec (pending : list Z) (i : nat) (st : state) :
  same_queue st (resolve_chunk pending i st).1
  ∧ outbound (resolve_chunk pending i st).1
    = outbound st ++ [request_of (resolver st) (take 2000 (drop i pending))].
Proof.
  unfold resolve_chunk, same_queue, request_of.
  destruct (symbology_resolve _ _) as [answer|e]; [|done].
  by destruct (insert_json _ answer) as [m r].
Qed.

Lemma resolve_loop_spec (pending : list Z) (idxs : list nat) (st : state) :
  same_queue st (for_each (resolve_chunk pending) idxs st).1
  ∧ ∃ sent,
      sent `prefix_of` idxs
      ∧ ((for_each (resolve_chunk pending) idxs st).2 = Ok tt → sent = idxs)
      ∧ outbound (for_each (resolve_chunk pending) idxs st).1
        = outbound st
          ++ map (fun i => request_of (resolver st) (take 2000 (drop i pending))) sent.
Proof.
  revert st. induction idxs as [|i idxs IH]; intros st; cbn [for_each].
  - split; [done|]. exists []. cbn. by rewrite app_nil_r.
  - unfold bind.
    destruct (resolve_chunk_spec pending i st) as [Hsame Hout].
    destruct (resolve_chunk pending i st) as [st1 [[]|e]]; cbn [fst snd] in *.
    + destruct (IH st1) as [Hsame' (sent & Hpre & Hok & Hout')].
      split.
      { unfold same_queue in *. intuition congruence. }
      exists (i :: sent). split; [by apply prefix_cons|]. split.
      * intros Hr. by rewrite Hok.
      * assert (Hreq : ∀ c, request_of (resolver st1) c = request_of (resolver st) c).
        { intros c. destruct Hsame as (_ & _ & Hd & Hsd & Hed & _).
          unfold request_of. by rewrite Hd, Hsd, Hed. }
        rewrite Hout', Hout, <- app_assoc. cbn [map app]. do 2 f_equal.
        apply map_ext. intros j. apply Hreq.
    + split; [done|]. exists [i]. split; [|split; [done|by rewrite Hout]].
      by apply prefix_cons, prefix_nil.
Qed.

Lemma range_chunks_cover (l : list Z) (fuel i : nat) :
  (length l - i ≤ fuel)%nat →
  concat (map (fun j => take 2000 (drop j l)) (range_from fuel i (length l) 2000))
  = drop i l.
Proof.
  revert i. induction fuel as [|fuel IH]; intros i Hfuel; cbn [range_from].
  - cbn. symmetry. apply drop_ge. lia.
  - destruct (Nat.ltb_spec i (length l)) as [Hlt|Hge].
    + cbn [map concat]. rewrite IH by lia.
      rewrite <- (drop_drop l 2000 i), take_drop. done.
    + cbn. symmetry. apply drop_ge. lia.
Qed.

Lemma resolve_pending_stdout (st : state) :
  stdout (resolve_pending st).1 = stdout st
  ∧ buffered (resolve_pending st).1 = buffered st.
Proof.
  unfold resolve_pending. destruct (_pending (resolver st)) as [|x0 pending0]; [done|].
  match goal with |- context [for_each ?f ?l ?s] =>
    destruct (resolve_loop_spec (x0 :: pending0) l s) as [(_ & _ & _ & _ & _ & Hb & Hs) _]
  end.
  by rewrite Hs, Hb.
Qed.

Lemma resolve_pending_clears (st : state) :
  resolver_wf (resolver st) →
  _pending (resolver (resolve_pending st).1) = []
  ∧ _pending_set (resolver (resolve_pending st).1) = ∅.
Proof.
  intros [_ Hset]. unfold resolve_pending.
  destruct (_pending (resolver st)) as [|x0 pending0] eqn:Hpending.
  - split; [done|]. apply set_eq. intros y. split; [|set_solver].
    intros Hy. apply Hset in Hy. by apply elem_of_nil in Hy.
  - match goal with |- context [for_each ?f ?l ?s] =>
      destruct (resolve_loop_spec (x0 :: pending0) l s) as [(Hp & Hs & _) _]
    end.
    by rewrite Hp, Hs.
Qed.

Lemma resolve_loop_returns (pending : list Z) (idxs : list nat) (st : state) :
  (∀ history rq, ∃ answer, symbology_resolve history rq = Ok answer) →
  (∀ m answer, (insert_json m answer).2 = Ok tt) →
  (for_each (resolve_chunk pending) idxs st).2 = Ok tt.
Proof.
  intros Hanswer Hinsert. revert st.
  induction idxs as [|i idxs IH]; intros st; cbn [for_each]; [done|].
  unfold bind.
  assert (Hstep : (resolve_chunk pending i st).2 = Ok tt).
  { unfold resolve_chunk. cbn zeta.
    match goal with |- context [symbology_resolve ?h ?rq] =>
      destruct (Hanswer h rq) as [answer ->]
    end.
    specialize (Hinsert (_map (resolver st)) answer).
    by destruct (insert_json _ answer) as [m r]. }
  destruct (resolve_chunk pending i st) as [s1 [[]|e]]; cbn [snd] in Hstep; [apply IH|done].
Qed.

Lemma resolve_loop_map (pending : list Z) (idxs : list nat) (st : state) :
  (for_each (resolve_chunk pending) idxs st).2 = Ok tt →
  _map (resolver (for_each (resolve_chunk pending) idxs st).1)
  = LedgerProps.merged (_map (resolver st)) (outbound st)
      (map (fun i => request_of (resolver st) (take 2000 (drop i pending))) idxs).
Proof.
  revert st. induction idxs as [|i idxs IH]; intros st; cbn [for_each map LedgerProps.merged]; [done|].
  unfold bind.
  assert (Hstep :
    match symbology_resolve (outbound st)
            (request_of (resolver st) (take 2000 (drop i pending))) with
    | Ok answer =>
        resolve_chunk pending i st
        = (mkState (set_map (insert_json (_map (resolver st)) answer).1 (resolver st))
             (buffered st) (stdout st)
             (outbound st ++ [request_of (resolver st) (take 2000 (drop i pending))]),
           (insert_json (_map (resolver st)) answer).2)
    | Raise e => (resolve_chunk pending i st).2 = Raise e
    end).
  { unfold resolve_chunk, request_of. cbn zeta.
    destruct (symbology_resolve _ _) as [answer|e]; [|done].
    by destruct (insert_json _ answer) as [m r]. }
  destruct (symbology_resolve _ _) as [answer|e].
  - rewrite Hstep. destruct (insert_json (_map (resolver st)) answer) as [m r]. cbn [fst snd].
    destruct r as [[]|e]; [|done].
    intros Hok. rewrite (IH _ Hok). cbn [resolver outbound set_map _map]. f_equal.
  - destruct (resolve_chunk pending i st) as [s1 [[]|e']]; cbn [snd] in *; done.
Qed.

Lemma request_of_clear (self : SymbolResolver) (chunk : list Z) :
  request_of (clear_pending self) chunk = request_of self chunk.
Proof. done. Qed.

(** C3: one call of [resolve_pending] sends the pending identifiers in
    requests of at most 2000 identifiers each, in queue order and all of
    them unless the service raises, and leaves the list and the set
    empty, so that the next identifier queued starts a fresh batch.  A
    call that returns has sent exactly the slices [pending[i:i+2000]] for
    [i] in [range(0, len(pending), 2000)], each for the data set and the
    date window of the resolver, and has inserted every answer into the
    map; and the call does return whenever the service answers and the
    map accepts the answers. *)
Theorem resolve_pending_batches (st : state) :
  resolver_wf (resolver st) →
  ∃ sent,
    outbound (resolve_pending st).1 = outbound st ++ sent
    ∧ Forall (fun rq => (length (symbols rq) ≤ 2000)%nat) sent
    ∧ concat (map symbols sent) `prefix_of` _pending (resolver st)
    ∧ ((resolve_pending st).2 = Ok tt →
       concat (map symbols sent) = _pending (resolver st))
    ∧ _pending (resolver (resolve_pending st).1) = []
    ∧ _pending_set (resolver (resolve_pending st).1) = ∅
    ∧ (∀ x, _pending (queue x (resolver (resolve_pending st).1)) = [x])
    ∧ ((resolve_pending st).2 = Ok tt →
       sent = map (fun i => request_of (resolver st) (take 2000 (drop i (_pending (resolver st)))))
                (range 0 (length (_pending (resolver st))) 2000))
    ∧ ((resolve_pending st).2 = Ok tt →
       _map (resolver (resolve_pending st).1)
       = LedgerProps.merged (_map (resolver st)) (outbound st) sent)
    ∧ ((∀ history rq, ∃ answer, symbology_resolve history rq = Ok answer) →
       (∀ m answer, (insert_json m answer).2 = Ok tt) →
       (resolve_pending st).2 = Ok tt).
Proof.
  intros [Hnodup Hset]. unfold resolve_pending.
  destruct (_pending (resolver st)) as [|x0 pending0] eqn:Hpending.
  - exists []. cbn [fst snd]. rewrite app_nil_r, Hpending.
    assert (Hempty : _pending_set (resolver st) = ∅).
    { apply set_eq. intros y. split; [|set_solver].
      intros Hy. apply Hset in Hy. by apply elem_of_nil in Hy. }
    repeat split; try done.
    intros x. destruct (queue_pending_absent (resolver st) x) as [-> _];
      [rewrite Hempty; set_solver|by rewrite Hpending].
  - set (pending := x0 :: pending0) in *.
    set (st1 := mkState (clear_pending (resolver st)) (buffered st) (stdout st) (outbound st)).
    destruct (resolve_loop_spec pending (range 0 (length pending) 2000) st1)
      as [Hsame (sent & Hpre & Hok & Hout)].
    destruct Hsame as (Hp & Hs & _).
    exists (map (fun i => request_of (resolver st1) (take 2000 (drop i pending))) sent).
    assert (Hcat : ∀ idxs : list nat,
      concat (map symbols
        (map (fun i => request_of (resolver st1) (take 2000 (drop i pending))) idxs))
      = concat (map (fun j => take 2000 (drop j pending)) idxs)).
    { intros idxs. by rewrite map_map. }
    assert (Hall : concat (map (fun j => take 2000 (drop j pending))
                     (range 0 (length pending) 2000)) = pending).
    { unfold range. by rewrite range_chunks_cover by lia. }
    split; [exact Hout|]. split.
    { apply Forall_map, Forall_forall. intros i _. cbn [symbols request_of].
      rewrite length_take. lia. }
    split.
    { rewrite Hcat. destruct Hpre as [rest Hrest].
      exists (concat (map (fun j => take 2000 (drop j pending)) rest)).
      rewrite <- concat_app, <- map_app, <- Hrest. symmetry. exact Hall. }
    split.
    { intros Hr. by rewrite Hcat, (Hok Hr). }
    split; [by rewrite Hp|]. split; [by rewrite Hs|].
    split.
    { clear -Hp Hs. intros x. destruct (queue_pending_absent (resolver
          (for_each (resolve_chunk pending) (range 0 (length pending) 2000) st1).1) x)
        as [-> _]; [rewrite Hs; set_solver|by rewrite Hp]. }
    split.
    { intros Hr. rewrite (Hok Hr). apply map_ext. intros i.
      cbn [st1 resolver]. apply request_of_clear. }
    split.
    { intros Hr. rewrite (Hok Hr). by rewrite (resolve_loop_map pending _ st1 Hr). }
    intros Hanswer Hinsert. by apply resolve_loop_returns.
Qed.

Lemma reachable_wf (self : SymbolResolver) : reachable self → resolver_wf self.
Proof.
  induction 1 as [dataset start_date end_date|self x _ IH|st _ IH].
  - split; [apply NoDup_nil_2|]. cbn. set_solver.
  - by apply queue_wf.
  - destruct (resolve_pending_clears st IH) as [Hp Hs].
    split; rewrite ?Hp, ?Hs; [apply NoDup_nil_2|set_solver].
Qed.

(** C6: whatever calls came before, the pending list holds no identifier
    twice; queueing an identifier that is pending changes nothing, so a
    second [queue] of the same identifier leaves [pending_count] where the
    first put it, at 1 when the queue was empty. *)
Theorem queue_deduplicates (self : SymbolResolver) (x : Z) :
  reachable self →
  NoDup (_pending self)
  ∧ (x ∈ _pending self → queue x self = self)
  ∧ queue x (queue x self) = queue x self
  ∧ (_pending self = [] → pending_count (queue x (queue x self)) = 1%nat).
Proof.
  intros Hreach. destruct (reachable_wf self Hreach) as [Hnodup Hset].
  split; [done|]. split; [|split].
  - intros Hin. apply queue_pending_present. by apply Hset.
  - apply queue_pending_present, queue_member.
  - intros Hempty. rewrite (queue_pending_present (queue x self)) by apply queue_member.
    unfold pending_count.
    destruct (queue_pending_absent self x) as [-> _]; [|by rewrite Hempty].
    rewrite Hset, Hempty. set_solver.
Qed.

End Resolver.

Lemma resolve_pending_batches_witness :
  @resolver_wf silent_client (resolver three_pending)
  ∧ (@resolve_pending utc_runtime silent_client three_pending).2 = Ok tt
  ∧ outbound (@resolve_pending utc_runtime silent_client three_pending).1
    = [Request "OPRA" [7; 8; 9] "instrument_id" "raw_symbol" (@today utc_runtime) None]
  ∧ _pending (resolver (@resolve_pending utc_runtime silent_client three_pending).1) = []
  ∧ _pending_set (resolver (@resolve_pending utc_runtime silent_client three_pending).1) = ∅
  ∧ _pending (queue 10 (resolver (@resolve_pending utc_runtime silent_client three_pending).1))
    = [10].
Proof.
  assert (Hwf : @resolver_wf silent_client (resolver three_pending)).
  { do 3 apply queue_wf. split; [apply NoDup_nil_2|]. cbn. set_solver. }
  split; [exact Hwf|].
  destruct (@resolve_pending_batches utc_runtime silent_client three_pending Hwf)
    as (sent & Hout & _ & _ & _ & Hp & Hs & Hq & Hexact & _ & Hreturns).
  assert (Hok : (@resolve_pending utc_runtime silent_client three_pending).2 = Ok tt).
  { apply Hreturns.
    - intros history rq. exists tt. reflexivity.
    - intros m answer. reflexivity. }
  split; [exact Hok|]. split; [|split; [exact Hp|split; [exact Hs|apply Hq]]].
  rewrite Hout, (Hexact Hok). reflexivity.
Defined.

Lemma queue_deduplicates_witness :
  @reachable utc_runtime silent_client (init "OPRA" None None)
  ∧ NoDup (_pending (@init silent_client "OPRA" None None))
  ∧ (7 ∈ _pending (@init silent_client "OPRA" None None) →
     queue 7 (@init silent_client "OPRA" None None) = init "OPRA" None None)
  ∧ queue 7 (queue 7 (@init silent_client "OPRA" None None)) = queue 7 (init "OPRA" None None)
  ∧ (_pending (@init silent_client "OPRA" None None) = [] →
     pending_count (queue 7 (queue 7 (@init silent_client "OPRA" None None))) = 1%nat).
Proof.
  split; [apply reach_init|].
  apply (@queue_deduplicates utc_runtime silent_client). apply reach_init.
Defined.

(** *** What reaches standard output *)
Section Output.
Context {RT : Runtime} {DB : Databento}.

Lemma payload_get_app (key : string) (p q : payload) (v : pyval) :
  payload_get key p = Some v → payload_get key (p ++ q) = Some v.
Proof.
  induction p as [|[k w] p IH]; cbn [payload_get app]; [done|].
  destruct (String.eqb k key); [done|exact IH].
Qed.

Lemma has_field_app (key : string) (p q : payload) :
  has_field key p = true → has_field key (p ++ q) = true.
Proof.
  unfold has_field. destruct (payload_get key p) as [v|] eqn:Hget; [|done].
  by rewrite (payload_get_app key p q v Hget).
Qed.

Lemma canonical_app (p q : payload) : canonical p = true → canonical (p ++ q) = true.
Proof.
  unfold canonical. rewrite !andb_true_iff. intros [[[? ?] ?] ?].
  repeat split; by apply has_field_app.
Qed.

Lemma stringify_not_none (v : pyval) : is_none v = false → is_none (stringify v) = false.
Proof. by destruct v. Qed.

(** What [build_payload] returns when it returns a payload. *)
Lemma build_payload_inv (record : gmap string pyval) (symbol_override : pyval) (p : payload) :
  build_payload record symbol_override = Ok (Some p) →
  ∃ ts_ms price size symbol rest,
    p = [("ts", PyInt ts_ms); ("price", PyFloat price); ("size", PyInt size);
         ("symbol", stringify symbol)] ++ rest
    ∧ symbol = py_or symbol_override
                 (py_or (py_or (getattr record "symbol") (getattr record "raw_symbol"))
                    (getattr record "instrument_id"))
    ∧ is_none symbol = false
    ∧ normalize_ts (getattr record "ts_event") = Ok (Some ts_ms)
    ∧ py_float (getattr record "price") = Ok price
    ∧ py_int (getattr record "size") = Ok size.
Proof.
  unfold build_payload.
  set (symbol := py_or symbol_override _).
  destruct (is_none (getattr record "ts_event") || is_none (getattr record "price")
            || is_none (getattr record "size") || is_none symbol) eqn:Hguard; [done|].
  apply orb_false_iff in Hguard as [_ Hsym].
  destruct (normalize_ts (getattr record "ts_event")) as [[ts_ms|]|e]; cbn [rbind]; try done.
  destruct (py_float (getattr record "price")) as [price|e]; cbn [rbind]; [|done].
  destruct (py_int (getattr record "size")) as [size|e]; cbn [rbind]; [|done].
  intros [= <-]. exists ts_ms, price, size, symbol.
  destruct (is_none (py_or _ (getattr record "exchange_id")));
    destruct (truthy _); eexists; (split; [|done]);
    rewrite <- ?app_assoc; cbn [app]; reflexivity.
Qed.

Lemma build_payload_canonical (record : gmap string pyval) (symbol_override : pyval) (p : payload) :
  build_payload record symbol_override = Ok (Some p) → canonical p = true.
Proof.
  intros Hp. apply build_payload_inv in Hp
    as (ts_ms & price & size & symbol & rest & -> & _ & Hsym & _).
  apply canonical_app. unfold canonical, has_field. cbn.
  by rewrite (stringify_not_none symbol Hsym).
Qed.

Lemma preserves_ret {A} (a : A) : preserves (ret a).
Proof. by intros st. Qed.

Lemma preserves_bind {A B} (m : M A) (k : A → M B) :
  preserves m → (∀ a, preserves (k a)) → preserves (bind m k).
Proof.
  intros Hm Hk st Hst. unfold bind. specialize (Hm st Hst).
  destruct (m st) as [st' [a|e]]; cbn [fst] in *; [by apply Hk|done].
Qed.

Lemma preserves_for_each {A} (body : A → M unit) (l : list A) :
  (∀ x, preserves (body x)) → preserves (for_each body l).
Proof.
  intros Hbody. induction l as [|x l IH]; cbn [for_each].
  - apply preserves_ret.
  - apply preserves_bind; [apply Hbody|intros _; apply IH].
Qed.

Lemma preserves_print_json (p : payload) : canonical p = true → preserves (print_json p).
Proof.
  intros Hp st Hst. unfold print_json.
  destruct (forallb _ p); cbn [fst stdout]; [|done].
  apply Forall_app. split; [done|]. by apply Forall_singleton.
Qed.

Lemma preserves_emit_built record symbol_override :
  preserves (bind (lift (build_payload record symbol_override)) emit_payload).
Proof.
  intros st Hst. unfold bind, lift.
  destruct (build_payload record symbol_override) as [[p|]|e] eqn:Hb; try done.
  cbn [emit_payload]. apply preserves_print_json; [|done].
  by eapply build_payload_canonical.
Qed.

Lemma preserves_emit_built_then {A} record symbol_override (k : M A) :
  preserves k →
  preserves (bind (lift (build_payload record symbol_override))
               (fun p => bind (emit_payload p) (fun _ => k))).
Proof.
  intros Hk st Hst. unfold bind at 1, lift.
  destruct (build_payload record symbol_override) as [[p|]|e] eqn:Hb; [| |done].
  - apply preserves_bind; [|by intros _|done].
    apply preserves_print_json. by eapply build_payload_canonical.
  - apply preserves_bind; [apply preserves_ret|by intros _|done].
Qed.

Lemma preserves_resolve_pending : preserves resolve_pending.
Proof.
  intros st Hst. unfold out_ok. by destruct (resolve_pending_stdout st) as [-> _].
Qed.

Lemma preserves_flush_entries (force : bool) entries remaining :
  preserves (flush_entries force entries remaining).
Proof.
  revert remaining. induction entries as [|[[record instrument_id] d] entries IH];
    intros remaining; cbn [flush_entries]; [apply preserves_ret|].
  intros st Hst.
  destruct (truthy (lookup (resolver st) instrument_id d)).
  - by apply preserves_emit_built_then.
  - destruct force; [by apply preserves_emit_built_then|by apply IH].
Qed.

Lemma preserves_flush_buffer (force : bool) : preserves (flush_buffer force).
Proof.
  intros st Hst. unfold flush_buffer. destruct (buffered st) as [|entry entries]; [done|].
  revert st Hst. apply preserves_bind; [apply preserves_resolve_pending|]. intros _.
  apply preserves_bind; [apply preserves_flush_entries|]. by intros remaining st.
Qed.

Lemma preserves_handle_record record : preserves (handle_record record).
Proof.
  unfold handle_record. apply preserves_bind; [by intros st|]. intros [ts_ms|]; [|apply preserves_ret].
  apply preserves_bind; [by intros st|]. intros d.
  destruct (is_numeric_symbol _); [|apply preserves_emit_built].
  apply preserves_bind; [by intros st|]. intros instrument_id st Hst.
  destruct (truthy (lookup (resolver st) instrument_id d)).
  - by apply preserves_emit_built.
  - revert st Hst. apply preserves_bind; [by intros st|]. intros _ st Hst.
    destruct (200 <=? pending_count (resolver st))%nat; [|done].
    by apply preserves_flush_buffer.
Qed.

Lemma preserves_main has_replay has_iter data : preserves (main has_replay has_iter data).
Proof.
  assert (Hreplay : preserves (data_replay data handle_record))
    by apply preserves_for_each, preserves_handle_record.
  assert (Hflush : preserves (bind (flush_buffer true) (fun _ => ret 0))).
  { apply preserves_bind; [apply preserves_flush_buffer|intros _; apply preserves_ret]. }
  unfold main. destruct has_replay; [|destruct has_iter; [|apply preserves_ret]].
  - unfold main_replay. apply preserves_bind; [|by intros _].
    intros st Hst. unfold try_except_TypeError.
    assert (Hfirst : preserves (if replay_takes_callback_keyword
                                then data_replay data handle_record else raise TypeError)).
    { destruct replay_takes_callback_keyword; [done|by intros st']. }
    specialize (Hfirst st Hst).
    destruct ((if replay_takes_callback_keyword
               then data_replay data handle_record else raise TypeError) st)
      as [st' [a|e]]; [done|].
    destruct e; try done. by apply Hreplay.
  - unfold main_iter. apply preserves_bind; [|by intros _].
    apply preserves_for_each. intros record. unfold iter_step.
    apply preserves_bind; [apply preserves_handle_record|]. intros _ st Hst.
    destruct (2000 <=? length (buffered st))%nat; [|done].
    by apply preserves_flush_buffer.
Qed.

End Output.

(** *** Dropped records and the forced flush *)
Section Flush.
Context {RT : Runtime} {DB : Databento}.

Lemma normalize_ts_unrepresentable (ts_value : pyval) :
  unrepresentable ts_value = true → normalize_ts ts_value = Ok None.
Proof. by destruct ts_value. Qed.

Lemma handle_record_drops (record : gmap string pyval) (st : state) :
  normalize_ts (getattr record "ts_event") = Ok None →
  handle_record record st = (st, Ok tt).
Proof. intros Hts. unfold handle_record, bind, lift. by rewrite Hts. Qed.

Lemma build_payload_drops (record : gmap string pyval) (symbol_override : pyval) :
  normalize_ts (getattr record "ts_event") = Ok None →
  build_payload record symbol_override = Ok None.
Proof.
  intros Hts. unfold build_payload. rewrite Hts. cbn [rbind].
  by destruct (_ || _).
Qed.

Lemma pretty_N_go_length (x : N) (s : string) :
  (String.length s ≤ String.length (pretty_N_go x s))%nat.
Proof.
  revert s. induction (N.lt_wf_0 x) as [x _ IH]; intros s.
  destruct (decide (x = 0)%N) as [->|Hx]; [by rewrite pretty_N_go_0|].
  rewrite pretty_N_go_step by lia.
  etrans; [|apply IH, N.div_lt; lia]. cbn. lia.
Qed.

Lemma pretty_Z_nonempty (z : Z) : pretty z ≠ "".
Proof.
  destruct z as [|p|p]; [done| |done].
  unfold pretty, pretty_Z, pretty, pretty_positive, pretty, pretty_N.
  rewrite decide_False by done. rewrite pretty_N_go_step by lia.
  intros Hempty.
  pose proof (pretty_N_go_length (N.pos p `div` 10)
                (String (pretty_N_char (N.pos p `mod` 10)) "")) as Hlen.
  rewrite Hempty in Hlen. cbn in Hlen. lia.
Qed.

Lemma truthy_str_int (z : Z) : truthy (PyStr (py_str (PyInt z))) = true.
Proof.
  cbn [truthy py_str]. destruct (String.eqb_spec (pretty z) ""); [|done].
  by destruct (pretty_Z_nonempty z).
Qed.

(** With the stringified identifier as override, a record whose timestamp,
    price and size convert yields a payload under that symbol. *)
Lemma build_payload_fallback (record : gmap string pyval) (instrument_id : Z) (r : option payload) :
  build_payload record (PyStr (py_str (PyInt instrument_id))) = Ok r →
  is_none (getattr record "price") = false →
  is_none (getattr record "size") = false →
  ∀ ts_ms, normalize_ts (getattr record "ts_event") = Ok (Some ts_ms) →
  ∃ p, r = Some p
       ∧ payload_get "symbol" p = Some (PyStr (py_str (PyInt instrument_id)))
       ∧ payload_get "ts" p = Some (PyInt ts_ms).
Proof.
  intros Hb Hprice Hsize ts_ms Hts.
  assert (Hts_none : is_none (getattr record "ts_event") = false).
  { destruct (getattr record "ts_event"); try done. }
  destruct r as [p|].
  - exists p. split; [done|].
    apply build_payload_inv in Hb
      as (ts' & price & size & symbol & rest & -> & Hsym & _ & Hts' & _).
    unfold py_or in Hsym. rewrite truthy_str_int in Hsym. subst symbol.
    rewrite Hts in Hts'. injection Hts' as <-. done.
  - exfalso. revert Hb. unfold build_payload.
    rewrite Hts_none, Hprice, Hsize. unfold py_or at 1. rewrite truthy_str_int.
    cbn [is_none orb]. rewrite Hts. cbn [rbind].
    destruct (py_float _); cbn [rbind]; [|done].
    destruct (py_int _); cbn [rbind]; done.
Qed.

(** The loop of a forced flush keeps no entry and emits every unresolved
    one that builds. *)
Lemma flush_entries_forced entries remaining (st st' : state) rem :
  flush_entries true entries remaining st = (st', Ok rem) →
  rem = remaining
  ∧ resolver st' = resolver st
  ∧ ∃ new, stdout st' = stdout st ++ new
      ∧ ∀ record instrument_id d,
          (record, instrument_id, d) ∈ entries →
          truthy (lookup (resolver st) instrument_id d) = false →
          ∃ r, build_payload record (PyStr (py_str (PyInt instrument_id))) = Ok r
               ∧ ∀ p, r = Some p → p ∈ new.
Proof.
  revert st. induction entries as [|[[record instrument_id] d] entries IH]; intros st;
    cbn [flush_entries].
  - intros [= <- <-]. split; [done|]. split; [done|]. exists [].
    rewrite app_nil_r. split; [done|]. intros ? ? ? Hin. by apply elem_of_nil in Hin.
  - set (override := if truthy (lookup (resolver st) instrument_id d)
                     then lookup (resolver st) instrument_id d
                     else PyStr (py_str (PyInt instrument_id))).
    assert (Hstep : flush_entries true ((record, instrument_id, d) :: entries) remaining st
                    = bind (lift (build_payload record override))
                        (fun p => bind (emit_payload p)
                                    (fun _ => flush_entries true entries remaining)) st).
    { cbn [flush_entries]. subst override. by destruct (truthy _). }
    cbn [flush_entries] in Hstep. rewrite Hstep. clear Hstep.
    unfold bind at 1, lift.
    destruct (build_payload record override) as [r|e] eqn:Hb; [|done].
    unfold bind.
    assert (Hemit : ∃ st1, emit_payload r st = (st1, Ok tt) ∨ ∃ e, emit_payload r st = (st1, Raise e)).
    { destruct (emit_payload r st) as [st1 [[]|e]]; eauto. }
    destruct Hemit as (st1 & [Hemit|[e Hemit]]); rewrite Hemit; [|done].
    assert (Hst1 : resolver st1 = resolver st
                   ∧ stdout st1 = stdout st ++ match r with Some p => [p] | None => [] end).
    { destruct r as [p|]; cbn [emit_payload] in Hemit.
      - unfold print_json in Hemit. destruct (forallb _ p); [|done].
        by injection Hemit as <-.
      - injection Hemit as <-. by rewrite app_nil_r. }
    destruct Hst1 as [Hres Hout].
    intros Hrest. apply IH in Hrest as (-> & Hres' & new & Hout' & Hnew).
    split; [done|]. split; [congruence|].
    exists (match r with Some p => [p] | None => [] end ++ new).
    split; [by rewrite Hout', Hout, app_assoc|].
    intros record' id' d' Hin Hfalsy.
    apply elem_of_cons in Hin as [[= -> -> ->]|Hin].
    + subst override. rewrite Hfalsy in Hb. exists r. split; [done|].
      intros p ->. apply elem_of_app. left. apply list_elem_of_singleton. done.
    + rewrite <- Hres in Hfalsy. destruct (Hnew record' id' d' Hin Hfalsy) as (r' & Hb' & Hp).
      exists r'. split; [done|]. intros p Hr. apply elem_of_app. right. by apply Hp.
Qed.

Lemma flush_buffer_forced (st st' : state) :
  flush_buffer true st = (st', Ok tt) →
  buffered st' = []
  ∧ ∃ new, stdout st' = stdout st ++ new
      ∧ ∀ record instrument_id d,
          (record, instrument_id, d) ∈ buffered st →
          truthy (lookup (resolver st') instrument_id d) = false →
          ∃ r, build_payload record (PyStr (py_str (PyInt instrument_id))) = Ok r
               ∧ ∀ p, r = Some p → p ∈ new.
Proof.
  unfold flush_buffer. destruct (buffered st) as [|entry entries] eqn:Hbuf.
  - intros [= <-]. split; [done|]. exists []. rewrite app_nil_r. split; [done|].
    intros ? ? ? Hin. by apply elem_of_nil in Hin.
  - unfold bind at 1.
    destruct (resolve_pending_stdout st) as [Hout _].
    destruct (resolve_pending st) as [st1 [[]|e]]; [|done]. cbn [fst] in Hout.
    unfold bind.
    destruct (flush_entries true (entry :: entries) [] st1) as [st2 [rem|e]] eqn:Hloop; [|done].
    apply flush_entries_forced in Hloop as (-> & Hres & new & Hout' & Hnew).
    unfold set_buffered. intros [= <-]. cbn [buffered stdout resolver].
    split; [done|]. exists new. split; [congruence|].
    intros record id d Hin Hfalsy. rewrite Hres in Hfalsy. by apply (Hnew record id d).
Qed.

Lemma main_drains_buffer has_replay has_iter data (st st' : state) :
  main has_replay has_iter data st = (st', Ok 0) → buffered st' = [].
Proof.
  assert (Hend : ∀ s s', bind (flush_buffer true) (fun _ => ret 0) s = (s', Ok 0) →
                         buffered s' = []).
  { intros s s'. unfold bind, ret.
    destruct (flush_buffer true s) as [s1 [[]|e]] eqn:Hflush; [|done].
    intros [= <-]. by apply flush_buffer_forced in Hflush as [? _]. }
  unfold main. destruct has_replay; [|destruct has_iter; [|done]].
  - unfold main_replay. unfold bind at 1.
    destruct (try_except_TypeError _ _ st) as [s1 [[]|e]]; [|done]. apply Hend.
  - unfold main_iter. unfold bind at 1.
    destruct (for_each iter_step data st) as [s1 [[]|e]]; [|done]. apply Hend.
Qed.

End Flush.

(** C4: on the callback path nothing looks at the length of the buffer.
    Two thousand prints of one unresolved instrument leave a single pending
    identifier and two thousand buffered entries, and no flush happens
    before the end of the stream; the iterator path, given the same
    records, flushes after the 2000th and sends a request. *)
Lemma callback_path_ignores_buffer_threshold :
  length (buffered (@data_replay silent_client one_instrument_prints
                      (@handle_record utc_runtime silent_client)
                      (initial_state "OPRA" None None)).1) = 2000%nat
  ∧ outbound (@data_replay silent_client one_instrument_prints
                (@handle_record utc_runtime silent_client)
                (initial_state "OPRA" None None)).1 = []
  ∧ length (outbound (@for_each silent_client _ (@iter_step utc_runtime silent_client)
                        one_instrument_prints (initial_state "OPRA" None None)).1) = 1%nat.
Proof. repeat split; by vm_compute. Qed.

End ReplayFacts.

(** ** Facts on the live adapter *)
Module LiveFacts.
Import Py Live Examples Props.

Section Handler.
Context {RT : Runtime}.

Lemma on_update_outcome (t : Ticker) (now : float) (st : state) :
  outcome t now st (on_update t now st).
Proof.
  unfold on_update.
  destruct (is_none (last t) || is_none (lastSize t)) eqn:Hguard;
    [by apply missing_price_or_size|].
  destruct (tick_ts_ms t now) as [ts_ms|e] eqn:Hts; [|by apply no_timestamp].
  destruct (key_eq _ (last_key st)) eqn:Hkey; [by eapply duplicate|].
  destruct (tick_exchange t) as [exch|e] eqn:Hexch; cbn [rbind];
    [|by eapply accepted_then_raised].
  destruct (py_float (last t)) as [price|e] eqn:Hprice; cbn [rbind];
    [|by eapply accepted_then_raised].
  destruct (py_int (lastSize t)) as [size|e] eqn:Hsize; cbn [rbind];
    [|by eapply accepted_then_raised].
  unfold print_json. destruct (forallb _ _); [|by eapply accepted_then_raised].
  cbn [last_key stdout]. by eapply accepted_and_written.
Qed.

Lemma tick_exchange_truthy (t : Ticker) (exch : pyval) :
  tick_exchange t = Ok exch →
  truthy exch = true
  ∧ exch = (if truthy (default PyNone (lastExchange t)) then default PyNone (lastExchange t)
            else if truthy (default PyNone (exchange t)) then default PyNone (exchange t)
            else PyStr "IBKR").
Proof.
  unfold tick_exchange.
  destruct (truthy (default PyNone (lastExchange t))) eqn:Hlast.
  - intros [= <-]. split; [exact Hlast|reflexivity].
  - destruct (exchange t) as [e|]; [|done]. intros [= <-].
    change (default PyNone (Some e)) with e.
    unfold py_or. destruct (truthy e) eqn:He; (split; [first [exact He|reflexivity]|reflexivity]).
Qed.

Lemma line_shape ts_ms price size exch :
  truthy exch = true → live_shape (line ts_ms price size exch) = true.
Proof. intros Hexch. unfold live_shape, has_field. cbn. by destruct exch. Qed.

Lemma run_Forall (P : payload → Prop) (updates : list (Ticker * float)) (st : state) :
  (∀ ts_ms price size exch, truthy exch = true → P (line ts_ms price size exch)) →
  Forall P (stdout st) → Forall P (stdout (run updates st)).
Proof.
  intros Hline. revert st. induction updates as [|[t now] updates IH]; intros st Hst;
    cbn [run]; [done|].
  apply IH. destruct (on_update_outcome t now st); cbn [fst stdout]; try done.
  apply Forall_app. split; [done|]. apply Forall_singleton, Hline.
  by eapply tick_exchange_truthy.
Qed.

Lemma on_update_missing (t : Ticker) (now : float) (st : state) :
  is_none (last t) || is_none (lastSize t) = true → on_update t now st = (st, Ok tt).
Proof. intros Hguard. unfold on_update. by rewrite Hguard. Qed.

Lemma on_update_duplicate (t : Ticker) (now : float) (st : state) (ts_ms : Z) :
  is_none (last t) || is_none (lastSize t) = false →
  tick_ts_ms t now = Ok ts_ms →
  key_eq (ts_ms, last t, lastSize t) (last_key st) = true →
  on_update t now st = (st, Ok tt).
Proof. intros Hguard Hts Hkey. unfold on_update. by rewrite Hguard, Hts, Hkey. Qed.

Lemma on_update_retains (t : Ticker) (now : float) (st : state) (ts_ms : Z) :
  is_none (last t) || is_none (lastSize t) = false →
  tick_ts_ms t now = Ok ts_ms →
  key_eq (ts_ms, last t, lastSize t) (last_key st) = false →
  last_key (on_update t now st).1 = Some (ts_ms, last t, lastSize t).
Proof.
  intros Hguard Hts Hkey. unfold on_update. rewrite Hguard, Hts, Hkey.
  destruct (rbind _ _) as [p|e]; [|done].
  unfold print_json. by destruct (forallb _ p).
Qed.

Lemma on_update_written (t : Ticker) (now : float) (st : state) ts_ms exch price size :
  is_none (last t) || is_none (lastSize t) = false →
  tick_ts_ms t now = Ok ts_ms →
  key_eq (ts_ms, last t, lastSize t) (last_key st) = false →
  tick_exchange t = Ok exch →
  py_float (last t) = Ok price →
  py_int (lastSize t) = Ok size →
  Replay.json_serializable exch = true →
  on_update t now st
  = (mkState (Some (ts_ms, last t, lastSize t)) (stdout st ++ [line ts_ms price size exch]),
     Ok tt).
Proof.
  intros Hguard Hts Hkey Hexch Hprice Hsize Hjson. unfold on_update.
  rewrite Hguard, Hts, Hkey, Hexch, Hprice, Hsize. cbn [rbind].
  unfold print_json. cbn [forallb snd Replay.json_serializable andb].
  by rewrite Hjson.
Qed.

(** C7: a tick without price or size leaves the state alone; a tick whose
    key equals the retained key leaves the state alone and writes
    nothing; a tick whose key differs becomes the retained key and, when
    its fields convert, writes one line; and ticks with the keys
    (1000, 10.5, 5), (1000, 10.5, 5), (1001, 10.5, 5) write two lines. *)
Theorem live_dedup :
  (∀ t now st,
     is_none (last t) || is_none (lastSize t) = true →
     on_update t now st = (st, Ok tt))
  ∧ (∀ t now st ts_ms,
       is_none (last t) || is_none (lastSize t) = false →
       tick_ts_ms t now = Ok ts_ms →
       (key_eq (ts_ms, last t, lastSize t) (last_key st) = true →
        on_update t now st = (st, Ok tt))
       ∧ (key_eq (ts_ms, last t, lastSize t) (last_key st) = false →
          last_key (on_update t now st).1 = Some (ts_ms, last t, lastSize t)
          ∧ ∀ exch price size,
              tick_exchange t = Ok exch →
              py_float (last t) = Ok price →
              py_int (lastSize t) = Ok size →
              Replay.json_serializable exch = true →
              stdout (on_update t now st).1 = stdout st ++ [line ts_ms price size exch]))
  ∧ (∀ t1 t2 t3 now1 now2 now3 e1 e2 e3,
       last t1 = PyFloat f10_5 → lastSize t1 = PyInt 5 → tick_ts_ms t1 now1 = Ok 1000 →
       last t2 = PyFloat f10_5 → lastSize t2 = PyInt 5 → tick_ts_ms t2 now2 = Ok 1000 →
       last t3 = PyFloat f10_5 → lastSize t3 = PyInt 5 → tick_ts_ms t3 now3 = Ok 1001 →
       tick_exchange t1 = Ok e1 → Replay.json_serializable e1 = true →
       tick_exchange t2 = Ok e2 → Replay.json_serializable e2 = true →
       tick_exchange t3 = Ok e3 → Replay.json_serializable e3 = true →
       length (stdout (run [(t1, now1); (t2, now2); (t3, now3)] initial_state)) = 2%nat).
Proof.
  split; [apply on_update_missing|]. split.
  - intros t now st ts_ms Hguard Hts. split; [by apply on_update_duplicate|].
    intros Hkey. split; [by apply on_update_retains|].
    intros exch price size Hexch Hprice Hsize Hjson.
    by rewrite (on_update_written t now st ts_ms exch price size).
  - intros t1 t2 t3 now1 now2 now3 e1 e2 e3 Hl1 Hs1 Hts1 Hl2 Hs2 Hts2 Hl3 Hs3 Hts3
      He1 Hj1 He2 Hj2 He3 Hj3.
    cbn [run].
    rewrite (on_update_written t1 now1 initial_state 1000 e1 f10_5 5);
      rewrite ?Hl1, ?Hs1; try done.
    cbn [fst].
    rewrite (on_update_duplicate t2 now2 _ 1000); rewrite ?Hl2, ?Hs2; try done.
    cbn [fst].
    rewrite (on_update_written t3 now3 _ 1001 e3 f10_5 5); rewrite ?Hl3, ?Hs3; try done.
Qed.

(** C10: the line that a tick writes has an [exchange] field, which is
    [lastExchange] when the ticker has one that is non-empty, else the
    ticker's [exchange] when non-empty, else ["IBKR"]; so every line of a
    run has a non-empty [exchange]. *)
Theorem live_exchange_field :
  (∀ t now st p,
     stdout (on_update t now st).1 = stdout st ++ [p] →
     Replay.payload_get "exchange" p
     = Some (if truthy (default PyNone (lastExchange t)) then default PyNone (lastExchange t)
             else if truthy (default PyNone (exchange t)) then default PyNone (exchange t)
             else PyStr "IBKR"))
  ∧ ∀ updates,
      Forall (fun p => ∃ v, Replay.payload_get "exchange" p = Some v ∧ truthy v = true)
        (stdout (run updates initial_state)).
Proof.
  split.
  - intros t now st p Hout.
    destruct (on_update_outcome t now st); cbn [fst stdout] in Hout;
      try (apply (f_equal length) in Hout; rewrite length_app in Hout; cbn in Hout; lia).
    apply app_inv_head in Hout. injection Hout as <-.
    cbn. f_equal. by eapply tick_exchange_truthy.
  - intros updates. apply run_Forall; [|by apply Forall_nil_2].
    intros ts_ms price size exch Hexch. by exists exch.
Qed.

End Handler.

Lemma live_dedup_witness :
  (is_none (last (tick_at 1 0)) || is_none (lastSize (tick_at 1 0)) = false
   ∧ @tick_ts_ms utc_runtime (tick_at 1 0) clock = Ok 1000
   ∧ key_eq (1000, last (tick_at 1 0), lastSize (tick_at 1 0)) (last_key initial_state) = false)
  ∧ last_key (@on_update utc_runtime (tick_at 1 0) clock initial_state).1
    = Some (1000, last (tick_at 1 0), lastSize (tick_at 1 0))
  ∧ length (stdout (@run utc_runtime
                      [(tick_at 1 0, clock); (tick_at 1 0, clock); (tick_at 1 1500, clock)]
                      initial_state)) = 2%nat.
Proof.
  destruct (@live_dedup utc_runtime) as (_ & Hstep & Hscenario).
  split; [repeat split; by vm_compute|]. split.
  - apply (Hstep (tick_at 1 0) clock initial_state 1000); by vm_compute.
  - apply (Hscenario (tick_at 1 0) (tick_at 1 0) (tick_at 1 1500) clock clock clock
             (PyStr "SMART") (PyStr "SMART") (PyStr "SMART")); by vm_compute.
Defined.

Lemma live_exchange_field_witness :
  stdout (@on_update utc_runtime (tick_at 1 0) clock initial_state).1
  = stdout initial_state ++ [line 1000 f10_5 5 (PyStr "SMART")]
  ∧ Replay.payload_get "exchange" (line 1000 f10_5 5 (PyStr "SMART")) = Some (PyStr "SMART").
Proof.
  assert (Hout : stdout (@on_update utc_runtime (tick_at 1 0) clock initial_state).1
                 = stdout initial_state ++ [line 1000 f10_5 5 (PyStr "SMART")])
    by (by vm_compute).
  split; [exact Hout|].
  destruct (@live_exchange_field utc_runtime) as [Hfield _].
  exact (Hfield (tick_at 1 0) clock initial_state _ Hout).
Defined.

End LiveFacts.

(** ** Facts that span both adapters *)
Module PipelineFacts.
Import Py Examples Props.

(** C1, as stated, fails on the live adapter: its lines have no [symbol]. *)
Lemma live_line_lacks_symbol :
  ¬ Forall (fun p => canonical p = true)
      (Live.stdout (@Live.run utc_runtime [(tick_at 1 0, clock)] Live.initial_state)).
Proof.
  assert (Hrun : Live.stdout (@Live.run utc_runtime [(tick_at 1 0, clock)] Live.initial_state)
                 = [line 1000 f10_5 5 (PyStr "SMART")]) by (by vm_compute).
  rewrite Hrun. intros Hall. apply Forall_inv in Hall. vm_compute in Hall. discriminate Hall.
Qed.

(** C1 (amended): every line that a run of the replay adapter writes has
    non-null [ts], [price], [size] and [symbol]; every line that the live
    adapter writes has non-null [ts], [price], [size] and [exchange], and
    no [symbol]. *)
Theorem emitted_fields {RT : Runtime} {DB : Replay.Databento} :
  (∀ has_replay has_iter data dataset start_date end_date,
     Forall (fun p => canonical p = true)
       (Replay.stdout
          (Replay.main has_replay has_iter data
             (Replay.initial_state dataset start_date end_date)).1))
  ∧ ∀ updates,
      Forall (fun p => live_shape p = true)
        (Live.stdout (Live.run updates Live.initial_state)).
Proof.
  split.
  - intros. apply ReplayFacts.preserves_main. apply Forall_nil_2.
  - intros updates. apply LiveFacts.run_Forall; [|apply Forall_nil_2].
    intros. by apply LiveFacts.line_shape.
Qed.

(** C8, as stated, fails on the live adapter: a tick without a time is
    stamped with the clock and written. *)
Lemma untimed_tick_is_written :
  Live.time untimed_tick = None
  ∧ Live.stdout (@Live.on_update utc_runtime untimed_tick clock Live.initial_state).1
    = [line 1704153600500 f10_5 5 (PyStr "IBKR")].
Proof. split; by vm_compute. Qed.

(** C8 (amended): the replay adapter drops a record whose timestamp is
    missing or is text, bytes or a list: the handler returns with the
    state as it was, and no payload is built.  The live adapter does not
    drop a tick without a time: it takes the clock reading for it. *)
Theorem missing_timestamp_handling {RT : Runtime} {DB : Replay.Databento} :
  (∀ record st symbol_override,
     unrepresentable (Replay.getattr record "ts_event") = true →
     Replay.handle_record record st = (st, Ok tt)
     ∧ Replay.build_payload record symbol_override = Ok None)
  ∧ ∀ t now st ts_ms exch price size,
      Live.time t = None →
      is_none (Live.last t) || is_none (Live.lastSize t) = false →
      int_of_float (fmul now f1000) = Ok ts_ms →
      Live.key_eq (ts_ms, Live.last t, Live.lastSize t) (Live.last_key st) = false →
      Live.tick_exchange t = Ok exch →
      py_float (Live.last t) = Ok price →
      py_int (Live.lastSize t) = Ok size →
      Replay.json_serializable exch = true →
      Live.on_update t now st
      = (Live.mkState (Some (ts_ms, Live.last t, Live.lastSize t))
           (Live.stdout st ++ [line ts_ms price size exch]), Ok tt).
Proof.
  split.
  - intros record st symbol_override Hts.
    apply ReplayFacts.normalize_ts_unrepresentable in Hts.
    split; [by apply ReplayFacts.handle_record_drops|by apply ReplayFacts.build_payload_drops].
  - intros t now st ts_ms exch price size Htime Hguard Hts Hkey Hexch Hprice Hsize Hjson.
    apply LiveFacts.on_update_written; try done.
    unfold Live.tick_ts_ms. by rewrite Htime.
Qed.

Lemma missing_timestamp_handling_witness :
  (unrepresentable (Replay.getattr (<["ts_event" := PyStr "2024-01-02"]> (trade 7 1000)) "ts_event")
   = true
   ∧ @Replay.handle_record utc_runtime silent_client
       (<["ts_event" := PyStr "2024-01-02"]> (trade 7 1000)) three_buffered
     = (three_buffered, Ok tt))
  ∧ @Live.on_update utc_runtime untimed_tick clock Live.initial_state
    = (Live.mkState (Some (1704153600500, Live.last untimed_tick, Live.lastSize untimed_tick))
         (Live.stdout Live.initial_state ++ [line 1704153600500 f10_5 5 (PyStr "IBKR")]),
       Ok tt).
Proof.
  destruct (@missing_timestamp_handling utc_runtime silent_client) as [Hreplay Hlive].
  split.
  - assert (Hshape : unrepresentable
              (Replay.getattr (<["ts_event" := PyStr "2024-01-02"]> (trade 7 1000)) "ts_event")
            = true) by (by vm_compute).
    split; [exact Hshape|].
    exact (proj1 (Hreplay _ three_buffered PyNone Hshape)).
  - apply Hlive; by vm_compute.
Defined.

End PipelineFacts.

(** ** Facts on the set-up of the replay *)
Module SetupFacts.
Import Py Setup SetupProps Cases.

Lemma lstrip_starts_clean (s : string) : starts_clean (lstrip s) = true.
Proof.
  induction s as [|c s IH]; cbn [lstrip]; [done|].
  destruct (is_space c) eqn:Hc; [exact IH|]. cbn. by rewrite Hc.
Qed.

Lemma lstrip_id (s : string) : starts_clean s = true → lstrip s = s.
Proof. destruct s as [|c s]; cbn; [done|]. by destruct (is_space c). Qed.

Lemma rstrip_cons (c : ascii) (s : string) :
  rstrip (String c s)
  = match rstrip s with
    | EmptyString => if is_space c then EmptyString else String c EmptyString
    | r => String c r
    end.
Proof. reflexivity. Qed.

Lemma rstrip_starts_clean (s : string) :
  starts_clean s = true → starts_clean (rstrip s) = true.
Proof.
  destruct s as [|c s]; [done|]. rewrite rstrip_cons. cbn [starts_clean]. intros Hc.
  destruct (rstrip s); [|done].
  destruct (is_space c) eqn:E; cbn in *; [done|by rewrite E].
Qed.

Lemma rstrip_idem (s : string) : rstrip (rstrip s) = rstrip s.
Proof.
  induction s as [|c s IH]; [done|]. rewrite rstrip_cons.
  destruct (rstrip s) as [|d r] eqn:Hr.
  - destruct (is_space c) eqn:Hc; [done|]. rewrite rstrip_cons. cbn [rstrip]. by rewrite Hc.
  - rewrite rstrip_cons, IH. done.
Qed.

Lemma strip_idem (s : string) : strip (strip s) = strip s.
Proof.
  unfold strip.
  rewrite (lstrip_id (rstrip (lstrip s)))
    by apply rstrip_starts_clean, lstrip_starts_clean.
  apply rstrip_idem.
Qed.

Lemma lstrip_all_chars P (s : string) : all_chars P s = true → all_chars P (lstrip s) = true.
Proof.
  induction s as [|c s IH]; cbn [lstrip all_chars]; [done|].
  intros [Hc Hs]%andb_true_iff. destruct (is_space c); [by apply IH|].
  cbn. by rewrite Hc, Hs.
Qed.

Lemma rstrip_all_chars P (s : string) : all_chars P s = true → all_chars P (rstrip s) = true.
Proof.
  induction s as [|c s IH]; [done|]. rewrite rstrip_cons. cbn [all_chars].
  intros [Hc Hs]%andb_true_iff. specialize (IH Hs).
  destruct (rstrip s) as [|d r].
  - destruct (is_space c); cbn; [done|]. by rewrite Hc.
  - cbn [all_chars] in *. by rewrite Hc, IH.
Qed.

Lemma strip_all_chars P (s : string) : all_chars P s = true → all_chars P (strip s) = true.
Proof. intros Hs. by apply rstrip_all_chars, lstrip_all_chars. Qed.

Lemma split_comma_nonempty (s : string) : split_comma s ≠ [].
Proof.
  induction s as [|c s IH]; cbn [split_comma]; [done|].
  destruct (Ascii.eqb c ","); [done|]. by destruct (split_comma s).
Qed.

Lemma split_comma_pieces (s : string) :
  Forall (fun piece => comma_free piece = true) (split_comma s).
Proof.
  induction s as [|c s IH]; cbn [split_comma].
  - by apply Forall_singleton.
  - destruct (Ascii.eqb c ",") eqn:Hc; [by apply Forall_cons|].
    destruct (split_comma s) as [|piece pieces]; [apply Forall_singleton; cbn; by rewrite Hc|].
    apply Forall_cons in IH as [Hp Hps]. apply Forall_cons. split; [|done].
    unfold comma_free in *. cbn. by rewrite Hc, Hp.
Qed.

(** Whatever the argument, the symbols returned are non-empty, carry no
    comma and no white space at either end. *)
Theorem normalize_symbols_clean (value : string) (l : list string) :
  normalize_symbols value = Some l → Forall clean l.
Proof.
  unfold normalize_symbols. destruct (_ || _); [done|]. intros [= <-].
  pose proof (split_comma_pieces value) as Hpieces.
  induction (split_comma value) as [|piece pieces IH]; cbn [omap]; [done|].
  apply Forall_cons in Hpieces as [Hp Hps]. specialize (IH Hps).
  cbn [list_omap]. destruct (String.eqb_spec (strip piece) "") as [Hempty|Hne]; [done|].
  apply Forall_cons. split; [|done].
  split; [done|]. split; [apply strip_idem|]. by apply strip_all_chars.
Qed.

Lemma split_comma_free (x : string) : comma_free x = true → split_comma x = [x].
Proof.
  unfold comma_free. induction x as [|c x IH]; cbn [split_comma all_chars]; [done|].
  intros [Hc Hx]%andb_true_iff. apply negb_true_iff in Hc. rewrite Hc. rewrite (IH Hx). done.
Qed.

Lemma split_comma_app (x r : string) :
  comma_free x = true → split_comma (x +:+ String "," r) = x :: split_comma r.
Proof.
  unfold comma_free. induction x as [|c x IH]; [done|].
  intros [Hc Hx]%andb_true_iff. apply negb_true_iff in Hc.
  change (split_comma (String c x +:+ String "," r))
    with (if Ascii.eqb c "," then EmptyString :: split_comma (x +:+ String "," r)
          else match split_comma (x +:+ String "," r) with
               | [] => [String c EmptyString]
               | piece :: pieces => String c piece :: pieces
               end).
  rewrite Hc, (IH Hx). done.
Qed.

Lemma split_join (l : list string) :
  l ≠ [] → Forall (fun s => comma_free s = true) l → split_comma (join_comma l) = l.
Proof.
  induction l as [|x l IH]; [done|]. intros _ [Hx Hl]%Forall_cons.
  destruct l as [|y l]; [by apply split_comma_free|].
  change (join_comma (x :: y :: l)) with (x +:+ String "," (join_comma (y :: l))).
  rewrite split_comma_app by done. by rewrite IH.
Qed.

Lemma join_comma_nonempty (l : list string) :
  l ≠ [] → Forall clean l → join_comma l ≠ EmptyString.
Proof.
  destruct l as [|x l]; [done|]. intros _ [[Hx _] _]%Forall_cons.
  destruct l as [|y l]; [done|].
  change (join_comma (x :: y :: l)) with (x +:+ String "," (join_comma (y :: l))).
  by destruct x.
Qed.

(** Joining clean symbols with commas and normalizing gives the symbols
    back, unless the joined text is the word ALL. *)
Theorem normalize_symbols_join (l : list string) :
  l ≠ [] → Forall clean l →
  upper (strip (join_comma l)) ≠ "ALL"%string →
  normalize_symbols (join_comma l) = Some l.
Proof.
  intros Hl Hclean Hall. unfold normalize_symbols.
  destruct (String.eqb_spec (join_comma l) "") as [Hempty|_];
    [by destruct (join_comma_nonempty l Hl Hclean)|].
  destruct (String.eqb_spec (upper (strip (join_comma l))) "ALL") as [|_]; [done|].
  cbn [orb]. f_equal. rewrite split_join.
  - clear Hl Hall. induction l as [|x l IH]; [done|].
    apply Forall_cons in Hclean as [(Hx & Hstrip & _) Hl]. cbn [omap list_omap].
    rewrite Hstrip. destruct (String.eqb_spec x ""); [done|]. by rewrite IH.
  - done.
  - eapply Forall_impl; [exact Hclean|]. by intros s (_ & _ & Hs).
Qed.

(** Text made of commas and white space only is not read as "all
    symbols": it gives the empty list. *)
Theorem normalize_symbols_separators_only (value : string) :
  value ≠ EmptyString →
  all_chars (fun c => is_space c || Ascii.eqb c ",") value = true →
  normalize_symbols value = Some [].
Proof.
  intros Hne Hsep. unfold normalize_symbols.
  destruct (String.eqb_spec value "") as [|_]; [done|]. cbn [orb].
  assert (Hnot_all : String.eqb (upper (strip value)) "ALL" = false).
  { pose proof (strip_all_chars _ value Hsep) as Hs.
    destruct (strip value) as [|c s]; [done|]. cbn [all_chars] in Hs.
    apply andb_true_iff in Hs as [Hc _]. cbn [upper].
    destruct (String.eqb_spec (String (upper_char c) (upper s)) "ALL") as [Heq|]; [|done].
    injection Heq as Hc' _. exfalso. revert Hc Hc'. clear.
    destruct c as [[] [] [] [] [] [] [] []]; by vm_compute. }
  rewrite Hnot_all. f_equal.
  assert (Hpieces : Forall (fun piece => all_chars is_space piece = true) (split_comma value)).
  { clear Hne Hnot_all. induction value as [|c value IH]; cbn [split_comma].
    - by apply Forall_singleton.
    - cbn [all_chars] in Hsep. apply andb_true_iff in Hsep as [Hc Hv]. specialize (IH Hv).
      destruct (Ascii.eqb c ",") eqn:Hcomma; [by apply Forall_cons|].
      rewrite orb_false_r in Hc.
      destruct (split_comma value) as [|piece pieces]; [apply Forall_singleton; cbn; by rewrite Hc|].
      apply Forall_cons in IH as [Hp Hps]. apply Forall_cons. split; [|done].
      cbn. by rewrite Hc, Hp. }
  induction (split_comma value) as [|piece pieces IH]; [done|].
  apply Forall_cons in Hpieces as [Hp Hps]. cbn [omap list_omap].
  assert (Hstrip : strip piece = EmptyString).
  { unfold strip. clear -Hp. induction piece as [|c piece IH]; [done|].
    cbn [all_chars] in Hp. apply andb_true_iff in Hp as [Hc Hp]. cbn [lstrip].
    rewrite Hc. by apply IH. }
  rewrite Hstrip. cbn. by apply IH.
Qed.

(** What reaches [get_range]: only names that the installed client
    accepts, never [None], in the order of [kwargs]; no [limit] for
    [--limit 0], no [end] for an empty [--end], no [symbols] for ALL; and
    every other argument that the client accepts, as given. *)
Theorem filtered_kwargs_passed (parameters : list string) (args : Args) :
  (∀ key value, (key, value) ∈ filtered_kwargs parameters args →
     key ∈ parameters ∧ value ≠ PyNone ∧ (key, value) ∈ kwargs args)
  ∧ filtered_kwargs parameters args `sublist_of` kwargs args
  ∧ (limit args = 0 → "limit" ∉ (filtered_kwargs parameters args).*1)
  ∧ (end_ args = EmptyString → "end" ∉ (filtered_kwargs parameters args).*1)
  ∧ (normalize_symbols (symbols args) = None →
     "symbols" ∉ (filtered_kwargs parameters args).*1)
  ∧ (∀ key value, (key, value) ∈ kwargs args → key ∈ parameters → value ≠ PyNone →
     (key, value) ∈ filtered_kwargs parameters args).
Proof.
  assert (Hin : ∀ key value, (key, value) ∈ filtered_kwargs parameters args ↔
                  ((key, value) ∈ kwargs args ∧ key ∈ parameters ∧ is_none value = false)).
  { intros key value. unfold filtered_kwargs. rewrite list_elem_of_filter. cbn. tauto. }
  assert (Hkey : ∀ key, key ∈ (filtered_kwargs parameters args).*1 →
                   ∃ value, (key, value) ∈ kwargs args ∧ is_none value = false).
  { intros key Hk. apply list_elem_of_fmap in Hk as ([k v] & -> & Hkv).
    apply Hin in Hkv as (? & _ & ?). by exists v. }
  split; [|split; [|split; [|split; [|split]]]].
  - intros key value Hkv. apply Hin in Hkv as (? & ? & Hv). repeat split; try done.
    intros ->. done.
  - apply sublist_filter.
  - intros Hlimit Hk. destruct (Hkey _ Hk) as (value & Hkv & Hv).
    unfold kwargs in Hkv. rewrite Hlimit in Hkv.
    repeat (apply elem_of_cons in Hkv as [Hkv|Hkv]; [by simplify_eq|]).
    by apply elem_of_nil in Hkv.
  - intros Hend Hk. destruct (Hkey _ Hk) as (value & Hkv & Hv).
    unfold kwargs in Hkv. rewrite Hend in Hkv.
    repeat (apply elem_of_cons in Hkv as [Hkv|Hkv]; [by simplify_eq|]).
    by apply elem_of_nil in Hkv.
  - intros Hsym Hk. destruct (Hkey _ Hk) as (value & Hkv & Hv).
    unfold kwargs in Hkv. rewrite Hsym in Hkv.
    repeat (apply elem_of_cons in Hkv as [Hkv|Hkv]; [by simplify_eq|]).
    by apply elem_of_nil in Hkv.
  - intros key value Hkv Hp Hv. apply Hin. repeat split; try done. by destruct value.
Qed.

Lemma normalize_symbols_clean_witness :
  normalize_symbols " SPY, ,QQQ " = Some ["SPY"; "QQQ"]%string
  ∧ Forall clean ["SPY"; "QQQ"]%string.
Proof.
  split; [reflexivity|]. apply (normalize_symbols_clean " SPY, ,QQQ "). reflexivity.
Defined.

Lemma normalize_symbols_join_witness :
  join_comma ["SPY"; "QQQ"]%string = "SPY,QQQ"%string
  ∧ normalize_symbols (join_comma ["SPY"; "QQQ"]%string) = Some ["SPY"; "QQQ"]%string.
Proof.
  split; [reflexivity|]. apply normalize_symbols_join.
  - discriminate.
  - repeat (apply Forall_cons; split; [repeat split; [discriminate|reflexivity..]|]).
    apply Forall_nil_2.
  - vm_compute. discriminate.
Defined.

Lemma normalize_symbols_separators_only_witness :
  normalize_symbols " , ," = Some [].
Proof.
  apply normalize_symbols_separators_only; [discriminate|reflexivity].
Defined.

End SetupFacts.

(** ** Facts on the flow of records through the replay *)
Module FlowFacts.
Import Py Replay Props FlowProps LedgerProps Examples Cases.

Section Build.
Context {RT : Runtime}.

Lemma truthy_not_none (v : pyval) : truthy v = true → is_none v = false.
Proof. by destruct v. Qed.

Lemma is_none_eq (v : pyval) : is_none v = true → v = PyNone.
Proof. by destruct v. Qed.

Lemma build_payload_some_iff (record : gmap string pyval) (symbol_override : pyval) r :
  build_payload record symbol_override = Ok r →
  (is_Some r ↔ complete record = true
               ∧ is_none (py_or symbol_override (symbol_of record)) = false).
Proof.
  unfold build_payload, complete. fold (symbol_of record).
  set (symbol := py_or symbol_override (symbol_of record)).
  - revert r. intros r.
    destruct (is_none (getattr record "ts_event")) eqn:Hts.
    { apply is_none_eq in Hts. rewrite Hts. cbn [orb normalize_ts]. intros [= <-].
      rewrite andb_false_r. split; [by intros [? ?]|by intros [? _]]. }
    destruct (is_none (getattr record "price")) eqn:Hprice; cbn [orb negb andb];
      [intros [= <-]; split; [by intros [? ?]|by intros [? _]]|].
    destruct (is_none (getattr record "size")) eqn:Hsize; cbn [orb negb andb];
      [intros [= <-]; split; [by intros [? ?]|by intros [? _]]|].
    destruct (is_none symbol) eqn:Hsym;
      [intros [= <-]; split; [by intros [? ?]|by intros [_ ?]]|].
    destruct (normalize_ts (getattr record "ts_event")) as [[ts|]|e]; cbn [rbind].
    + destruct (py_float _) as [price|e]; cbn [rbind]; [|done].
      destruct (py_int _) as [size|e]; cbn [rbind]; [|done].
      intros [= <-]. split; [done|]. by intros _.
    + intros [= <-]. split; [by intros [? ?]|by intros [? _]].
    + done.
Qed.

(** With price, size or timestamp missing a build returns nothing and
    raises nothing, whatever the other fields hold, and so does one with
    no symbol at hand; a build that returns normally returns a payload
    exactly when price and size are present, the timestamp is
    representable and some symbol is at hand. *)
Theorem build_payload_complete (record : gmap string pyval) (symbol_override : pyval) :
  (is_none (getattr record "price") || is_none (getattr record "size")
   || is_none (getattr record "ts_event")
   || is_none (py_or symbol_override (symbol_of record)) = true →
   build_payload record symbol_override = Ok None)
  ∧ ∀ r, build_payload record symbol_override = Ok r →
      (is_Some r ↔ complete record = true
                   ∧ is_none (py_or symbol_override (symbol_of record)) = false).
Proof.
  split; [|intros r; apply build_payload_some_iff].
  unfold build_payload. fold (symbol_of record).
  destruct (is_none (getattr record "ts_event")); [done|].
  destruct (is_none (getattr record "price")); [done|].
  destruct (is_none (getattr record "size")); [done|].
  cbn [orb]. by intros ->.
Qed.

(** The shape of a payload: the four required keys in order with an
    integer, a float, an integer and text; then [exchange], as text, if
    the record has one; then [conditions], never empty and never a bare
    string. *)
Theorem build_payload_schema (record : gmap string pyval) (symbol_override : pyval) (p : payload) :
  build_payload record symbol_override = Ok (Some p) →
  ∃ ts_ms price size symbol rest,
    p = [("ts", PyInt ts_ms); ("price", PyFloat price); ("size", PyInt size);
         ("symbol", PyStr symbol)] ++ rest
    ∧ (rest.*1 = [] ∨ rest.*1 = ["exchange"] ∨ rest.*1 = ["conditions"]
       ∨ rest.*1 = ["exchange"; "conditions"])
    ∧ (∀ v, ("exchange", v) ∈ rest → ∃ s, v = PyStr s)
    ∧ (∀ v, ("conditions", v) ∈ rest → truthy v = true ∧ ∀ s, v ≠ PyStr s).
Proof.
  unfold build_payload.
  set (symbol := py_or symbol_override _).
  destruct (_ || _) eqn:Hguard; [done|].
  apply orb_false_iff in Hguard as [_ Hsym].
  destruct (normalize_ts _) as [[ts_ms|]|e]; cbn [rbind]; try done.
  destruct (py_float _) as [price|e]; cbn [rbind]; [|done].
  destruct (py_int _) as [size|e]; cbn [rbind]; [|done].
  set (exchange := py_or (py_or _ _) (getattr record "exchange_id")).
  set (conditions0 := py_or _ (getattr record "condition")).
  set (conditions := match conditions0 with PyStr s => PyList [PyStr s] | _ => conditions0 end).
  assert (Hstr : ∀ v, is_none v = false → ∃ s, stringify v = PyStr s).
  { intros v Hv. destruct v; try done; by eexists. }
  assert (Hcond : truthy conditions = true → ∀ s, conditions ≠ PyStr s).
  { intros _ s. subst conditions. by destruct conditions0. }
  destruct (Hstr symbol Hsym) as [sym Hsym'].
  intros [= <-]. exists ts_ms, price, size, sym. rewrite Hsym'.
  destruct (is_none exchange) eqn:Hex; destruct (truthy conditions) eqn:Hc.
  - exists [("conditions", conditions)]. split; [done|]. split; [auto|]. split.
    + intros v Hv. apply list_elem_of_singleton in Hv. done.
    + intros v Hv. apply list_elem_of_singleton in Hv. injection Hv as ->. auto.
  - exists []. split; [done|]. split; [auto|].
    split; intros v Hv; by apply elem_of_nil in Hv.
  - exists [("exchange", stringify exchange); ("conditions", conditions)].
    split; [done|]. split; [auto|]. split.
    + intros v Hv. apply elem_of_cons in Hv as [[= ->]|Hv]; [by apply Hstr|].
      apply list_elem_of_singleton in Hv. done.
    + intros v Hv. apply elem_of_cons in Hv as [[=]|Hv].
      apply list_elem_of_singleton in Hv. injection Hv as ->. auto.
  - exists [("exchange", stringify exchange)]. split; [done|]. split; [auto|]. split.
    + intros v Hv. apply list_elem_of_singleton in Hv. injection Hv as ->. by apply Hstr.
    + intros v Hv. apply list_elem_of_singleton in Hv. done.
Qed.

End Build.

Section Flush.
Context {RT : Runtime} {DB : Databento}.

Lemma emit_payload_spec (r : option payload) (st st' : state) :
  emit_payload r st = (st', Ok tt) →
  resolver st' = resolver st ∧ buffered st' = buffered st ∧ outbound st' = outbound st
  ∧ stdout st' = stdout st ++ option_list r.
Proof.
  destruct r as [p|]; cbn [emit_payload option_list].
  - unfold print_json. destruct (forallb _ p); [|done]. by intros [= <-].
  - intros [= <-]. by rewrite app_nil_r.
Qed.

Lemma flush_entries_spec (force : bool) entries remaining (st st' : state) rem :
  flush_entries force entries remaining st = (st', Ok rem) →
  resolver st' = resolver st ∧ buffered st' = buffered st ∧ outbound st' = outbound st
  ∧ rem = remaining ++ (if force then [] else filter (fun e => unresolved (resolver st) e = true) entries)
  ∧ stdout st' = stdout st ++ flush_lines force (resolver st) entries
  ∧ Forall (fun entry => ∀ symbol, flush_symbol force (resolver st) entry = Some symbol →
                         ∃ r, build_payload entry.1.1 symbol = Ok r) entries.
Proof.
  revert remaining st. induction entries as [|[[record instrument_id] d] entries IH];
    intros remaining st; cbn [flush_entries].
  - intros [= <- <-]. repeat split; try done; rewrite ?app_nil_r; try done.
    by destruct force; rewrite ?app_nil_r.
  - unfold flush_lines, flush_symbol, unresolved. cbn [omap list_omap fst snd].
    destruct (truthy (lookup (resolver st) instrument_id d)) eqn:Hmapped; cbn [negb].
    + unfold bind at 1, lift.
      destruct (build_payload record (lookup (resolver st) instrument_id d))
        as [r|e] eqn:Hb; [|done].
      unfold bind.
      destruct (emit_payload r st) as [st1 [[]|e]] eqn:Hemit; [|done].
      apply emit_payload_spec in Hemit as (Hres & Hbuf & Hout & Hstd).
      intros Hrest. apply IH in Hrest as (Hres' & Hbuf' & Hout' & -> & Hstd' & Hall).
      rewrite Hres in *. split; [congruence|]. split; [congruence|]. split; [congruence|].
      split.
      { destruct force; [done|]. rewrite filter_cons_False; [done|].
        unfold unresolved. cbn [fst snd]. by rewrite Hmapped. }
      split.
      { rewrite Hstd', Hstd, <- app_assoc. f_equal. cbn [mbind option_bind].
        unfold built. rewrite Hb. by destruct r. }
      apply Forall_cons. split; [|exact Hall].
      intros symbol Hsym. cbn [fst snd] in Hsym. rewrite Hmapped in Hsym.
      cbn [negb] in Hsym. injection Hsym as <-. by exists r.
    + destruct force.
      * unfold bind at 1, lift.
        destruct (build_payload record (PyStr (py_str (PyInt instrument_id))))
          as [r|e] eqn:Hb; [|done].
        unfold bind.
        destruct (emit_payload r st) as [st1 [[]|e]] eqn:Hemit; [|done].
        apply emit_payload_spec in Hemit as (Hres & Hbuf & Hout & Hstd).
        intros Hrest. apply IH in Hrest as (Hres' & Hbuf' & Hout' & -> & Hstd' & Hall).
        rewrite Hres in *. split; [congruence|]. split; [congruence|]. split; [congruence|].
        split; [done|]. split.
        { rewrite Hstd', Hstd, <- app_assoc. f_equal. cbn [mbind option_bind].
          unfold built. rewrite Hb. by destruct r. }
        apply Forall_cons. split; [|exact Hall].
        intros symbol Hsym. cbn [fst snd] in Hsym. rewrite Hmapped in Hsym.
      cbn [negb] in Hsym. injection Hsym as <-. by exists r.
      * intros Hrest. apply IH in Hrest as (Hres' & Hbuf' & Hout' & -> & Hstd' & Hall).
        split; [done|]. split; [done|]. split; [done|]. split.
        { rewrite filter_cons_True; [by rewrite <- app_assoc|].
          unfold unresolved. cbn [fst snd]. by rewrite Hmapped. }
        split; [done|]. apply Forall_cons. split; [|exact Hall].
        intros symbol Hsym. cbn [fst snd] in Hsym. rewrite Hmapped in Hsym. done.
Qed.

Lemma flush_lines_unresolved (self : SymbolResolver) entries :
  Forall (fun e => unresolved self e = true) entries →
  filter (fun e => unresolved self e = true) entries = entries
  ∧ flush_lines false self entries = [].
Proof.
  induction 1 as [|entry entries Hentry _ [IHkeep IHlines]]; [done|].
  rewrite filter_cons_True, IHkeep by done. split; [done|].
  unfold flush_lines, flush_symbol in *. cbn [omap list_omap]. by rewrite Hentry.
Qed.

Lemma flush_buffer_spec (force : bool) (st st' : state) :
  flush_buffer force st = (st', Ok tt) →
  buffered st ≠ [] →
  (resolve_pending st).2 = Ok tt
  ∧ resolver st' = resolver (resolve_pending st).1
  ∧ outbound st' = outbound (resolve_pending st).1
  ∧ _pending (resolver st') = []
  ∧ buffered st'
    = (if force then [] else filter (fun e => unresolved (resolver st') e = true) (buffered st))
  ∧ stdout st' = stdout st ++ flush_lines force (resolver st') (buffered st).
Proof.
  unfold flush_buffer. destruct (buffered st) as [|entry entries] eqn:Hbuf; [done|].
  intros Hflush _. revert Hflush. unfold bind at 1.
  destruct (ReplayFacts.resolve_pending_stdout st) as [Hout _].
  assert (Hclear : _pending (resolver (resolve_pending st).1) = []).
  { unfold resolve_pending. destruct (_pending (resolver st)) as [|x0 pending0] eqn:Hp; [done|].
    match goal with |- context [for_each ?f ?l ?s] =>
      destruct (ReplayFacts.resolve_loop_spec (x0 :: pending0) l s) as [(Hp' & _) _]
    end. by rewrite Hp'. }
  destruct (resolve_pending st) as [st1 [[]|e]]; [|done]. cbn [fst snd] in *.
  unfold bind.
  destruct (flush_entries force (entry :: entries) [] st1) as [st2 [rem|e]] eqn:Hloop; [|done].
  apply flush_entries_spec in Hloop as (Hres & _ & Hsent & -> & Hstd & _).
  unfold set_buffered. intros [= <-]. cbn [buffered stdout resolver outbound].
  rewrite Hres. split; [done|]. split; [done|]. split; [done|]. split; [done|].
  split; [by destruct force|congruence].
Qed.

(** When a flush returns, the buffer holds exactly the entries that are
    still unresolved, in their order (none after a forced flush), and
    standard output has grown by the lines of the others, in buffer
    order; the pending list is empty unless the buffer was.  So a flush
    that is not forced and resolves nothing leaves buffer and output as
    they were. *)
Theorem flush_buffer_exact (force : bool) (st st' : state) :
  flush_buffer force st = (st', Ok tt) →
  buffered st'
  = (if force then [] else filter (fun e => unresolved (resolver st') e = true) (buffered st))
  ∧ stdout st' = stdout st ++ flush_lines force (resolver st') (buffered st)
  ∧ _pending (resolver st') = (if buffered st is [] then _pending (resolver st) else [])
  ∧ (force = false →
     Forall (fun e => unresolved (resolver st') e = true) (buffered st) →
     buffered st' = buffered st ∧ stdout st' = stdout st).
Proof.
  intros Hflush.
  cut (buffered st'
       = (if force then [] else filter (fun e => unresolved (resolver st') e = true) (buffered st))
       ∧ stdout st' = stdout st ++ flush_lines force (resolver st') (buffered st)
       ∧ _pending (resolver st') = (if buffered st is [] then _pending (resolver st) else [])).
  { intros (Hkept & Hout & Hpending). split; [done|]. split; [done|]. split; [done|].
    intros -> Hall. destruct (flush_lines_unresolved _ _ Hall) as [Hkeep Hlines].
    rewrite Hkept, Hout, Hkeep, Hlines, app_nil_r. done. }
  destruct (buffered st) as [|entry entries] eqn:Hbuf.
  - revert Hflush. unfold flush_buffer. rewrite Hbuf. intros [= <-].
    rewrite Hbuf. cbn. rewrite app_nil_r. by destruct force.
  - destruct (flush_buffer_spec force st st' Hflush) as (_ & _ & _ & Hp & Hkept & Hout);
      [by rewrite Hbuf|].
    rewrite Hbuf in Hkept, Hout. done.
Qed.

Lemma flush_buffer_builds (force : bool) (st st' : state) :
  flush_buffer force st = (st', Ok tt) →
  Forall (fun entry => ∀ symbol, flush_symbol force (resolver st') entry = Some symbol →
                         ∃ r, build_payload entry.1.1 symbol = Ok r) (buffered st).
Proof.
  unfold flush_buffer. destruct (buffered st) as [|entry entries] eqn:Hbuf; [done|].
  unfold bind at 1.
  destruct (resolve_pending st) as [st1 [[]|e]]; [|done].
  unfold bind.
  destruct (flush_entries force (entry :: entries) [] st1) as [st2 [rem|e]] eqn:Hloop; [|done].
  apply flush_entries_spec in Hloop as (Hres & _ & _ & _ & _ & Hall).
  unfold set_buffered. intros [= <-]. cbn [resolver]. by rewrite Hres.
Qed.

Lemma forced_symbol_flush (self : SymbolResolver) (entry : gmap string pyval * Z * date) :
  flush_symbol true self entry = Some (forced_symbol self entry)
  ∧ truthy (forced_symbol self entry) = true.
Proof.
  unfold flush_symbol, forced_symbol, unresolved.
  destruct (truthy (lookup self entry.1.2 entry.2)) eqn:Hmapped; cbn [negb]; [done|].
  split; [done|]. apply ReplayFacts.truthy_str_int.
Qed.

Lemma build_payload_truthy_iff (record : gmap string pyval) (symbol : pyval) r :
  truthy symbol = true →
  build_payload record symbol = Ok r →
  (is_Some r ↔ complete record = true).
Proof.
  intros Hsym Hb. pose proof (build_payload_some_iff record symbol r Hb) as Hiff.
  unfold py_or in Hiff. rewrite Hsym, (truthy_not_none symbol Hsym) in Hiff.
  split; [intros Hr; by apply Hiff|intros Hc; by apply Hiff].
Qed.

Lemma flush_lines_forced (self : SymbolResolver) entries :
  Forall (fun entry => ∀ symbol, flush_symbol true self entry = Some symbol →
                         ∃ r, build_payload entry.1.1 symbol = Ok r) entries →
  Forall2 (fun entry p => build_payload entry.1.1 (forced_symbol self entry) = Ok (Some p))
    (filter (fun entry => complete entry.1.1 = true) entries)
    (flush_lines true self entries).
Proof.
  induction 1 as [|entry entries Hentry _ IH]; [by apply Forall2_nil|].
  destruct (forced_symbol_flush self entry) as [Hsym Htruthy].
  destruct (Hentry _ Hsym) as [r Hb].
  pose proof (build_payload_truthy_iff _ _ _ Htruthy Hb) as Hiff.
  unfold flush_lines in *. cbn [omap list_omap]. rewrite Hsym. cbn [mbind option_bind].
  unfold built at 1. rewrite Hb.
  destruct r as [p|].
  - rewrite filter_cons_True by (apply Hiff; by eexists).
    apply Forall2_cons. split; [exact Hb|exact IH].
  - rewrite filter_cons_False; [exact IH|].
    intros Hc. apply Hiff in Hc. by destruct Hc.
Qed.

Lemma build_payload_fields (record : gmap string pyval) (symbol : string) (p : payload) ts_ms :
  symbol ≠ EmptyString →
  build_payload record (PyStr symbol) = Ok (Some p) →
  normalize_ts (getattr record "ts_event") = Ok (Some ts_ms) →
  ∃ price size rest,
    py_float (getattr record "price") = Ok price
    ∧ py_int (getattr record "size") = Ok size
    ∧ p = [("ts", PyInt ts_ms); ("price", PyFloat price); ("size", PyInt size);
           ("symbol", PyStr symbol)] ++ rest.
Proof.
  intros Hne. unfold build_payload.
  assert (Hor : ∀ v, py_or (PyStr symbol) v = PyStr symbol).
  { intros v. unfold py_or. cbn [truthy]. by destruct (String.eqb_spec symbol ""). }
  rewrite Hor. destruct (_ || _); [done|]. intros Hb Hts. rewrite Hts in Hb. cbn [rbind] in Hb.
  destruct (py_float _) as [price|e]; cbn [rbind] in Hb; [|done].
  destruct (py_int _) as [size|e]; cbn [rbind] in Hb; [|done].
  exists price, size. cbn [stringify py_str] in Hb.
  destruct (is_none _); destruct (truthy _); injection Hb as <-; eexists; split; try done;
    split; try done; by rewrite <- ?app_assoc.
Qed.

Lemma flush_entries_returns entries remaining (st : state) :
  Forall (fun entry => ∃ r, build_payload entry.1.1 (forced_symbol (resolver st) entry) = Ok r
                            ∧ ∀ p, r = Some p → serializable p = true) entries →
  (flush_entries true entries remaining st).2 = Ok remaining.
Proof.
  intros Hall. revert st Hall.
  induction entries as [|[[record instrument_id] d] entries IH]; intros st Hall; [done|].
  apply Forall_cons in Hall as [(r & Hb & Hjson) Hall]. cbn [fst snd] in Hb.
  assert (Hhead : (bind (lift (build_payload record
                                 (forced_symbol (resolver st) (record, instrument_id, d))))
                     (fun p => bind (emit_payload p)
                                 (fun _ => flush_entries true entries remaining)) st).2
                  = Ok remaining).
  { unfold bind at 1, lift. rewrite Hb. unfold bind.
    destruct r as [p|]; cbn [emit_payload].
    - unfold print_json. unfold serializable in Hjson. rewrite (Hjson p eq_refl).
      by apply IH.
    - unfold ret. by apply IH. }
  cbn [flush_entries]. unfold forced_symbol in Hhead. cbn [fst snd] in Hhead.
  by destruct (truthy (lookup (resolver st) instrument_id d)).
Qed.

Lemma flush_buffer_returns (st : state) :
  (resolve_pending st).2 = Ok tt →
  Forall (fun entry =>
            ∃ r, build_payload entry.1.1
                   (forced_symbol (resolver (resolve_pending st).1) entry) = Ok r
                 ∧ ∀ p, r = Some p → serializable p = true) (buffered st) →
  (flush_buffer true st).2 = Ok tt.
Proof.
  intros Hok Hall. unfold flush_buffer.
  destruct (buffered st) as [|entry entries] eqn:Hbuf; [done|].
  unfold bind at 1. destruct (resolve_pending st) as [st1 [[]|e]]; cbn [fst snd] in *; [|done].
  unfold bind. pose proof (flush_entries_returns (entry :: entries) [] st1 Hall) as Hloop.
  by destruct (flush_entries true (entry :: entries) [] st1) as [st2 [rem|e]].
Qed.

Lemma Forall2_elem_of_l {A B} (R : A → B → Prop) (l : list A) (k : list B) (x : A) :
  Forall2 R l k → x ∈ l → ∃ y, y ∈ k ∧ R x y.
Proof.
  induction 1 as [|a b l k Hab _ IH]; intros Hx; [by apply elem_of_nil in Hx|].
  apply elem_of_cons in Hx as [->|Hx].
  - exists b. split; [by left|done].
  - destruct (IH Hx) as (y & Hy & HR). exists y. split; [by right|done].
Qed.

(** C5: when the forced flush at the end of the stream returns, the buffer
    is empty and standard output has grown by exactly one line for every
    buffered entry whose price and size are present and whose timestamp is
    representable, in buffer order, each line being the payload built
    from that entry, under the resolved symbol if the resolver has one
    and else under the stringified identifier.  So every such entry that
    is still unresolved is written with its own timestamp, price and size
    and with [str(instrument_id)] as symbol.  The flush does return when
    the pending identifiers resolve without an exception and every entry
    builds a payload that can be written as JSON; and a run of [main]
    that ends normally leaves the buffer empty. *)
Theorem forced_flush_drains_buffer (st : state) :
  (∀ st',
     flush_buffer true st = (st', Ok tt) →
     buffered st' = []
     ∧ ∃ new, stdout st' = stdout st ++ new
         ∧ Forall2 (fun entry p =>
                      build_payload entry.1.1 (forced_symbol (resolver st') entry)
                      = Ok (Some p))
             (filter (fun entry => complete entry.1.1 = true) (buffered st)) new
         ∧ ∀ record instrument_id d ts_ms,
             (record, instrument_id, d) ∈ buffered st →
             truthy (lookup (resolver st') instrument_id d) = false →
             is_none (getattr record "price") = false →
             is_none (getattr record "size") = false →
             normalize_ts (getattr record "ts_event") = Ok (Some ts_ms) →
             ∃ price size rest,
               py_float (getattr record "price") = Ok price
               ∧ py_int (getattr record "size") = Ok size
               ∧ build_payload record (PyStr (pretty instrument_id))
                 = Ok (Some ([("ts", PyInt ts_ms); ("price", PyFloat price);
                              ("size", PyInt size);
                              ("symbol", PyStr (pretty instrument_id))] ++ rest))
               ∧ [("ts", PyInt ts_ms); ("price", PyFloat price); ("size", PyInt size);
                  ("symbol", PyStr (pretty instrument_id))] ++ rest ∈ new)
  ∧ ((resolve_pending st).2 = Ok tt →
     Forall (fun entry =>
               ∃ r, build_payload entry.1.1
                      (forced_symbol (resolver (resolve_pending st).1) entry) = Ok r
                    ∧ ∀ p, r = Some p → serializable p = true) (buffered st) →
     (flush_buffer true st).2 = Ok tt)
  ∧ ∀ has_replay has_iter data s s',
      main has_replay has_iter data s = (s', Ok 0) → buffered s' = [].
Proof.
  split; [|split; [apply flush_buffer_returns|apply ReplayFacts.main_drains_buffer]].
  intros st' Hflush. split.
  { by apply ReplayFacts.flush_buffer_forced in Hflush as [? _]. }
  pose proof (flush_buffer_builds true st st' Hflush) as Hbuilds.
  pose proof (flush_lines_forced (resolver st') (buffered st) Hbuilds) as Hlines.
  assert (Hout : stdout st' = stdout st ++ flush_lines true (resolver st') (buffered st)).
  { destruct (buffered st) as [|entry entries] eqn:Hbuf.
    - revert Hflush. unfold flush_buffer. rewrite Hbuf. intros [= <-]. cbn. by rewrite app_nil_r.
    - destruct (flush_buffer_spec true st st' Hflush) as (_ & _ & _ & _ & _ & Hstd);
        [by rewrite Hbuf|]. by rewrite Hbuf in Hstd. }
  exists (flush_lines true (resolver st') (buffered st)).
  split; [exact Hout|]. split; [exact Hlines|].
  intros record instrument_id d ts_ms Hin Hfalsy Hprice Hsize Hts.
  assert (Hcomplete : complete record = true).
  { unfold complete. by rewrite Hprice, Hsize, Hts. }
  destruct (Forall2_elem_of_l _ _ _ (record, instrument_id, d) Hlines) as (p & Hp & Hb).
  { apply list_elem_of_filter. by split. }
  unfold forced_symbol in Hb. cbn [fst snd] in Hb. rewrite Hfalsy in Hb.
  destruct (build_payload_fields record (pretty instrument_id) p ts_ms) as
    (price & size & rest & Hpf & Hpi & ->); [apply ReplayFacts.pretty_Z_nonempty|done..|].
  exists price, size, rest. done.
Qed.

End Flush.

Section Routing.
Context {RT : Runtime} {DB : Databento}.

Lemma numeric_symbol_int (v : pyval) :
  is_numeric_symbol v = true → ∃ n, py_int v = Ok n ∧ is_none v = false.
Proof.
  destruct v as [|b|z|f|s|b|d|t|l]; cbn [is_numeric_symbol py_int]; try done.
  - by eexists.
  - by eexists.
  - intros ->. by eexists.
Qed.

Lemma emit_built_frame (record : gmap string pyval) (symbol : pyval) (st : state) :
  resolver (bind (lift (build_payload record symbol)) emit_payload st).1 = resolver st
  ∧ buffered (bind (lift (build_payload record symbol)) emit_payload st).1 = buffered st
  ∧ outbound (bind (lift (build_payload record symbol)) emit_payload st).1 = outbound st
  ∧ ((bind (lift (build_payload record symbol)) emit_payload st).2 = Ok tt →
     (∃ r, build_payload record symbol = Ok r)
     ∧ stdout (bind (lift (build_payload record symbol)) emit_payload st).1
       = stdout st ++ option_list (built record symbol)).
Proof.
  unfold bind, lift, built.
  destruct (build_payload record symbol) as [[p|]|e]; cbn [emit_payload fst snd].
  - unfold print_json. destruct (forallb _ p); cbn [fst snd]; [|done].
    repeat split; eauto.
  - unfold ret. cbn. rewrite app_nil_r. repeat split; eauto.
  - done.
Qed.

Lemma handle_record_direct (record : gmap string pyval) (st : state) ts_ms d :
  normalize_ts (getattr record "ts_event") = Ok (Some ts_ms) →
  utcfromtimestamp_date ts_ms = Ok d →
  is_numeric_symbol (symbol_of record) = false →
  handle_record record st = bind (lift (build_payload record PyNone)) emit_payload st.
Proof.
  intros Hts Hd Hnum. unfold handle_record. fold (symbol_of record).
  unfold bind, lift. by rewrite Hts, Hd, Hnum.
Qed.

Lemma handle_record_cached (record : gmap string pyval) (st : state) ts_ms d instrument_id :
  normalize_ts (getattr record "ts_event") = Ok (Some ts_ms) →
  utcfromtimestamp_date ts_ms = Ok d →
  is_numeric_symbol (symbol_of record) = true →
  py_int (symbol_of record) = Ok instrument_id →
  truthy (lookup (resolver st) instrument_id d) = true →
  handle_record record st
  = bind (lift (build_payload record (lookup (resolver st) instrument_id d))) emit_payload st.
Proof.
  intros Hts Hd Hnum Hint Hmapped. unfold handle_record. fold (symbol_of record).
  unfold bind, lift. by rewrite Hts, Hd, Hnum, Hint, Hmapped.
Qed.

Lemma handle_record_unresolved (record : gmap string pyval) (st : state) ts_ms d instrument_id :
  normalize_ts (getattr record "ts_event") = Ok (Some ts_ms) →
  utcfromtimestamp_date ts_ms = Ok d →
  is_numeric_symbol (symbol_of record) = true →
  py_int (symbol_of record) = Ok instrument_id →
  truthy (lookup (resolver st) instrument_id d) = false →
  handle_record record st
  = (let st1 := mkState (queue instrument_id (resolver st))
                  (buffered st ++ [(record, instrument_id, d)]) (stdout st) (outbound st) in
     if (200 <=? pending_count (resolver st1))%nat then flush_buffer false st1
     else (st1, Ok tt)).
Proof.
  intros Hts Hd Hnum Hint Hmapped. unfold handle_record. fold (symbol_of record).
  unfold bind, lift, enqueue. by rewrite Hts, Hd, Hnum, Hint, Hmapped.
Qed.

(** Where the handler sends a record with a representable timestamp.  A
    record whose symbol is not numeric is written at once and touches
    neither resolver nor buffer nor service; so is one whose identifier
    the resolver knows, under the symbol it knows; any other is queued
    and buffered, and nothing is written or requested while fewer than
    200 identifiers are pending. *)
Theorem handle_record_routing (record : gmap string pyval) (st : state) ts_ms d :
  normalize_ts (getattr record "ts_event") = Ok (Some ts_ms) →
  utcfromtimestamp_date ts_ms = Ok d →
  (is_numeric_symbol (symbol_of record) = false →
   resolver (handle_record record st).1 = resolver st
   ∧ buffered (handle_record record st).1 = buffered st
   ∧ outbound (handle_record record st).1 = outbound st
   ∧ ((handle_record record st).2 = Ok tt →
      stdout (handle_record record st).1 = stdout st ++ option_list (built record PyNone)))
  ∧ (∀ instrument_id,
       is_numeric_symbol (symbol_of record) = true →
       py_int (symbol_of record) = Ok instrument_id →
       (truthy (lookup (resolver st) instrument_id d) = true →
        resolver (handle_record record st).1 = resolver st
        ∧ buffered (handle_record record st).1 = buffered st
        ∧ outbound (handle_record record st).1 = outbound st
        ∧ ((handle_record record st).2 = Ok tt →
           stdout (handle_record record st).1
           = stdout st ++ option_list (built record (lookup (resolver st) instrument_id d))))
       ∧ (truthy (lookup (resolver st) instrument_id d) = false →
          (pending_count (queue instrument_id (resolver st)) < 200)%nat →
          handle_record record st
          = (mkState (queue instrument_id (resolver st))
               (buffered st ++ [(record, instrument_id, d)]) (stdout st) (outbound st),
             Ok tt))).
Proof.
  intros Hts Hd. split.
  - intros Hnum. rewrite (handle_record_direct record st ts_ms d) by done.
    destruct (emit_built_frame record PyNone st) as (Hr1 & Hr2 & Hr3 & Hok).
    split; [exact Hr1|]. split; [exact Hr2|]. split; [exact Hr3|].
    intros Hr. by apply Hok.
  - intros instrument_id Hnum Hint. split.
    + intros Hmapped. rewrite (handle_record_cached record st ts_ms d instrument_id) by done.
      destruct (emit_built_frame record (lookup (resolver st) instrument_id d) st)
        as (Hr1 & Hr2 & Hr3 & Hok).
      split; [exact Hr1|]. split; [exact Hr2|]. split; [exact Hr3|].
      intros Hr. by apply Hok.
    + intros Hmapped Hcount.
      rewrite (handle_record_unresolved record st ts_ms d instrument_id) by done.
      cbn zeta. cbn [resolver].
      destruct (Nat.leb_spec 200 (pending_count (queue instrument_id (resolver st))));
        [lia|done].
Qed.

End Routing.

Section Conservation.
Context {RT : Runtime} {DB : Databento}.









End Conservation.

Section Invariant.
Context {RT : Runtime} {DB : Databento}.

Lemma keeps_bind (I : state → Prop) {A B} (m : M A) (k : A → M B) :
  keeps I m → (∀ a, keeps I (k a)) → keeps I (bind m k).
Proof.
  intros Hm Hk st Hst. unfold bind. specialize (Hm st Hst).
  destruct (m st) as [st' [a|e]]; cbn [fst] in *; [by apply Hk|done].
Qed.

Lemma keeps_for_each (I : state → Prop) {A} (body : A → M unit) (l : list A) :
  (∀ x, keeps I (body x)) → keeps I (for_each body l).
Proof.
  intros Hbody. induction l as [|x l IH]; cbn [for_each]; [by intros st|].
  apply keeps_bind; [apply Hbody|intros _; apply IH].
Qed.

Lemma range_single (n : nat) : (1 ≤ n ≤ 2000)%nat → range 0 n 2000 = [0%nat].
Proof.
  intros Hn. unfold range. destruct n as [|n]; [lia|]. cbn [range_from].
  destruct (Nat.ltb_spec 0 (S n)); [|lia]. f_equal.
  destruct n as [|n]; [done|]. cbn [range_from].
  destruct (Nat.ltb_spec (0 + 2000) (S (S n))); [lia|done].
Qed.

Lemma resolve_pending_settled (st : state) :
  Props.resolver_wf (resolver st) →
  (pending_count (resolver st) ≤ 200)%nat →
  Forall request_ok (outbound st) →
  Props.resolver_wf (resolver (resolve_pending st).1)
  ∧ _pending (resolver (resolve_pending st).1) = []
  ∧ buffered (resolve_pending st).1 = buffered st
  ∧ Forall request_ok (outbound (resolve_pending st).1).
Proof.
  intros Hwf Hcount Hreq.
  destruct (ReplayFacts.resolve_pending_clears st Hwf) as [Hp Hs].
  destruct (ReplayFacts.resolve_pending_stdout st) as [_ Hbuf].
  split; [split; rewrite ?Hp, ?Hs; [apply NoDup_nil_2|set_solver]|].
  split; [done|]. split; [done|].
  unfold resolve_pending. unfold pending_count in Hcount.
  destruct (_pending (resolver st)) as [|x0 pending0] eqn:Hpending; [done|].
  rewrite range_single by (cbn [length] in *; lia).
  match goal with |- context [for_each ?f ?l ?s] =>
    destruct (ReplayFacts.resolve_loop_spec (x0 :: pending0) l s) as [_ (sent & Hpre & _ & ->)]
  end.
  cbn [outbound]. apply Forall_app. split; [done|].
  apply Forall_map, Forall_forall. intros i Hi.
  assert (i = 0%nat) as ->.
  { destruct Hpre as [rest Hrest]. destruct sent as [|j sent]; [by apply elem_of_nil in Hi|].
    injection Hrest as <- Hrest'. destruct sent; [|done].
    by apply list_elem_of_singleton in Hi. }
  unfold request_ok, request_of. cbn [symbols drop].
  rewrite take_ge by (cbn [length] in *; lia).
  destruct Hwf as [Hnodup _]. rewrite Hpending in Hnodup.
  split; [cbn [length] in *; lia|done].
Qed.

Lemma emit_payload_core (r : option payload) (st : state) :
  resolver (emit_payload r st).1 = resolver st
  ∧ buffered (emit_payload r st).1 = buffered st
  ∧ outbound (emit_payload r st).1 = outbound st.
Proof.
  destruct r as [p|]; cbn [emit_payload]; [|done].
  unfold print_json. by destruct (forallb _ p).
Qed.

Lemma flush_entries_core (force : bool) entries remaining (st : state) :
  resolver (flush_entries force entries remaining st).1 = resolver st
  ∧ buffered (flush_entries force entries remaining st).1 = buffered st
  ∧ outbound (flush_entries force entries remaining st).1 = outbound st.
Proof.
  revert remaining st. induction entries as [|[[record instrument_id] d] entries IH];
    intros remaining st; cbn [flush_entries]; [done|].
  assert (Hemit : ∀ symbol,
    let m := bind (lift (build_payload record symbol))
               (fun p => bind (emit_payload p)
                           (fun _ => flush_entries force entries remaining)) in
    resolver (m st).1 = resolver st ∧ buffered (m st).1 = buffered st
    ∧ outbound (m st).1 = outbound st).
  { intros symbol. cbn zeta. unfold bind at 1, lift.
    destruct (build_payload record symbol) as [r|e]; [|done]. unfold bind.
    destruct (emit_payload_core r st) as (Hr & Hb & Ho).
    destruct (emit_payload r st) as [st1 [[]|e]]; cbn [fst] in *; [|done].
    destruct (IH remaining st1) as (Hr' & Hb' & Ho'). repeat split; congruence. }
  destruct (truthy _); [apply Hemit|]. destruct force; [apply Hemit|apply IH].
Qed.

Lemma flush_buffer_settled (force : bool) (st : state) :
  settled 200 st → settled 199 (flush_buffer force st).1.
Proof.
  intros (Hwf & Hcount & Hcover & Hreq). unfold flush_buffer.
  destruct (buffered st) as [|entry entries] eqn:Hbuf.
  - cbn [fst]. assert (Hempty : _pending (resolver st) = []).
    { destruct (_pending (resolver st)) as [|x l] eqn:Hp; [done|].
      destruct (Hcover x) as (record & d & Hin); [by left|].
      by apply elem_of_nil in Hin. }
    split; [done|]. unfold pending_count. rewrite Hempty. cbn [length].
    split; [lia|]. split; [|done]. intros x Hx. by apply elem_of_nil in Hx.
  - destruct (resolve_pending_settled st Hwf Hcount Hreq) as (Hwf1 & Hp1 & _ & Hreq1).
    assert (Hdone : ∀ s : state,
      resolver s = resolver (resolve_pending st).1 →
      outbound s = outbound (resolve_pending st).1 → settled 199 s).
    { intros s Hr Ho. unfold settled, pending_count. rewrite Hr, Ho, Hp1. cbn [length].
      split; [done|]. split; [lia|]. split; [|done].
      intros x Hx. by apply elem_of_nil in Hx. }
    unfold bind at 1.
    destruct (resolve_pending st) as [st1 [[]|e]]; cbn [fst] in *; [|by apply Hdone].
    unfold bind.
    destruct (flush_entries_core force (entry :: entries) [] st1) as (Hr & _ & Ho).
    destruct (flush_entries force (entry :: entries) [] st1) as [st2 [rem|e]];
      cbn [fst] in *; by apply Hdone.
Qed.

Lemma queue_count (self : SymbolResolver) (x : Z) :
  (pending_count (queue x self) ≤ S (pending_count self))%nat
  ∧ ∀ y, y ∈ _pending (queue x self) → y = x ∨ y ∈ _pending self.
Proof.
  unfold pending_count. destruct (decide (x ∈ _pending_set self)) as [Hin|Hout].
  - rewrite ReplayFacts.queue_pending_present by done. split; [lia|]. auto.
  - destruct (ReplayFacts.queue_pending_absent self x Hout) as [-> _].
    rewrite length_app. cbn. split; [lia|]. intros y Hy.
    apply elem_of_app in Hy as [Hy|Hy]; [by right|]. left.
    by apply list_elem_of_singleton in Hy.
Qed.

Lemma handle_record_settled (record : gmap string pyval) :
  keeps (settled 199) (handle_record record).
Proof.
  intros st Hst.
  destruct (normalize_ts (getattr record "ts_event")) as [[ts_ms|]|e] eqn:Hts.
  2,3: unfold handle_record, bind, lift; by rewrite Hts.
  destruct (utcfromtimestamp_date ts_ms) as [d|e] eqn:Hd.
  2: unfold handle_record, bind, lift; by rewrite Hts, Hd.
  assert (Hframe : ∀ symbol,
    settled 199 (bind (lift (build_payload record symbol)) emit_payload st).1).
  { intros symbol. destruct (emit_built_frame record symbol st) as (Hr & Hb & Ho & _).
    unfold settled. by rewrite Hr, Hb, Ho. }
  destruct (is_numeric_symbol (symbol_of record)) eqn:Hnum.
  - destruct (numeric_symbol_int _ Hnum) as (instrument_id & Hint & _).
    destruct (truthy (lookup (resolver st) instrument_id d)) eqn:Hmapped.
    + rewrite (handle_record_cached record st ts_ms d instrument_id) by done. apply Hframe.
    + rewrite (handle_record_unresolved record st ts_ms d instrument_id) by done.
      cbn zeta.
      set (st1 := mkState (queue instrument_id (resolver st))
                    (buffered st ++ [(record, instrument_id, d)]) (stdout st) (outbound st)).
      destruct Hst as (Hwf & Hcount & Hcover & Hreq).
      destruct (queue_count (resolver st) instrument_id) as [Hle Hmem].
      assert (Hst1 : settled 200 st1).
      { split; [by apply ReplayFacts.queue_wf|]. split; [cbn [resolver st1]; lia|].
        split; [|done]. intros x Hx. cbn [resolver buffered st1] in *.
        destruct (Hmem x Hx) as [->|Hold].
        - exists record, d. apply elem_of_app. right. by apply list_elem_of_singleton.
        - destruct (Hcover x Hold) as (record' & d' & Hin).
          exists record', d'. apply elem_of_app. by left. }
      destruct (Nat.leb_spec 200 (pending_count (resolver st1))) as [Hfull|Hroom].
      * by apply flush_buffer_settled.
      * cbn [fst]. destruct Hst1 as (? & ? & ? & ?). split; [done|]. split; [lia|]. done.
  - rewrite (handle_record_direct record st ts_ms d) by done. apply Hframe.
Qed.

Lemma settled_weaken (st : state) : settled 199 st → settled 200 st.
Proof. intros (? & ? & ? & ?). split; [done|]. split; [lia|done]. Qed.

(** Throughout a run, whether it ends normally or not: the pending list
    holds fewer than 200 distinct identifiers, each of them has a buffered
    record waiting for it, and every request sent to the symbology
    service carries between 1 and 200 identifiers, none twice. *)
Theorem main_settled has_replay has_iter (data : list (gmap string pyval)) (st : state) :
  settled 199 st → settled 199 (main has_replay has_iter data st).1.
Proof.
  assert (Hflush : ∀ force, keeps (settled 199) (flush_buffer force)).
  { intros force s Hs. by apply flush_buffer_settled, settled_weaken. }
  assert (Hreplay : keeps (settled 199) (data_replay data handle_record))
    by apply keeps_for_each, handle_record_settled.
  assert (Hend : keeps (settled 199) (bind (flush_buffer true) (fun _ => ret 0))).
  { apply keeps_bind; [apply Hflush|]. by intros _ s. }
  revert st. change (keeps (settled 199) (main has_replay has_iter data)).
  unfold main. destruct has_replay; [|destruct has_iter; [|by intros s]].
  - unfold main_replay. apply keeps_bind; [|by intros _].
    intros st Hst. unfold try_except_TypeError.
    assert (Hfirst : keeps (settled 199)
                       (if replay_takes_callback_keyword
                        then data_replay data handle_record else raise TypeError)).
    { destruct replay_takes_callback_keyword; [done|by intros s]. }
    specialize (Hfirst st Hst).
    destruct ((if replay_takes_callback_keyword
               then data_replay data handle_record else raise TypeError) st)
      as [st' [a|e]]; [done|].
    destruct e; try done. by apply Hreplay.
  - unfold main_iter. apply keeps_bind; [|by intros _].
    apply keeps_for_each. intros record. unfold iter_step.
    apply keeps_bind; [apply handle_record_settled|]. intros _ s Hs.
    destruct (2000 <=? length (buffered s))%nat; [|done]. by apply Hflush.
Qed.

End Invariant.

Section Backlog.
Context {RT : Runtime} {DB : Databento}.

Lemma request_of_queue (self : SymbolResolver) (x : Z) (chunk : list Z) :
  request_of (clear_pending (queue x self)) chunk = request_of self chunk.
Proof. unfold request_of, queue. by destruct (decide _). Qed.

(** On the iterator path a backlog is not bounded by the threshold: with
    1999 or more entries buffered and nothing pending, a further record
    whose identifier is unknown is buffered, one request for that single
    identifier is sent, and if the answer resolves nothing the buffer
    keeps every entry, nothing is written and nothing is pending again,
    so that the next such record does the same. *)
Theorem backlog_requests_every_record (record : gmap string pyval) (st st' : state)
    ts_ms d instrument_id :
  normalize_ts (getattr record "ts_event") = Ok (Some ts_ms) →
  utcfromtimestamp_date ts_ms = Ok d →
  is_numeric_symbol (symbol_of record) = true →
  py_int (symbol_of record) = Ok instrument_id →
  truthy (lookup (resolver st) instrument_id d) = false →
  resolver_wf (resolver st) →
  _pending (resolver st) = [] →
  (1999 ≤ length (buffered st))%nat →
  iter_step record st = (st', Ok tt) →
  Forall (fun e => unresolved (resolver st') e = true)
    (buffered st ++ [(record, instrument_id, d)]) →
  outbound st' = outbound st ++ [request_of (resolver st) [instrument_id]]
  ∧ buffered st' = buffered st ++ [(record, instrument_id, d)]
  ∧ stdout st' = stdout st
  ∧ _pending (resolver st') = [].
Proof.
  intros Hts Hd Hnum Hint Hmapped Hwf Hpending Hfull Hstep Hnone.
  assert (Hout : instrument_id ∉ _pending_set (resolver st)).
  { intros Hin. apply Hwf in Hin. rewrite Hpending in Hin. by apply elem_of_nil in Hin. }
  destruct (ReplayFacts.queue_pending_absent (resolver st) instrument_id Hout) as [Hq _].
  rewrite Hpending in Hq. cbn [app] in Hq.
  revert Hstep. unfold iter_step, bind.
  rewrite (handle_record_unresolved record st ts_ms d instrument_id) by done.
  cbn zeta. cbn [resolver]. unfold pending_count. rewrite Hq.
  destruct (Nat.leb_spec 200 (length [instrument_id])) as [Hbad|_]; [cbn [length] in Hbad; lia|].
  cbn [buffered].
  destruct (Nat.leb_spec 2000 (length (buffered st ++ [(record, instrument_id, d)])))
    as [_|Hlt]; [|rewrite length_app in Hlt; cbn [length] in Hlt; lia].
  set (st1 := mkState (queue instrument_id (resolver st))
                (buffered st ++ [(record, instrument_id, d)]) (stdout st) (outbound st)).
  intros Hflush.
  destruct (flush_buffer_spec false st1 st' Hflush) as (Hok & _ & Hsent & Hp & Hkept & Hstd).
  { cbn [st1 buffered]. by destruct (buffered st). }
  cbn [st1 buffered stdout] in Hkept, Hstd.
  destruct (flush_lines_unresolved _ _ Hnone) as [Hkeep Hlines].
  rewrite Hkeep in Hkept. rewrite Hlines, app_nil_r in Hstd.
  split; [|done]. rewrite Hsent. clear Hflush Hkept Hstd Hp Hsent Hnone Hkeep Hlines.
  revert Hok. unfold resolve_pending. cbn [st1 resolver]. rewrite Hq.
  cbn [length]. rewrite range_single by lia.
  match goal with |- context [for_each ?f ?l ?s] =>
    destruct (ReplayFacts.resolve_loop_spec [instrument_id] l s) as [_ (sent & _ & Hall & ->)]
  end.
  intros Hok. rewrite (Hall Hok). cbn [map outbound drop].
  rewrite take_ge by (cbn; lia). cbn [resolver]. by rewrite request_of_queue.
Qed.

End Backlog.

Section Ledger.
Context {RT : Runtime} {DB : Databento}.















End Ledger.

Lemma build_payload_schema_witness :
  @build_payload utc_runtime (named_trade "AAPL" 1000) PyNone
  = Ok (Some [("ts", PyInt 1000); ("price", PyFloat f10_5); ("size", PyInt 5);
              ("symbol", PyStr "AAPL")])
  ∧ ∃ ts_ms price size symbol rest,
      [("ts", PyInt 1000); ("price", PyFloat f10_5); ("size", PyInt 5); ("symbol", PyStr "AAPL")]
      = [("ts", PyInt ts_ms); ("price", PyFloat price); ("size", PyInt size);
         ("symbol", PyStr symbol)] ++ rest
      ∧ (rest.*1 = [] ∨ rest.*1 = ["exchange"] ∨ rest.*1 = ["conditions"]
         ∨ rest.*1 = ["exchange"; "conditions"])%string
      ∧ (∀ v, ("exchange"%string, v) ∈ rest → ∃ s, v = PyStr s)
      ∧ (∀ v, ("conditions"%string, v) ∈ rest → truthy v = true ∧ ∀ s, v ≠ PyStr s).
Proof.
  assert (Hbuilt : @build_payload utc_runtime (named_trade "AAPL" 1000) PyNone
                   = Ok (Some [("ts", PyInt 1000); ("price", PyFloat f10_5); ("size", PyInt 5);
                               ("symbol", PyStr "AAPL")]))
    by (vm_compute; reflexivity).
  split; [exact Hbuilt|]. exact (build_payload_schema _ _ _ Hbuilt).
Defined.

Lemma flush_buffer_exact_witness :
  @flush_buffer utc_runtime silent_client true three_buffered = (flushed, Ok tt)
  ∧ buffered flushed = []
  ∧ stdout flushed
    = stdout three_buffered
      ++ @flush_lines utc_runtime silent_client true (resolver flushed) (buffered three_buffered).
Proof.
  assert (Hflush : @flush_buffer utc_runtime silent_client true three_buffered
                   = (flushed, Ok tt)) by (vm_compute; reflexivity).
  split; [exact Hflush|].
  destruct (@flush_buffer_exact utc_runtime silent_client true _ _ Hflush) as (Hbuf & Hout & _).
  split; [exact Hbuf|exact Hout].
Defined.

Lemma handle_record_routing_witness :
  (@normalize_ts utc_runtime (getattr (trade 7 1000) "ts_event") = Ok (Some 1000)
   ∧ utcfromtimestamp_date 1000 = Ok (Date 719163))
  ∧ @handle_record utc_runtime silent_client (trade 7 1000) start_state
    = (mkState (queue 7 (resolver start_state))
         (buffered start_state ++ [(trade 7 1000, 7, Date 719163)])
         (stdout start_state) (outbound start_state),
       Ok tt).
Proof.
  assert (Hts : @normalize_ts utc_runtime (getattr (trade 7 1000) "ts_event") = Ok (Some 1000))
    by (vm_compute; reflexivity).
  assert (Hd : utcfromtimestamp_date 1000 = Ok (Date 719163)) by (vm_compute; reflexivity).
  split; [by split|].
  destruct (@handle_record_routing utc_runtime silent_client (trade 7 1000) start_state
              1000 (Date 719163) Hts Hd) as [_ Hnumeric].
  apply (Hnumeric 7); [vm_compute; reflexivity..|].
  vm_compute. lia.
Defined.

Lemma forced_flush_drains_buffer_witness :
  @flush_buffer utc_runtime silent_client true three_buffered = (flushed, Ok tt)
  ∧ buffered flushed = []
  ∧ (∃ new, stdout flushed = stdout three_buffered ++ new
       ∧ Forall2 (fun entry p =>
                    @build_payload utc_runtime entry.1.1
                      (@forced_symbol silent_client (resolver flushed) entry) = Ok (Some p))
           (filter (fun entry => @complete utc_runtime entry.1.1 = true) (buffered three_buffered))
           new)
  ∧ stdout flushed
    = [[("ts", PyInt 1000); ("price", PyFloat f10_5); ("size", PyInt 5); ("symbol", PyStr "7")];
       [("ts", PyInt 1000); ("price", PyFloat f10_5); ("size", PyInt 5); ("symbol", PyStr "8")];
       [("ts", PyInt 2000); ("price", PyFloat f10_5); ("size", PyInt 5); ("symbol", PyStr "7")]].
Proof.
  assert (Hflush : @flush_buffer utc_runtime silent_client true three_buffered
                   = (flushed, Ok tt)) by (vm_compute; reflexivity).
  split; [exact Hflush|].
  destruct (proj1 (@forced_flush_drains_buffer utc_runtime silent_client three_buffered)
              flushed Hflush) as (Hempty & new & Hout & Hlines & _).
  split; [exact Hempty|]. split; [exists new; split; [exact Hout|exact Hlines]|].
  vm_compute. reflexivity.
Defined.


Lemma backlog_requests_every_record_witness :
  outbound (@iter_step utc_runtime silent_client (trade 7 2000) backlog).1
  = outbound backlog ++ [@request_of utc_runtime silent_client (resolver backlog) [7]]
  ∧ buffered (@iter_step utc_runtime silent_client (trade 7 2000) backlog).1
    = buffered backlog ++ [(trade 7 2000, 7, Date 719163)]
  ∧ stdout (@iter_step utc_runtime silent_client (trade 7 2000) backlog).1 = stdout backlog
  ∧ _pending (resolver (@iter_step utc_runtime silent_client (trade 7 2000) backlog).1) = [].
Proof.
  apply (@backlog_requests_every_record utc_runtime silent_client (trade 7 2000) backlog _
           2000 (Date 719163) 7).
  - vm_compute; reflexivity.
  - vm_compute; reflexivity.
  - vm_compute; reflexivity.
  - vm_compute; reflexivity.
  - reflexivity.
  - split; [apply NoDup_nil_2|]. intros x. cbn. set_solver.
  - reflexivity.
  - unfold backlog. cbn [buffered]. rewrite length_replicate. lia.
  - etrans; [apply surjective_pairing|]. f_equal; reflexivity.
  - apply Forall_forall. intros e _. reflexivity.
Defined.

Lemma main_settled_witness :
  @settled silent_client 199 start_state
  ∧ @settled silent_client 199
      (@main utc_runtime silent_client true true one_instrument_prints start_state).1.
Proof.
  assert (Hstart : @settled silent_client 199 start_state).
  { split; [split; [apply NoDup_nil_2|intros x; cbn; set_solver]|].
    split; [cbn; lia|]. split; [|apply Forall_nil_2].
    intros x Hx. cbn in Hx. by apply elem_of_nil in Hx. }
  split; [exact Hstart|]. exact (main_settled true true _ _ Hstart).
Defined.

End FlowFacts.

(** ** Facts on symbols as text *)
Module TextFacts.
Import Py Replay Examples.

Section WithRuntime.
Context {RT : Runtime}.

(** [stringify] gives text for everything but [None], and applying it
    twice is applying it once. *)
Theorem stringify_idempotent (value : pyval) :
  stringify (stringify value) = stringify value
  ∧ (stringify value = PyNone ↔ value = PyNone)
  ∧ (value ≠ PyNone → ∃ s, stringify value = PyStr s).
Proof.
  split; [by destruct value|]. split; [split; by destruct value|].
  intros Hv. destruct value; try done; by eexists.
Qed.

Lemma pretty_N_char_digit (x : N) :
  (x < 10)%N →
  is_digit_char (pretty_N_char x) = true
  ∧ Z.of_nat (nat_of_ascii (pretty_N_char x)) - 48 = Z.of_N x.
Proof.
  intros Hx.
  assert (x = 0 ∨ x = 1 ∨ x = 2 ∨ x = 3 ∨ x = 4 ∨ x = 5 ∨ x = 6 ∨ x = 7 ∨ x = 8 ∨ x = 9)%N
    as Hcases by lia.
  repeat (destruct Hcases as [->|Hcases]; [by vm_compute|]). subst x. by vm_compute.
Qed.

Lemma pretty_N_go_digits (x : N) (s : string) (acc : Z) :
  all_digits (pretty_N_go x s) = all_digits s
  ∧ ∃ k, 0 ≤ k
         ∧ int_of_digits_from acc (pretty_N_go x s)
           = int_of_digits_from (acc * 10 ^ k + Z.of_N x) s.
Proof.
  revert s acc. induction (N.lt_wf_0 x) as [x _ IH]; intros s acc.
  destruct (decide (x = 0)%N) as [->|Hx].
  - rewrite pretty_N_go_0. split; [done|]. exists 0. split; [done|]. f_equal. lia.
  - rewrite pretty_N_go_step by lia.
    destruct (pretty_N_char_digit (x `mod` 10)) as [Hdigit Hvalue];
      [apply N.mod_lt; lia|].
    destruct (IH (x `div` 10)%N (N.div_lt x 10 ltac:(lia) ltac:(lia))
                (String (pretty_N_char (x `mod` 10)) s) acc)
      as [Hall (k & Hk & Hint)].
    split; [rewrite Hall; cbn [all_digits]; by rewrite Hdigit|].
    exists (k + 1). split; [lia|]. rewrite Hint. cbn [int_of_digits_from]. f_equal.
    rewrite Hvalue, Z.pow_add_r by lia. change (10 ^ 1) with 10.
    rewrite (N.div_mod x 10) at 3 by lia.
    rewrite N2Z.inj_add, N2Z.inj_mul. change (Z.of_N 10) with 10. lia.
Qed.

(** The decimal text of an identifier is a numeric symbol and reads back
    as that identifier, so the fallback symbol written by a forced flush
    is routed like the identifier itself; the text of a negative number is
    not numeric, though the number is. *)
Theorem numeric_symbol_round_trip (n : Z) :
  (0 ≤ n →
   is_numeric_symbol (stringify (PyInt n)) = true
   ∧ py_int (stringify (PyInt n)) = Ok n)
  ∧ (n < 0 →
     is_numeric_symbol (stringify (PyInt n)) = false
     ∧ is_numeric_symbol (PyInt n) = true).
Proof.
  cbn [stringify py_str is_numeric_symbol py_int].
  split.
  - intros Hn.
    assert (Hdigits : isdigit (pretty n) = true ∧ int_of_digits (pretty n) = n).
    { unfold isdigit, int_of_digits.
      destruct (String.eqb_spec (pretty n) "") as [Hempty|_];
        [by destruct (ReplayFacts.pretty_Z_nonempty n)|].
      destruct n as [|p|p]; [done| |lia].
      unfold pretty, pretty_Z, pretty, pretty_positive, pretty, pretty_N.
      rewrite decide_False by done.
      destruct (pretty_N_go_digits (N.pos p) "" 0) as [Hall (k & _ & Hint)].
      rewrite Hall, Hint. cbn [all_digits int_of_digits_from negb andb]. split; [done|]. lia. }
    destruct Hdigits as [Hd Hi]. by rewrite Hd, Hi.
  - intros Hn. destruct n as [|p|p]; try lia. split; [|done].
    unfold isdigit. change (pretty (Z.neg p)) with ("-" +:+ pretty p).
    cbn. done.
Qed.

End WithRuntime.

Lemma numeric_symbol_round_trip_witness :
  is_numeric_symbol (@stringify utc_runtime (PyInt 42)) = true
  ∧ @py_int utc_runtime (@stringify utc_runtime (PyInt 42)) = Ok 42.
Proof. apply (@numeric_symbol_round_trip utc_runtime 42). lia. Defined.

End TextFacts.

(** ** Facts on the retry of the callback path *)
Module RetryFacts.
Import Py Replay FlowProps FlowFacts RetryProps Examples Cases.

Section WithClient.
Context {RT : Runtime} {DB : Databento}.

Lemma write_nil (st : state) : write [] st = st.
Proof. unfold write. rewrite app_nil_r. by destruct st. Qed.

Lemma write_write (l k : list payload) (st : state) : write k (write l st) = write (l ++ k) st.
Proof. unfold write. cbn. by rewrite app_assoc. Qed.

Lemma replay_written (records : list (gmap string pyval)) (lines : list payload) (st : state) :
  Forall2 written_at_once records lines →
  for_each handle_record records st = (write lines st, Ok tt).
Proof.
  intros Hall. revert st. induction Hall as [|record p records lines Hrec _ IH]; intros st.
  - cbn. by rewrite write_nil.
  - destruct Hrec as (Hnum & (ts_ms & d & Hts & Hd) & Hb & Hjson).
    cbn [for_each]. unfold bind at 1.
    rewrite (handle_record_direct record st ts_ms d) by done.
    unfold bind, lift. rewrite Hb. cbn [emit_payload]. unfold print_json. rewrite Hjson.
    change (mkState (resolver st) (buffered st) (stdout st ++ [p]) (outbound st))
      with (write [p] st).
    rewrite IH, write_write. done.
Qed.

(** The retry of [data.replay] also catches a [TypeError] raised by the
    handler: when a record fails that way after records that were
    written at once, the stream is handled again from its first record,
    so each of those lines is written twice before [main] fails. *)
Theorem replay_retry_repeats_lines (good : list (gmap string pyval)) (bad : gmap string pyval)
    (lines : list payload) (st : state) :
  replay_takes_callback_keyword = true →
  Forall2 written_at_once good lines →
  raises_TypeError bad →
  main true true (good ++ [bad]) st = (write (lines ++ lines) st, Raise TypeError).
Proof.
  intros Hkw Hgood (Hnum & (ts_ms & d & Hts & Hd) & Hb).
  assert (Hpass : ∀ s, data_replay (good ++ [bad]) handle_record s
                       = (write lines s, Raise TypeError)).
  { intros s. unfold data_replay.
    assert (Happ : ∀ l k s0, for_each handle_record (l ++ k) s0
              = bind (for_each handle_record l) (fun _ => for_each handle_record k) s0).
    { clear. intros l k. induction l as [|x l IH]; intros s0; cbn [for_each app].
      - done.
      - unfold bind in *. destruct (handle_record x s0) as [s1 [[]|e]]; [apply IH|done]. }
    rewrite Happ. unfold bind at 1. rewrite (replay_written good lines s Hgood).
    cbn [for_each]. unfold bind at 1.
    rewrite (handle_record_direct bad _ ts_ms d) by done.
    unfold bind, lift. by rewrite Hb. }
  cbn [main]. unfold main_replay, bind at 1, try_except_TypeError.
  rewrite Hkw, Hpass, Hpass, write_write. done.
Qed.

End WithClient.

Lemma replay_retry_repeats_lines_witness :
  @main utc_runtime silent_client true true
    ([named_trade "AAPL" 1000; named_trade "MSFT" 2000] ++ [malformed_trade]) start_state
  = (write
       ([[("ts", PyInt 1000); ("price", PyFloat f10_5); ("size", PyInt 5);
          ("symbol", PyStr "AAPL")];
         [("ts", PyInt 2000); ("price", PyFloat f10_5); ("size", PyInt 5);
          ("symbol", PyStr "MSFT")]]
        ++ [[("ts", PyInt 1000); ("price", PyFloat f10_5); ("size", PyInt 5);
             ("symbol", PyStr "AAPL")];
            [("ts", PyInt 2000); ("price", PyFloat f10_5); ("size", PyInt 5);
             ("symbol", PyStr "MSFT")]])
       start_state,
     Raise TypeError).
Proof.
  apply (@replay_retry_repeats_lines utc_runtime silent_client).
  - reflexivity.
  - apply Forall2_cons. split; [|apply Forall2_cons; split; [|apply Forall2_nil_2]].
    + split; [vm_compute; reflexivity|]. split; [|split; vm_compute; reflexivity].
      exists 1000, (Date 719163). split; vm_compute; reflexivity.
    + split; [vm_compute; reflexivity|]. split; [|split; vm_compute; reflexivity].
      exists 2000, (Date 719163). split; vm_compute; reflexivity.
  - split; [vm_compute; reflexivity|]. split; [|vm_compute; reflexivity].
    exists 3000, (Date 719163). split; vm_compute; reflexivity.
Defined.

End RetryFacts.

(** ** Facts on runs of the live handler *)
Module LiveRunFacts.
Import Py Live Props LiveProps LiveFacts Examples Cases.

Section WithRuntime.
Context {RT : Runtime}.

Lemma on_update_sound (update : Ticker * float) key (st : state) :
  sound_tick update key →
  key_eq key (last_key st) = false →
  last_key (on_update update.1 update.2 st).1 = Some key
  ∧ length (stdout (on_update update.1 update.2 st).1) = S (length (stdout st)).
Proof.
  destruct update as [t now]. destruct key as [[ts_ms price] size].
  unfold sound_tick. cbn [fst snd].
  intros (Hguard & _ & Hts & <- & <- & exch & p & n & Hexch & Hjson & Hprice & Hsize) Hkey.
  rewrite (on_update_written t now st ts_ms exch p n) by done.
  cbn [fst last_key stdout]. rewrite length_app. cbn. split; [done|lia].
Qed.

Lemma on_update_same (update : Ticker * float) key (st : state) :
  sound_tick update key →
  key_eq key (last_key st) = true →
  on_update update.1 update.2 st = (st, Ok tt).
Proof.
  destruct update as [t now]. destruct key as [[ts_ms price] size].
  unfold sound_tick. cbn [fst snd].
  intros (Hguard & _ & Hts & <- & <- & _) Hkey. by apply (on_update_duplicate t now st ts_ms).
Qed.

(** A run writes at most one line for each update and never touches the
    lines already written.  It writes a line for every update when no
    key equals the one just before it, whether or not it equals an
    earlier one; and a tick repeated any number of times gives one line. *)
Theorem live_only_adjacent_suppressed :
  (∀ updates st, ∃ new, stdout (run updates st) = stdout st ++ new
                        ∧ (length new ≤ length updates)%nat)
  ∧ (∀ updates keys st,
       Forall2 sound_tick updates keys →
       adjacent_differ (last_key st) keys →
       length (stdout (run updates st)) = (length (stdout st) + length updates)%nat)
  ∧ (∀ update key n st,
       sound_tick update key →
       key_eq key (last_key st) = false →
       length (stdout (run (replicate (S n) update) st)) = S (length (stdout st))).
Proof.
  split; [|split].
  - intros updates. induction updates as [|[t now] updates IH]; intros st; cbn [run].
    + exists []. by rewrite app_nil_r.
    + destruct (IH (on_update t now st).1) as (new & -> & Hlen).
      destruct (on_update_outcome t now st); cbn [fst stdout].
      1-4: exists new; split; [done|cbn [length]; lia].
      exists (line ts_ms price size exch :: new). rewrite <- app_assoc.
      split; [done|]. cbn [length]. lia.
  - intros updates keys st Hsound. revert st.
    induction Hsound as [|[t now] key updates keys Hkey _ IH]; intros st; cbn [run adjacent_differ].
    + intros _. cbn. lia.
    + intros [Hdiff Hrest].
      destruct (on_update_sound (t, now) key st Hkey Hdiff) as [Hlast Hlen].
      cbn [fst snd] in *. rewrite IH by (by rewrite Hlast). cbn [length]. lia.
  - intros [t now] key n st Hkey Hdiff. cbn [replicate run].
    assert (Hself : key_eq key (Some key) = true) by apply Hkey.
    destruct (on_update_sound (t, now) key st Hkey Hdiff) as [Hlast Hlen].
    cbn [fst snd] in *. rewrite <- Hlen. clear Hlen Hdiff.
    revert Hlast. generalize (on_update t now st).1. clear st.
    induction n as [|n IH]; intros s Hlast; cbn [replicate run]; [done|].
    pose proof (on_update_same (t, now) key s Hkey) as Hsame. cbn [fst snd] in Hsame.
    rewrite Hsame by (by rewrite Hlast). cbn [fst]. by apply IH.
Qed.

End WithRuntime.

Lemma live_only_adjacent_suppressed_witness :
  length (stdout (@run utc_runtime there_and_back initial_state))
  = (length (stdout initial_state) + length there_and_back)%nat.
Proof.
  apply (proj1 (proj2 (@live_only_adjacent_suppressed utc_runtime)) there_and_back
           [(1000, PyFloat f10_5, PyInt 5); (2000, PyFloat f10_5, PyInt 5);
            (1000, PyFloat f10_5, PyInt 5)]).
  - repeat (apply Forall2_cons; split;
            [repeat (split; [vm_compute; reflexivity|]);
             exists (PyStr "SMART"), f10_5, 5; repeat split; vm_compute; reflexivity|]).
    apply Forall2_nil_2.
  - repeat split; vm_compute; reflexivity.
Defined.

End LiveRunFacts.
